(** * iXBRLViewer.py: a shallow embedding and its verified properties

    The development follows the layout of [iXBRLViewer.py]:

    - [Py]: the few Python built-ins the plugin relies on ([str.replace],
      ["%d"] formatting, truthiness, the [re.sub] call of [dateFormat]);
    - [Json]: the lexical layer of a JSON reader, used to state what the
      script-tag escaping preserves;
    - [NamespaceMap]: the prefix allocator class;
    - [Builder]: [IXBRLViewerBuilder] ([addConcept], the fact loop of
      [saveViewer], the markup surgery and the final write), and [lineWrap];
    - [Plugin]: the two commands that run the builder.

    Python dictionaries are finite maps ([gmap]); their insertion order only
    shapes the layout of the serialized text and is not modelled.  Python
    strings are [string]s; the language of a label, of which the code only
    takes the lower-case form, is known by that form ([Model.str]).  The
    fact objects are elements of the markup tree: an [id] that the fact loop
    sets on a fact is written into the tree that [saveViewer] serializes
    ([Model.set_at], [Builder.mark_ids]). *)

From Stdlib Require Import String Ascii List NArith Lia.
From stdpp Require Import gmap strings list pretty.
Import ListNotations.
Open Scope string_scope.

(* ===================================================================== *)
(** * Python built-ins *)
(* ===================================================================== *)

Module Py.

(** [bool(s)] for a string: only the empty string is falsy. *)
Definition truthy (s : string) : bool :=
  match s with
  | EmptyString => false
  | String _ _ => true
  end.

(** [bool(x)] for a value that is either [None] or a string. *)
Definition truthy_opt (o : option string) : bool :=
  match o with
  | None => false
  | Some s => truthy s
  end.

(** ["%d" % n] for a non-negative integer: decimal, no padding. *)
Definition fmt_d (n : nat) : string := pretty n.

(** [s.replace(old, new)] where [old] is a single character, as in each of
    the three calls of [escapeJSONForScriptTag]. *)
Fixpoint replace (old : ascii) (new : string) (s : string) : string :=
  match s with
  | EmptyString => EmptyString
  | String c r =>
      if Ascii.eqb c old then new +:+ replace old new r
      else String c (replace old new r)
  end.

(** Does [s] start with [p]? *)
Fixpoint startswith (p s : string) : bool :=
  match p, s with
  | EmptyString, _ => true
  | String a p', String b s' => Ascii.eqb a b && startswith p' s'
  | String _ _, EmptyString => false
  end.

Definition newline : ascii := "010"%char.

(** [re.sub(pat + "$", "", s)] for a literal pattern [pat] that is neither
    empty nor contains a newline.  Without [re.MULTILINE], [$] matches at the
    very end of the string and also just before a newline that is the last
    character; the scan goes left to right, and a match always reaches the
    end of the string (or its final newline), so at most one is replaced. *)
Fixpoint sub_at_end (pat : string) (s : string) : string :=
  match s with
  | EmptyString => EmptyString
  | String c r =>
      if String.eqb s pat then EmptyString
      else if String.eqb s (pat +:+ String newline EmptyString)
           then String newline EmptyString
      else String c (sub_at_end pat r)
  end.

End Py.

(* ===================================================================== *)
(** * The script-tag escaping *)
(* ===================================================================== *)

(** The three replacement texts: a backslash, [u] and four hexadecimal
    digits (the JSON escape of the character's code point). *)
Definition backslash : ascii := "092"%char.
Definition esc_lt : string := String backslash "u003C".
Definition esc_gt : string := String backslash "u003E".
Definition esc_amp : string := String backslash "u0026".

(** [IXBRLViewerBuilder.escapeJSONForScriptTag] (it does not use [self]). *)
Definition escapeJSONForScriptTag (s : string) : string :=
  Py.replace "&" esc_amp (Py.replace ">" esc_gt (Py.replace "<" esc_lt s)).

(** The other five orders in which the three passes can be chained. *)
Definition escape_lt_amp_gt (s : string) : string :=
  Py.replace ">" esc_gt (Py.replace "&" esc_amp (Py.replace "<" esc_lt s)).
Definition escape_gt_lt_amp (s : string) : string :=
  Py.replace "&" esc_amp (Py.replace "<" esc_lt (Py.replace ">" esc_gt s)).
Definition escape_gt_amp_lt (s : string) : string :=
  Py.replace "<" esc_lt (Py.replace "&" esc_amp (Py.replace ">" esc_gt s)).
Definition escape_amp_lt_gt (s : string) : string :=
  Py.replace ">" esc_gt (Py.replace "<" esc_lt (Py.replace "&" esc_amp s)).
Definition escape_amp_gt_lt (s : string) : string :=
  Py.replace "<" esc_lt (Py.replace ">" esc_gt (Py.replace "&" esc_amp s)).

(** The specification's reading: one substitution per character. *)
Definition subst_char (c : ascii) : string :=
  if Ascii.eqb c "<" then esc_lt
  else if Ascii.eqb c ">" then esc_gt
  else if Ascii.eqb c "&" then esc_amp
  else String c EmptyString.

Fixpoint subst_all (s : string) : string :=
  match s with
  | EmptyString => EmptyString
  | String c r => subst_char c +:+ subst_all r
  end.

Definition xml_special (c : ascii) : bool :=
  Ascii.eqb c "<" || Ascii.eqb c ">" || Ascii.eqb c "&".

Fixpoint occurs (c : ascii) (s : string) : bool :=
  match s with
  | EmptyString => false
  | String d r => Ascii.eqb d c || occurs c r
  end.

(* ===================================================================== *)
(** * The lexical layer of a JSON reader *)
(* ===================================================================== *)

(** What a JSON reader ([json.loads], or the browser's [JSON.parse] that
    consumes the embedded payload) sees of a text before any structure is
    built: the characters outside string literals, and for each string
    literal the sequence of UTF-16 code units it denotes.  A literal
    character denotes its own code; the two-character escapes and the
    six-character hexadecimal escape denote the code they name.  Any value a
    reader builds is a function of this token sequence, and the string values
    of the payload are exactly its [TStr] tokens. *)

Module Json.

Inductive token : Type :=
| TChar (c : ascii)
| TStr (units : list N).

Definition dquote : ascii := "034"%char.

Definition hexval (c : ascii) : option N :=
  let n := N_of_ascii c in
  if (48 <=? n)%N && (n <=? 57)%N then Some (n - 48)%N
  else if (65 <=? n)%N && (n <=? 70)%N then Some (n - 55)%N
  else if (97 <=? n)%N && (n <=? 102)%N then Some (n - 87)%N
  else None.

(** The four hexadecimal digits after a backslash and [u]. *)
Definition decode_uXXXX (a b c d : ascii) : option N :=
  match hexval a, hexval b, hexval c, hexval d with
  | Some x, Some y, Some z, Some w => Some (((x * 16 + y) * 16 + z) * 16 + w)%N
  | _, _, _, _ => None
  end.

(** The two-character escapes. *)
Definition simple_escape (e : ascii) : option N :=
  if Ascii.eqb e dquote then Some 34%N
  else if Ascii.eqb e backslash then Some 92%N
  else if Ascii.eqb e "/" then Some 47%N
  else if Ascii.eqb e "b" then Some 8%N
  else if Ascii.eqb e "f" then Some 12%N
  else if Ascii.eqb e "n" then Some 10%N
  else if Ascii.eqb e "r" then Some 13%N
  else if Ascii.eqb e "t" then Some 9%N
  else None.

Definition is_control (c : ascii) : bool := (N_of_ascii c <? 32)%N.

(** Characters that JSON allows outside string literals: white space, the
    six structural characters, and the characters of numbers and of the
    literal names. *)
Definition outside_char (c : ascii) : bool :=
  let n := N_of_ascii c in
  (n =? 32)%N || (n =? 9)%N || (n =? 10)%N || (n =? 13)%N
  || Ascii.eqb c "{" || Ascii.eqb c "}" || Ascii.eqb c "[" || Ascii.eqb c "]"
  || Ascii.eqb c ":" || Ascii.eqb c ","
  || Ascii.eqb c "+" || Ascii.eqb c "-" || Ascii.eqb c "."
  || ((48 <=? n)%N && (n <=? 57)%N)
  || ((65 <=? n)%N && (n <=? 90)%N)
  || ((97 <=? n)%N && (n <=? 122)%N).

(** [scan mode s]: [mode] is [None] between tokens and [Some acc] inside a
    string literal, [acc] holding the code units read so far, last first.
    [None] as a result is a lexical error. *)
Fixpoint scan (mode : option (list N)) (s : string) : option (list token) :=
  match s with
  | EmptyString =>
      match mode with
      | None => Some []
      | Some _ => None
      end
  | String c r =>
      match mode with
      | None =>
          if Ascii.eqb c dquote then scan (Some []) r
          else if outside_char c then option_map (cons (TChar c)) (scan None r)
          else None
      | Some acc =>
          if Ascii.eqb c dquote
          then option_map (cons (TStr (rev acc))) (scan None r)
          else if Ascii.eqb c backslash then
            match r with
            | EmptyString => None
            | String e r1 =>
                if Ascii.eqb e "u" then
                  match r1 with
                  | String h1 (String h2 (String h3 (String h4 r2))) =>
                      match decode_uXXXX h1 h2 h3 h4 with
                      | Some u => scan (Some (u :: acc)) r2
                      | None => None
                      end
                  | _ => None
                  end
                else
                  match simple_escape e with
                  | Some u => scan (Some (u :: acc)) r1
                  | None => None
                  end
            end
          else if is_control c then None
          else scan (Some (N_of_ascii c :: acc)) r
      end
  end.

Definition tokens (s : string) : option (list token) := scan None s.

End Json.

(* ===================================================================== *)
(** * class NamespaceMap *)
(* ===================================================================== *)

Module NamespaceMap.

(** The two dictionaries of an instance: [nsmap] from identifier to prefix,
    [prefixmap] from prefix to identifier. *)
Record t : Type := mk {
  nsmap : gmap string string;
  prefixmap : gmap string string
}.

(** [__init__] *)
Definition new : t := {| nsmap := ∅; prefixmap := ∅ |}.

(** [k in d] *)
Definition contains {V : Type} (d : gmap string V) (k : string) : bool :=
  bool_decide (is_Some (d !! k)).

(** ["%s%d" % (p, n)] *)
Definition numbered (p : string) (n : nat) : string := p +:+ Py.fmt_d n.

(** The loop [while "%s%d" % (p,n) in self.prefixmap: n += 1], as a
    relation between the value of [n] on entry and on exit. *)
Inductive while_taken (pm : gmap string string) (p : string) : nat -> nat -> Prop :=
| while_exit n :
    contains pm (numbered p n) = false -> while_taken pm p n n
| while_iter n n' :
    contains pm (numbered p n) = true ->
    while_taken pm p (S n) n' -> while_taken pm p n n'.

(** The same loop as a function.  [fuel] bounds the number of iterations;
    [first_free] runs it with one more than the number of bound prefixes,
    which the loop never exhausts ([search_exits] below). *)
Fixpoint search (pm : gmap string string) (p : string) (fuel n : nat) : nat :=
  match fuel with
  | 0 => n
  | S fuel' =>
      if contains pm (numbered p n) then search pm p fuel' (S n) else n
  end.

Definition first_free (pm : gmap string string) (p : string) : nat :=
  search pm p (S (size pm)) 0.

(** The branch of [getPrefix] that picks a prefix for an identifier that has
    none. *)
Definition pick (pm : gmap string string) (preferredPrefix : option string) : string :=
  if Py.truthy_opt preferredPrefix
     && negb (contains pm (default "" preferredPrefix))
  then default "" preferredPrefix
  else
    let p := if Py.truthy_opt preferredPrefix
             then default "" preferredPrefix else "ns" in
    let n := first_free pm p in
    numbered p n.

(** [getPrefix(self, ns, preferredPrefix = None)]: the returned prefix and
    the instance after the call.  [preferredPrefix] is [None] or a string. *)
Definition getPrefix (self : t) (ns : string) (preferredPrefix : option string)
  : string * t :=
  let prefix := nsmap self !! ns in
  if negb (Py.truthy_opt prefix) then
    let prefix := pick (prefixmap self) preferredPrefix in
    (prefix, {| nsmap := <[ns := prefix]> (nsmap self);
                prefixmap := <[prefix := ns]> (prefixmap self) |})
  else (default "" prefix, self).

(** A qualified name of the source model. *)
Record QName : Type := {
  namespaceURI : string;
  prefix : option string;
  localName : string
}.

(** [qname(self, qname)]: ["%s:%s" % (prefix, localName)] *)
Definition qname (self : t) (q : QName) : string * t :=
  let '(p, self') := getPrefix self (namespaceURI q) (prefix q) in
  (p +:+ ":" +:+ localName q, self').

(** A sequence of [getPrefix] calls on one instance: the arguments of each
    call; [run] gives the instance after the calls, [returns] what each call
    returned. *)
Definition call : Type := (string * option string)%type.

Fixpoint run (self : t) (cs : list call) : t :=
  match cs with
  | [] => self
  | (ns, pp) :: cs' => run (snd (getPrefix self ns pp)) cs'
  end.

Fixpoint returns (self : t) (cs : list call) : list string :=
  match cs with
  | [] => []
  | (ns, pp) :: cs' =>
      fst (getPrefix self ns pp) :: returns (snd (getPrefix self ns pp)) cs'
  end.

End NamespaceMap.

(* ===================================================================== *)
(** * The source model the builder reads *)
(* ===================================================================== *)

(** Exceptions are values: a computation that can raise returns a [result]. *)
Inductive exn : Type := AttributeError | IndexError | OSError.

Inductive result (A : Type) : Type :=
| Ok (a : A)
| Raise (e : exn).
Arguments Ok {A} a.
Arguments Raise {A} e.

Global Instance result_ret : MRet result := fun A a => Ok a.
Global Instance result_bind : MBind result := fun A B k m =>
  match m with
  | Ok a => k a
  | Raise e => Raise e
  end.

(** Reading an attribute of an object that may be [None]. *)
Definition attr {A : Type} (o : option A) : result A :=
  match o with
  | Some a => Ok a
  | None => Raise AttributeError
  end.

(** [l[0]] *)
Definition item0 {A : Type} (l : list A) : result A :=
  match l with
  | a :: _ => Ok a
  | [] => Raise IndexError
  end.

Module Model.

Import NamespaceMap.

(** A Python string of which the code only takes the lower-case form:
    known by what its [lower()] returns. *)
Record str : Type := { lower : string }.

(** A label resource: [role], [xmlLang] and [text].  [xmlLang] is [None]
    when no [xml:lang] is in scope. *)
Record Label : Type := {
  role : string;
  xmlLang : option str;
  text : string
}.

(** A concept, with the label resources that the concept-label relationship
    set reaches from it
    ([dts.relationshipSet(XbrlConst.conceptLabel).fromModelObject(concept)],
    each relationship's [toModelObject]), in the order of that query. *)
Record Concept : Type := {
  c_qname : QName;
  c_labels : list Label
}.

(** A value of [context.qnameDims]: [memberQname] is [None] for a typed
    dimension. *)
Record DimValue : Type := {
  dimensionQname : QName;
  memberQname : option QName;
  dimension : option Concept;
  member : option Concept
}.

(** A [datetime], known by what its [isoformat()] returns. *)
Record datetime : Type := { isoformat : string }.

Record Context : Type := {
  qnameDims : list (QName * DimValue);
  isInstantPeriod : bool;
  isStartEndPeriod : bool;
  instantDatetime : option datetime;
  startDatetime : option datetime;
  endDatetime : option datetime
}.

(** A unit: [measures] is the pair of numerator and denominator measures,
    read by position. *)
Record Unit : Type := { measures : list (list QName) }.

(** A fact [f]: the field [f_x] is [f.x]; [f_format] holds
    [str(f.format)].  The fact object is an element of a markup tree:
    [f_element] is its place in the tree that [saveViewer] writes, as the
    child positions from the root down, or [None] when it is an element of
    another document; [f_id] is its [id] attribute.  [f_context] is [None]
    for a fact without context. *)
Record Fact : Type := {
  f_element : option (list nat);
  f_id : option string;
  f_format : string;
  f_value : string;
  f_qname : QName;
  f_isNumeric : bool;
  f_unit : option Unit;
  f_context : option Context;
  f_concept : option Concept
}.

(** [f.set("id", v)], on the fact object; the same write as the markup tree
    sees it is [set_at] below. *)
Definition set_id (f : Fact) (v : string) : Fact :=
  {| f_element := f_element f; f_id := Some v; f_format := f_format f;
     f_value := f_value f; f_qname := f_qname f; f_isNumeric := f_isNumeric f;
     f_unit := f_unit f; f_context := f_context f; f_concept := f_concept f |}.

(** The markup tree: elements and comments.  An element's tag is in Clark
    notation, as lxml gives it. *)
#[local] Unset Elimination Schemes.
Inductive Node : Type :=
| Element (tag : string) (attrib : list (string * string))
          (text : option string) (children : list Node)
| Comment (text : string).
#[local] Set Elimination Schemes.

(** [e.set(k, v)] on the attributes of an element: the value of a key that
    is there is replaced, a new key goes to the end. *)
Fixpoint set_item (k v : string) (a : list (string * string))
  : list (string * string) :=
  match a with
  | [] => [(k, v)]
  | (k', v') :: r =>
      if String.eqb k' k then (k, v) :: r else (k', v') :: set_item k v r
  end.

(** [e.set(k, v)] for the element [e] at the place [p] under [n].  A place
    that leads to no element is the place of no fact of this tree, and
    leaves [n] as it is. *)
Fixpoint set_at (p : list nat) (k v : string) (n : Node) : Node :=
  match p, n with
  | [], Element tag attrib text children =>
      Element tag (set_item k v attrib) text children
  | i :: p', Element tag attrib text children =>
      match children !! i with
      | Some c => Element tag attrib text (<[i := set_at p' k v c]> children)
      | None => n
      end
  | _, Comment _ => n
  end.

(** The loaded model: its facts and the root of its markup
    ([dts.modelDocument.xmlDocument.getroot()]). *)
Record ModelXbrl : Type := {
  facts : list Fact;
  root : Node
}.

(** [XbrlConst.standardLabel] and [XbrlConst.documentationLabel]. *)
Definition standardLabel : string := "http://www.xbrl.org/2003/role/label".
Definition documentationLabel : string :=
  "http://www.xbrl.org/2003/role/documentation".

End Model.

(* ===================================================================== *)
(** * The world outside: the output file *)
(* ===================================================================== *)

Module IO.

(** What the environment does to the one write of a run: nothing, refuse
    to open the file, or accept only the first [k] characters of the data
    and then fail. *)
Inductive fault : Type :=
| NoFault
| OpenFails
| WriteFails (k : nat).

Inductive event : Type :=
| EvOpen (path : string)
| EvWrite (path : string) (written : string)
| EvClose (path : string).

(** The file system, the handles that are open, and the history of calls. *)
Record World : Type := {
  files : gmap string string;
  handles : list string;
  events : list event
}.

(** The first [k] characters of [s]. *)
Fixpoint take_str (k : nat) (s : string) : string :=
  match k, s with
  | S k', String c r => String c (take_str k' r)
  | _, _ => EmptyString
  end.

(** [open(path, "wb")]: creates the file or truncates it to length zero. *)
Definition open_wb (fl : fault) (path : string) (w : World) : World * result () :=
  match fl with
  | OpenFails => (w, Raise OSError)
  | _ =>
      ({| files := <[path := EmptyString]> (files w);
          handles := path :: handles w;
          events := events w ++ [EvOpen path] |}, Ok ())
  end.

(** [fout.write(data)] *)
Definition write (fl : fault) (path data : string) (w : World) : World * result () :=
  let old := default EmptyString (files w !! path) in
  match fl with
  | WriteFails k =>
      ({| files := <[path := old +:+ take_str k data]> (files w);
          handles := handles w;
          events := events w ++ [EvWrite path (take_str k data)] |},
       Raise OSError)
  | _ =>
      ({| files := <[path := old +:+ data]> (files w);
          handles := handles w;
          events := events w ++ [EvWrite path data] |}, Ok ())
  end.

Fixpoint release (path : string) (hs : list string) : list string :=
  match hs with
  | [] => []
  | h :: hs' => if String.eqb h path then hs' else h :: release path hs'
  end.

(** Leaving the [with] block, normally or by an exception. *)
Definition close (path : string) (w : World) : World :=
  {| files := files w;
     handles := release path (handles w);
     events := events w ++ [EvClose path] |}.

(** [with open(path, "wb") as fout: fout.write(data)] *)
Definition with_open_write (fl : fault) (path data : string) (w : World)
  : World * result () :=
  match open_wb fl path w with
  | (w1, Ok _) =>
      let '(w2, r) := write fl path data w1 in
      (close path w2, r)
  | (w1, Raise e) => (w1, Raise e)
  end.

End IO.

(* ===================================================================== *)
(** * class IXBRLViewerBuilder *)
(* ===================================================================== *)

Module Builder.

Import NamespaceMap Model.

(** A value of [taxonomyData["concepts"]]: [{"labels": {...}}], from role
    prefix to language to label text. *)
Record ConceptData : Type := {
  labels : gmap string (gmap string string)
}.

(** A value of [taxonomyData["facts"]].  The keys [f], [v], [c], [d] and [u]
    are always there ([u] may hold [None]); [pt] and [pf] are there when the
    field is [Some]. *)
Record FactData : Type := {
  f : string;
  v : string;
  c : string;
  d : gmap string string;
  u : option string;
  pt : option string;
  pf : option string
}.

(** The keys of a fact record. *)
Definition fact_keys (fd : FactData) : list string :=
  ["f"; "v"; "c"; "d"; "u"]
  ++ match pf fd with Some _ => ["pf"] | None => [] end
  ++ match pt fd with Some _ => ["pt"] | None => [] end.

(** [self.taxonomyData]: [prefixes] and [roles] are keys only once
    [saveViewer] has set them. *)
Record TaxonomyData : Type := {
  concepts : gmap string ConceptData;
  facts : gmap string FactData;
  prefixes : option (gmap string string);
  roles : option (gmap string string)
}.

Definition top_level_keys (td : TaxonomyData) : list string :=
  ["concepts"; "facts"]
  ++ match prefixes td with Some _ => ["prefixes"] | None => [] end
  ++ match roles td with Some _ => ["roles"] | None => [] end.

(** The builder's own state ([self.dts] is passed where it is read). *)
Record t : Type := {
  nsmap : NamespaceMap.t;
  roleMap : NamespaceMap.t;
  taxonomyData : TaxonomyData
}.

(** [__init__] *)
Definition new : t :=
  {| nsmap := NamespaceMap.new;
     roleMap := NamespaceMap.new;
     taxonomyData := {| concepts := ∅; facts := ∅;
                        prefixes := None; roles := None |} |}.

(** [dateFormat]: [re.sub("T00:00:00$", "", d)] *)
Definition dateFormat (d : string) : string := Py.sub_at_end "T00:00:00" d.

(** One round of the label loop of [addConcept]:
    [labels.setdefault(self.roleMap.getPrefix(l.role), {})[l.xmlLang.lower()] = l.text].
    The prefix is looked up before the key [l.xmlLang.lower()] is
    computed. *)
Definition addLabel (acc : gmap string (gmap string string) * NamespaceMap.t)
    (l : Label) : result (gmap string (gmap string string) * NamespaceMap.t) :=
  let '(lbls, rm) := acc in
  let '(rp, rm') := getPrefix rm (role l) None in
  lang ← attr (xmlLang l);
  let inner := default ∅ (lbls !! rp) in
  Ok (<[rp := <[lower lang := text l]> inner]> lbls, rm').

(** [for lr in labels: ...] *)
Fixpoint labelLoop (ls : list Label)
    (acc : gmap string (gmap string string) * NamespaceMap.t)
  : result (gmap string (gmap string string) * NamespaceMap.t) :=
  match ls with
  | [] => Ok acc
  | l :: rest => acc' ← addLabel acc l; labelLoop rest acc'
  end.

(** [addConcept(self, concept)] *)
Definition addConcept (self : t) (concept : option Concept) : result t :=
  cpt ← attr concept;
  let '(conceptName, ns') := qname (nsmap self) (c_qname cpt) in
  let td := taxonomyData self in
  if negb (contains (concepts td) conceptName) then
    '(lbls, rm') ← labelLoop (c_labels cpt) (∅, roleMap self);
    Ok {| nsmap := ns';
          roleMap := rm';
          taxonomyData :=
            {| concepts := <[conceptName := {| labels := lbls |}]> (concepts td);
               facts := facts td;
               prefixes := prefixes td;
               roles := roles td |} |}
  else
    Ok {| nsmap := ns'; roleMap := roleMap self; taxonomyData := td |}.

(** The loop over [f.context.qnameDims.items()].  In the assignment
    [dims[qname(v.dimensionQname)] = qname(v.memberQname)] Python evaluates
    the right-hand side first. *)
Fixpoint dimLoop (items : list (QName * DimValue))
    (dims : gmap string string) (self : t) : result (gmap string string * t) :=
  match items with
  | [] => Ok (dims, self)
  | (_, dv) :: rest =>
      match memberQname dv with
      | None => dimLoop rest dims self
      | Some mq =>
          let '(mname, ns1) := qname (nsmap self) mq in
          let '(dname, ns2) := qname ns1 (dimensionQname dv) in
          let self1 := {| nsmap := ns2; roleMap := roleMap self;
                          taxonomyData := taxonomyData self |} in
          self2 ← addConcept self1 (dimension dv);
          self3 ← addConcept self2 (member dv);
          dimLoop rest (<[dname := mname]> dims) self3
      end
  end.

(** The identifier a fact carries once the loop body has looked at it. *)
Definition ensure_id (idGen : nat) (fct : Fact) : Fact :=
  match f_id fct with
  | None => set_id fct ("ixv-" +:+ Py.fmt_d idGen)
  | Some _ => fct
  end.

(** The period part of the loop body: the [pt] and [pf] entries. *)
Definition period (ctx : Context) : result (option string * option string) :=
  if isInstantPeriod ctx then
    dt ← attr (instantDatetime ctx);
    Ok (Some (dateFormat (isoformat dt)), None)
  else if isStartEndPeriod ctx then
    ds ← attr (startDatetime ctx);
    de ← attr (endDatetime ctx);
    Ok (Some (dateFormat (isoformat de)), Some (dateFormat (isoformat ds)))
  else Ok (None, None).

(** The body of [for f in dts.facts]: the fact as the body leaves it, and
    the builder. *)
Definition factBody (idGen : nat) (fct : Fact) (self : t) : result (Fact * t) :=
  let fct := ensure_id idGen fct in
  let '(conceptName, ns1) := qname (nsmap self) (f_qname fct) in
  let self := {| nsmap := ns1; roleMap := roleMap self;
                 taxonomyData := taxonomyData self |} in
  ctx ← attr (f_context fct);
  '(dims, self) ← dimLoop (qnameDims ctx) ∅ self;
  '(un, self) ←
    (if f_isNumeric fct then
       un ← attr (f_unit fct);
       ms ← item0 (measures un);
       m0 ← item0 ms;
       let '(uname, ns2) := qname (nsmap self) m0 in
       Ok (Some uname, {| nsmap := ns2; roleMap := roleMap self;
                          taxonomyData := taxonomyData self |})
     else Ok (None, self));
  '(ptv, pfv) ← period ctx;
  let factData := {| f := f_format fct; v := f_value fct; c := conceptName;
                     d := dims; u := un; pt := ptv; pf := pfv |} in
  let td := taxonomyData self in
  let self := {| nsmap := nsmap self; roleMap := roleMap self;
                 taxonomyData :=
                   {| concepts := concepts td;
                      facts := <[default "" (f_id fct) := factData]> (facts td);
                      prefixes := prefixes td;
                      roles := roles td |} |} in
  self ← addConcept self (f_concept fct);
  Ok (fct, self).

(** [for f in dts.facts: ...; idGen += 1; ...]: the facts as the loop leaves
    them, the final counter and the builder. *)
Fixpoint factLoop (fs : list Fact) (idGen : nat) (self : t)
  : result (list Fact * nat * t) :=
  match fs with
  | [] => Ok ([], idGen, self)
  | fct :: rest =>
      '(fct', self') ← factBody idGen fct self;
      '(rest', n, self'') ← factLoop rest (S idGen) self';
      Ok (fct' :: rest', n, self'')
  end.

(** ** The markup surgery *)

Definition body_tag : string := "{http://www.w3.org/1999/xhtml}body".
Definition script_tag : string := "{http://www.w3.org/1999/xhtml}script".

(** The four nodes appended to the body, in order.  The two elements are
    what [etree.fromstring] builds from the two literals, with [text] set as
    the code sets it. *)
Definition viewer_nodes (taxonomyDataJSON : string) : list Node :=
  [ Comment "BEGIN IXBRL VIEWER EXTENSIONS";
    Element script_tag [("src", "js/dist/ixbrlviewer.js")] (Some "") [];
    Element script_tag [("id", "taxonomy-data"); ("type", "application/json")]
            (Some taxonomyDataJSON) [];
    Comment "END IXBRL VIEWER EXTENSIONS" ].

(** [child.tag == '{http://www.w3.org/1999/xhtml}body']: a comment's [tag]
    is not a string and compares unequal. *)
Definition is_body (n : Node) : bool :=
  match n with
  | Element tag _ _ _ => String.eqb tag body_tag
  | Comment _ => false
  end.

(** [child.append(e)], four times *)
Definition append_all (n : Node) (new : list Node) : Node :=
  match n with
  | Element tag attrib text children => Element tag attrib text (children ++ new)
  | Comment _ => n
  end.

(** [for child in root: if child.tag == ...: ...; break] *)
Fixpoint embedLoop (children : list Node) (taxonomyDataJSON : string) : list Node :=
  match children with
  | [] => []
  | child :: rest =>
      if is_body child
      then append_all child (viewer_nodes taxonomyDataJSON) :: rest
      else child :: embedLoop rest taxonomyDataJSON
  end.

Definition embed (rt : Node) (taxonomyDataJSON : string) : Node :=
  match rt with
  | Element tag attrib text children =>
      Element tag attrib text (embedLoop children taxonomyDataJSON)
  | Comment _ => rt
  end.

(** ** The identifiers in the markup *)

(** What [f.set("id", ...)] of the fact loop does to the markup: a fact that
    left the loop body with an identifier it did not have before carries it
    as the [id] attribute of its element.  [o] is the fact before the loop
    body, [n] the fact after it. *)
Definition mark_id (o n : Fact) (rt : Node) : Node :=
  match f_id o, f_id n, f_element n with
  | None, Some v, Some p => set_at p "id" v rt
  | _, _, _ => rt
  end.

(** The markup after the fact loop, from the facts before and after it. *)
Fixpoint mark_ids (before after : list Fact) (rt : Node) : Node :=
  match before, after with
  | o :: before', n :: after' => mark_ids before' after' (mark_id o n rt)
  | _, _ => rt
  end.

(** ** saveViewer *)

Section SaveViewer.

(** The two serializers are library functions: [json.dumps(_, indent=1)] and
    [etree.tostring(_, method="xml", encoding="utf-8", xml_declaration=True)]. *)
Variable dumps : TaxonomyData -> string.
Variable tostring : Node -> string.

(** [saveViewer] up to the JSON text: the two role prefixes, the fact loop,
    the [prefixes] and [roles] entries, and the escaped serialization.  The
    result holds the facts as the loop leaves them, the builder and the text. *)
Definition assemble (self : t) (dts : ModelXbrl)
  : result (list Fact * t * string) :=
  let idGen := 0 in
  let rm1 := snd (getPrefix (roleMap self) standardLabel (Some "std")) in
  let rm2 := snd (getPrefix rm1 documentationLabel (Some "doc")) in
  let self := {| nsmap := nsmap self; roleMap := rm2;
                 taxonomyData := taxonomyData self |} in
  '(fs, _, self) ← factLoop (Model.facts dts) idGen self;
  let td := taxonomyData self in
  let td := {| concepts := concepts td; facts := facts td;
               prefixes := Some (prefixmap (nsmap self));
               roles := Some (prefixmap (roleMap self)) |} in
  let self := {| nsmap := nsmap self; roleMap := roleMap self;
                 taxonomyData := td |} in
  Ok (fs, self, escapeJSONForScriptTag (dumps td)).

(** [saveViewer(self, outFile)], run in a world [w] under the fault [fl]:
    the world afterwards, and either the exception that ended the call or
    the builder and the model as the call leaves them.  The markup that is
    written has the identifiers that the fact loop has set. *)
Definition saveViewer (self : t) (dts : ModelXbrl) (outFile : string)
    (fl : IO.fault) (w : IO.World) : IO.World * result (t * ModelXbrl) :=
  match assemble self dts with
  | Raise e => (w, Raise e)
  | Ok (fs, self', taxonomyDataJSON) =>
      let doc := embed (mark_ids (Model.facts dts) fs (root dts)) taxonomyDataJSON in
      let '(w', r) := IO.with_open_write fl outFile (tostring doc) w in
      (w', _ ← r; Ok (self', {| Model.facts := fs; root := doc |}))
  end.

End SaveViewer.

End Builder.

(* ===================================================================== *)
(** * lineWrap *)
(* ===================================================================== *)

(** [s[k:]] *)
Fixpoint drop_str (k : nat) (s : string) : string :=
  match k, s with
  | S k', String _ r => drop_str k' r
  | _, _ => s
  end.

(** [s[i:j]] for [0 <= i <= j]: the slice stops at the end of [s]. *)
Definition slice (s : string) (i j : nat) : string :=
  IO.take_str (j - i) (drop_str i s).

(** [range(i, stop, step)] for a positive [step], as the loop that yields
    [i], [i + step], ... while the value is below [stop]; [fuel] bounds the
    number of values. *)
Fixpoint range_from (fuel i stop step : nat) : list nat :=
  match fuel with
  | 0 => []
  | S fuel' =>
      if (i <? stop)%nat then i :: range_from fuel' (i + step) stop step else []
  end.

(** [range(0, stop, step)] for [step > 0]: at most [stop] values. *)
Definition range0 (stop step : nat) : list nat := range_from stop 0 stop step.

(** [sep.join(l)] *)
Fixpoint join (sep : string) (l : list string) : string :=
  match l with
  | [] => EmptyString
  | [x] => x
  | x :: rest => x +:+ sep +:+ join sep rest
  end.

(** The list that [lineWrap] joins: [[s[i:i+n] for i in range(0, len(s), n)]]
    for [n > 0]. *)
Definition lineWrap_pieces (s : string) (n : nat) : list string :=
  map (fun i => slice s i (i + n)) (range0 (String.length s) n).

(** [IXBRLViewerBuilder.lineWrap(s, n)] (it does not use [self]).  [n] is
    any integer: [range] raises [ValueError] for a zero step ([None] here)
    and is empty for a negative one. *)
Definition lineWrap (s : string) (n : Z) : option string :=
  if (n =? 0)%Z then None
  else if (n <? 0)%Z then Some (join (String Py.newline EmptyString) [])
  else Some (join (String Py.newline EmptyString) (lineWrap_pieces s (Z.to_nat n))).

(** [s.replace(nl, e)] for the newline [nl] and the empty string [e]: the
    text without its newlines. *)
Definition unwrap (s : string) : string := Py.replace Py.newline EmptyString s.

(* ===================================================================== *)
(** * The two commands of the plug-in *)
(* ===================================================================== *)

Module Plugin.

Import NamespaceMap Model Builder.

(** [cntlr.modelManager], with the model it has loaded, if any. *)
Record ModelManager : Type := { modelXbrl : option ModelXbrl }.

(** A line of the log: [cntlr.addToLog(msg)] or [dts.info(code, msg)]. *)
Inductive entry : Type :=
| AddToLog (msg : string)
| Info (code msg : string).

(** The controller, as far as the plug-in reads and writes it: the model
    manager, the configuration dictionary, the configurations that
    [saveConfig()] has stored, oldest first, and the log. *)
Record Cntlr : Type := {
  modelManager : option ModelManager;
  config : gmap string string;
  saved : list (gmap string string);
  log : list entry
}.

(** The parsed options.  [saveViewerFile] is [None] when the attribute is
    missing, [Some None] when it is [None] (the option was not given). *)
Record Options : Type := { saveViewerFile : option (option string) }.

(** What a command returns: [None] or [False]. *)
Inductive ret : Type := RNone | RFalse.

(** The model behind
    [cntlr.modelManager is None or cntlr.modelManager.modelXbrl is None]. *)
Definition loaded (cntlr : Cntlr) : option ModelXbrl :=
  match modelManager cntlr with
  | None => None
  | Some mm => modelXbrl mm
  end.

Definition addToLog (msg : string) (cntlr : Cntlr) : Cntlr :=
  {| modelManager := modelManager cntlr; config := config cntlr;
     saved := saved cntlr; log := log cntlr ++ [AddToLog msg] |}.

(** [cntlr.saveConfig()] *)
Definition saveConfig (cntlr : Cntlr) : Cntlr :=
  {| modelManager := modelManager cntlr; config := config cntlr;
     saved := saved cntlr ++ [config cntlr]; log := log cntlr |}.

(** [cntlr.config[k] = x] *)
Definition set_config (k x : string) (cntlr : Cntlr) : Cntlr :=
  {| modelManager := modelManager cntlr; config := <[k := x]> (config cntlr);
     saved := saved cntlr; log := log cntlr |}.

(** The facts as the loop of [saveViewer] leaves them when it may stop at
    an exception: the identifier is set first, so the fact at which the
    body raises has one too; the facts after it are untouched. *)
Fixpoint factLoop_left (fs : list Fact) (idGen : nat) (self : Builder.t) : list Fact :=
  match fs with
  | [] => []
  | fct :: rest =>
      match factBody idGen fct self with
      | Ok (fct', self') => fct' :: factLoop_left rest (S idGen) self'
      | Raise _ => ensure_id idGen fct :: rest
      end
  end.

Section Commands.

Variable dumps : TaxonomyData -> string.
Variable tostring : Node -> string.

(** The facts after the fact loop of [saveViewer] on a fresh builder,
    whether the loop came to its end or not. *)
Definition facts_after (dts : ModelXbrl) : list Fact :=
  factLoop_left (Model.facts dts) 0
    {| Builder.nsmap := NamespaceMap.new;
       roleMap :=
         snd (getPrefix (snd (getPrefix NamespaceMap.new standardLabel (Some "std")))
                        documentationLabel (Some "doc"));
       taxonomyData := taxonomyData Builder.new |}.

(** The model after [IXBRLViewerBuilder(dts).saveViewer(outFile)], whether
    the call returned or raised.  The identifiers that the loop has set are
    in the markup in either case; the four nodes are appended once the loop
    and the serialization are through, before the file is opened. *)
Definition model_after (dts : ModelXbrl) : ModelXbrl :=
  let fs := facts_after dts in
  let marked := mark_ids (Model.facts dts) fs (root dts) in
  match assemble dumps Builder.new dts with
  | Ok (_, _, taxonomyDataJSON) =>
      {| Model.facts := fs; root := embed marked taxonomyDataJSON |}
  | Raise _ => {| Model.facts := fs; root := marked |}
  end.

(** [viewerBuilder = IXBRLViewerBuilder(dts); viewerBuilder.saveViewer(outFile)]
    as the two commands run it: [dts.info] is reached once the fact loop and
    the serialization are through. *)
Definition build_and_save (cntlr : Cntlr) (dts : ModelXbrl) (outFile : string)
    (fl : IO.fault) (w : IO.World) : Cntlr * IO.World * result ret :=
  let '(w', r) := saveViewer dumps tostring Builder.new dts outFile fl w in
  let info :=
    match assemble dumps Builder.new dts with
    | Ok _ => [Info "viewer:info" ("Saving iXBRL viewer to " +:+ outFile)]
    | Raise _ => []
    end in
  ({| modelManager := Some {| modelXbrl := Some (model_after dts) |};
      config := config cntlr; saved := saved cntlr;
      log := log cntlr ++ info |},
   w', _ ← r; Ok RNone).

(** [iXBRLViewerCommandLineXbrlRun(cntlr, options, modelXbrl)]; the third
    argument is not read. *)
Definition iXBRLViewerCommandLineXbrlRun (cntlr : Cntlr) (options : Options)
    (_ : option ModelXbrl) (fl : IO.fault) (w : IO.World)
  : Cntlr * IO.World * result ret :=
  match loaded cntlr with
  | None => (addToLog "No taxonomy loaded." cntlr, w, Ok RNone)
  | Some dts =>
      let outFile := default None (saveViewerFile options) in
      if Py.truthy_opt outFile
      then build_and_save cntlr dts (default "" outFile) fl w
      else (cntlr, w, Ok RNone)
  end.

(** The answer of the file dialog, given its [initialdir] ([None] or the
    empty string when the user cancels), and [os.path.dirname]. *)
Variable uiFileDialog : string -> option string.
Variable dirname : string -> string.

(** [iXBRLViewerMenuCommand(cntlr)] *)
Definition iXBRLViewerMenuCommand (cntlr : Cntlr) (fl : IO.fault) (w : IO.World)
  : Cntlr * IO.World * result ret :=
  match loaded cntlr with
  | None => (addToLog "No document loaded." cntlr, w, Ok RNone)
  | Some dts =>
      let initialdir := default "." (config cntlr !! "iXBRLViewerFileDir") in
      let cntlr := set_config "iXBRLViewerFileDir" initialdir cntlr in
      let instanceFile := uiFileDialog initialdir in
      if negb (Py.truthy_opt instanceFile) then (cntlr, w, Ok RFalse)
      else
        let instanceFile := default "" instanceFile in
        let cntlr := set_config "iXBRLViewerFileDir" (dirname instanceFile) cntlr in
        let cntlr := saveConfig cntlr in
        build_and_save cntlr dts instanceFile fl w
  end.

End Commands.

End Plugin.


(* ===================================================================== *)
(** * Notions used in the statements *)
(* ===================================================================== *)

Import NamespaceMap.

(** The invariant of an instance: the two dictionaries are inverse to each
    other, and no identifier is bound to the empty prefix. *)
Definition inv (m : t) : Prop :=
  (forall ns p, nsmap m !! ns = Some p <-> prefixmap m !! p = Some ns)
  /\ (forall ns, nsmap m !! ns <> Some "").

(** [n] is the least number whose candidate [p ++ str(n)] is not a bound
    prefix. *)
Definition least_free (pm : gmap string string) (p : string) (n : nat) : Prop :=
  pm !! (p +:+ Py.fmt_d n) = None
  /\ forall k, k < n -> is_Some (pm !! (p +:+ Py.fmt_d k)).

Import Model Builder.

(** Every prefix bound in [rm] is bound to the same identifier in [rm']. *)
Definition roles_le (rm rm' : NamespaceMap.t) : Prop :=
  forall q x, prefixmap rm !! q = Some x -> prefixmap rm' !! q = Some x.

(** What a step of the builder keeps: the fact records, the two late keys,
    and the role prefixes already bound. *)
Definition keeps (self self' : Builder.t) : Prop :=
  Builder.facts (taxonomyData self') = Builder.facts (taxonomyData self)
  /\ prefixes (taxonomyData self') = prefixes (taxonomyData self)
  /\ roles (taxonomyData self') = roles (taxonomyData self)
  /\ roles_le (roleMap self) (roleMap self').

(** A typed qualifier: [v.memberQname is None]. *)
Definition is_typed (item : QName * DimValue) : bool :=
  match memberQname (snd item) with
  | None => true
  | Some _ => false
  end.

(** [o is not None] *)
Definition present {A : Type} (o : option A) : bool :=
  match o with Some _ => true | None => false end.

(** Every label resource of the concept has a language. *)
Definition labelled (cpt : Concept) : bool :=
  forallb (fun l => present (xmlLang l)) (c_labels cpt).

(** The concept is there, and [addConcept] can read its labels. *)
Definition wf_concept (o : option Concept) : bool :=
  match o with
  | Some cpt => labelled cpt
  | None => false
  end.

(** A qualifier the loop can process: typed, or with both concepts there
    and labelled. *)
Definition wf_dim (item : QName * DimValue) : bool :=
  is_typed item
  || (wf_concept (dimension (snd item)) && wf_concept (member (snd item))).

(** The datetimes that the period branch reads are there. *)
Definition wf_period (ctx : Context) : bool :=
  if isInstantPeriod ctx then present (instantDatetime ctx)
  else if isStartEndPeriod ctx
       then present (startDatetime ctx) && present (endDatetime ctx)
       else true.

(** A numeric fact has a unit with a first measure. *)
Definition wf_unit (fct : Fact) : bool :=
  if f_isNumeric fct then
    match f_unit fct with
    | Some un => match measures un with
                 | (_ :: _) :: _ => true
                 | _ => false
                 end
    | None => false
    end
  else true.

(** A fact on which the loop body reads no attribute of [None] and indexes
    no empty list. *)
Definition wf_fact (fct : Fact) : bool :=
  wf_concept (f_concept fct) && wf_unit fct
  && match f_context fct with
     | Some ctx => wf_period ctx && forallb wf_dim (qnameDims ctx)
     | None => false
     end.

(** What the loop body needs of a qualifier in any state of the builder:
    typed, or with both concepts there. *)
Definition shaped_dim (item : QName * DimValue) : bool :=
  is_typed item || (present (dimension (snd item)) && present (member (snd item))).

(** What the loop body needs of a fact in any state of the builder: a
    concept, a context, the unit of a numeric fact, the datetimes of the
    period and the concepts of the explicit qualifiers. *)
Definition shaped_fact (fct : Fact) : bool :=
  present (f_concept fct) && wf_unit fct
  && match f_context fct with
     | Some ctx => wf_period ctx && forallb shaped_dim (qnameDims ctx)
     | None => false
     end.

(** The qualifiers of the fact's context; none without a context. *)
Definition f_dims (fct : Fact) : list (QName * DimValue) :=
  match f_context fct with
  | Some ctx => qnameDims ctx
  | None => []
  end.

(** A fact whose context is neither instant nor start/end (a forever
    period). *)
Definition forever_fact : Fact :=
  {| f_element := None;
     f_id := Some "f1"; f_format := "None"; f_value := "n/a";
     f_qname := {| namespaceURI := "http://example.com/tax"; prefix := Some "ex";
                   localName := "Policy" |};
     f_isNumeric := false; f_unit := None;
     f_context := Some {| qnameDims := []; isInstantPeriod := false;
                          isStartEndPeriod := false; instantDatetime := None;
                          startDatetime := None; endDatetime := None |};
     f_concept := Some {| c_qname := {| namespaceURI := "http://example.com/tax";
                                        prefix := Some "ex"; localName := "Policy" |};
                          c_labels := [] |} |}.

(** The temporal keys of a fact record, in insertion order. *)
Definition temporal_keys (fd : FactData) : list string :=
  match pf fd with Some _ => ["pf"] | None => [] end
  ++ match pt fd with Some _ => ["pt"] | None => [] end.

(** The reading "every fact record has exactly one temporal representation":
    [pt] alone, or [pf] and [pt]. *)
Definition every_record_has_a_period : Prop :=
  forall idGen fct self fct' self' fd,
    factBody idGen fct self = Ok (fct', self') ->
    Builder.facts (taxonomyData self') !! default "" (f_id fct') = Some fd ->
    temporal_keys fd = ["pt"] \/ temporal_keys fd = ["pf"; "pt"].

(** The role map after the first two statements of [saveViewer] on a fresh
    builder. *)
Definition seeded : NamespaceMap.t :=
  snd (getPrefix (snd (getPrefix NamespaceMap.new standardLabel (Some "std")))
                 documentationLabel (Some "doc")).

(** Sample data for the closed examples. *)
Definition ex_qname (local : string) : QName :=
  {| namespaceURI := "http://example.com/taxonomy"; prefix := Some "ex";
     localName := local |}.

Definition ex_concept (local label : string) : Concept :=
  {| c_qname := ex_qname local;
     c_labels := [ {| role := standardLabel; xmlLang := Some {| lower := "en-us" |};
                      text := label |} ] |}.

Definition ex_instant : Context :=
  {| qnameDims := []; isInstantPeriod := true; isStartEndPeriod := false;
     instantDatetime := Some {| isoformat := "2023-01-01T00:00:00" |};
     startDatetime := None; endDatetime := None |}.

Definition ex_fact (local val : string) : Fact :=
  {| f_element := None;
     f_id := None; f_format := "ixt:numdotdecimal"; f_value := val;
     f_qname := ex_qname local; f_isNumeric := false; f_unit := None;
     f_context := Some ex_instant; f_concept := Some (ex_concept local local) |}.

Definition ex_root : Node :=
  Element "{http://www.w3.org/1999/xhtml}html" [] None
    [ Element "{http://www.w3.org/1999/xhtml}head" [] None [];
      Element body_tag [] None [ Element "{http://www.w3.org/1999/xhtml}p" [] (Some "Report") [] ] ].

Definition ex_dts : ModelXbrl :=
  {| Model.facts := [ex_fact "Assets" "100"; ex_fact "Liabilities" "60";
                     ex_fact "Equity" "40"];
     root := ex_root |}.

(** A typed qualifier: no member. *)
Definition ex_typed_dim : QName * DimValue :=
  (ex_qname "CustomerAxis",
   {| dimensionQname := ex_qname "CustomerAxis"; memberQname := None;
      dimension := Some (ex_concept "CustomerAxis" "Customer"); member := None |}).

Definition ex_typed_fact : Fact :=
  {| f_element := None;
     f_id := Some "fact-1"; f_format := "None"; f_value := "12";
     f_qname := ex_qname "Sales"; f_isNumeric := false; f_unit := None;
     f_context := Some {| qnameDims := [ex_typed_dim]; isInstantPeriod := true;
                          isStartEndPeriod := false;
                          instantDatetime := Some {| isoformat := "2023-01-01T00:00:00" |};
                          startDatetime := None; endDatetime := None |};
     f_concept := Some (ex_concept "Sales" "Sales") |}.

(** An explicit qualifier, and a fact with a typed and an explicit one. *)
Definition ex_explicit_dim : QName * DimValue :=
  (ex_qname "RegionAxis",
   {| dimensionQname := ex_qname "RegionAxis";
      memberQname := Some (ex_qname "North");
      dimension := Some (ex_concept "RegionAxis" "Region");
      member := Some (ex_concept "North" "North") |}).

Definition ex_mixed_fact : Fact :=
  {| f_element := None;
     f_id := Some "fact-2"; f_format := "None"; f_value := "7";
     f_qname := ex_qname "Sales"; f_isNumeric := false; f_unit := None;
     f_context := Some {| qnameDims := [ex_typed_dim; ex_explicit_dim];
                          isInstantPeriod := true; isStartEndPeriod := false;
                          instantDatetime := Some {| isoformat := "2023-01-01T00:00:00" |};
                          startDatetime := None; endDatetime := None |};
     f_concept := Some (ex_concept "Sales" "Sales") |}.

(** A model whose one fact has a typed and an explicit qualifier. *)
Definition ex_mixed_dts : ModelXbrl :=
  {| Model.facts := [ex_mixed_fact]; root := ex_root |}.

(** Stand-ins for the two library serializers in the closed examples. *)
Definition no_dumps (_ : TaxonomyData) : string := "{}".

(** The same context with [items] as its dimensional qualifiers. *)
Definition set_dims (items : list (QName * DimValue)) (ctx : Context) : Context :=
  {| qnameDims := items;
     isInstantPeriod := isInstantPeriod ctx;
     isStartEndPeriod := isStartEndPeriod ctx;
     instantDatetime := instantDatetime ctx;
     startDatetime := startDatetime ctx;
     endDatetime := endDatetime ctx |}.

(** The same fact with [items] as its dimensional qualifiers. *)
Definition with_dims (items : list (QName * DimValue)) (fct : Fact) : Fact :=
  {| f_element := f_element fct;
     f_id := f_id fct; f_format := f_format fct; f_value := f_value fct;
     f_qname := f_qname fct; f_isNumeric := f_isNumeric fct; f_unit := f_unit fct;
     f_context := set_dims items <$> f_context fct;
     f_concept := f_concept fct |}.

(** The same fact with no dimensional qualifier. *)
Definition without_dims (fct : Fact) : Fact := with_dims [] fct.

(** The same fact without its typed qualifiers. *)
Definition without_typed (fct : Fact) : Fact :=
  with_dims (List.filter (fun i => negb (is_typed i)) (f_dims fct)) fct.

Definition const_doc (_ : Node) : string := "<html/>".

(** A world with no file. *)
Definition empty_world : IO.World :=
  {| IO.files := ∅; IO.handles := []; IO.events := [] |}.

(** The reading "the file is written to completion or not at all": after
    a call the output file is as it was before, or holds the whole document. *)
Definition written_whole_or_not_at_all : Prop :=
  forall dumps tostring self dts outFile fl w fs self' json,
    assemble dumps self dts = Ok (fs, self', json) ->
    let w' := fst (saveViewer dumps tostring self dts outFile fl w) in
    IO.files w' !! outFile = IO.files w !! outFile
    \/ IO.files w' !! outFile
       = Some (tostring (embed (mark_ids (Model.facts dts) fs (root dts)) json)).






(** A string literal: [s] between two double quotes. *)
Definition quoted (s : string) : string :=
  String Json.dquote (s +:+ String Json.dquote "").

(** A small JSON text with the three special characters inside strings. *)
Definition ex_json_text : string :=
  "{" +:+ quoted "a<b" +:+ ": " +:+ quoted "R&D > 0" +:+ "}".

Definition ex_calls : list call := [("nsA", Some "x"); ("nsB", Some "x")].

(** A builder that has already collected one concept. *)
Definition ex_self : Builder.t :=
  match addConcept Builder.new (Some (ex_concept "Assets" "Assets")) with
  | Ok s => s
  | Raise _ => Builder.new
  end.

Definition ex_empty_dts : ModelXbrl := {| Model.facts := []; root := ex_root |}.

(** ** Notions of the further properties *)

(** No bound prefix of [m] contains a colon. *)
Definition colon_free (m : NamespaceMap.t) : Prop :=
  forall ns p, NamespaceMap.nsmap m !! ns = Some p -> occurs ":" p = false.

(** The preferred prefix of a call, if there is one, contains no colon. *)
Definition colon_free_call (c : call) : bool :=
  match snd c with
  | Some x => negb (occurs ":" x)
  | None => true
  end.

(** [labels[rp][lang]], with [None] where a key is missing. *)
Definition lookup2 (lbls : gmap string (gmap string string)) (rp lang : string)
  : option string :=
  lbls !! rp ≫= (fun inner => inner !! lang).

(** The text of the last label resource in [ls] whose role is [r] and whose
    language, in the lower case that its [lower()] gives, is [lang]. *)
Fixpoint label_for (ls : list Label) (r lang : string) : option string :=
  match ls with
  | [] => None
  | l :: rest =>
      match label_for rest r lang with
      | Some t => Some t
      | None =>
          if String.eqb (role l) r
             && bool_decide (lower <$> xmlLang l = Some lang)
          then Some (text l) else None
      end
  end.

(** A concept with two labels of one role whose languages have the same
    lower-case form (as [en-US] and [EN-us] have). *)
Definition ex_two_labels : Concept :=
  {| c_qname := ex_qname "Cash";
     c_labels := [ {| role := standardLabel; xmlLang := Some {| lower := "en-us" |};
                      text := "Cash" |};
                   {| role := standardLabel; xmlLang := Some {| lower := "en-us" |};
                      text := "Cash at bank" |} ] |}.

(** A fresh builder after [addConcept] of that concept. *)
Definition ex_two_labels_built : Builder.t :=
  match addConcept Builder.new (Some ex_two_labels) with
  | Ok s => s
  | Raise _ => Builder.new
  end.

(** A qualified name [p:l] whose prefix [p] is a key of [pm]. *)
Definition declared (pm : gmap string string) (name : string) : Prop :=
  exists p l, name = p +:+ ":" +:+ l /\ is_Some (pm !! p).

(** Every qualified name of a fact record is declared in [pm]: the concept,
    the keys and values of the dimensions, and the unit if there is one. *)
Definition fd_declared (pm : gmap string string) (fd : FactData) : Prop :=
  declared pm (c fd)
  /\ (forall k x, d fd !! k = Some x -> declared pm k /\ declared pm x)
  /\ (forall x, u fd = Some x -> declared pm x).

(** A builder whose two maps satisfy [inv] and whose collected data uses
    only prefixes that the maps hold. *)
Definition consistent (self : Builder.t) : Prop :=
  inv (Builder.nsmap self) /\ inv (roleMap self)
  /\ (forall id fd, Builder.facts (taxonomyData self) !! id = Some fd ->
        fd_declared (prefixmap (Builder.nsmap self)) fd)
  /\ (forall name cd, concepts (taxonomyData self) !! name = Some cd ->
        declared (prefixmap (Builder.nsmap self)) name
        /\ forall rp, is_Some (labels cd !! rp) ->
             is_Some (prefixmap (roleMap self) !! rp)).

(** What no step of the builder takes away: bindings of the two maps and
    concept entries. *)
Definition grows (self self' : Builder.t) : Prop :=
  NamespaceMap.nsmap (Builder.nsmap self) ⊆ NamespaceMap.nsmap (Builder.nsmap self')
  /\ prefixmap (Builder.nsmap self) ⊆ prefixmap (Builder.nsmap self')
  /\ prefixmap (roleMap self) ⊆ prefixmap (roleMap self')
  /\ concepts (taxonomyData self) ⊆ concepts (taxonomyData self').

(** [name] is how [m] writes the qualified name [q]: the prefix bound to
    its namespace, a colon and its local name. *)
Definition rendered (m : NamespaceMap.t) (q : QName) (name : string) : Prop :=
  exists p, NamespaceMap.nsmap m !! namespaceURI q = Some p
            /\ name = p +:+ ":" +:+ localName q.

(** The concept has an entry under the name the builder gives it. *)
Definition entered (self : Builder.t) (cpt : Concept) : Prop :=
  exists name, rendered (Builder.nsmap self) (c_qname cpt) name
               /\ is_Some (concepts (taxonomyData self) !! name).

(** [k] and [x] are the names of the dimension and the member of an explicit
    qualifier among [items]. *)
Definition dim_of (m : NamespaceMap.t) (items : list (QName * DimValue))
    (k x : string) : Prop :=
  exists q dv mq, (q, dv) ∈ items /\ memberQname dv = Some mq
                  /\ rendered m (dimensionQname dv) k /\ rendered m mq x.

(** The record [fd] describes the fact [fct], with names as [m] writes
    them. *)
Definition record_of (m : NamespaceMap.t) (fct : Fact) (fd : FactData) : Prop :=
  f fd = f_format fct /\ v fd = f_value fct
  /\ rendered m (f_qname fct) (c fd)
  /\ (exists ctx, f_context fct = Some ctx /\ period ctx = Ok (pt fd, pf fd))
  /\ (forall k x, d fd !! k = Some x -> dim_of m (f_dims fct) k x)
  /\ match u fd with
     | None => f_isNumeric fct = false
     | Some x =>
         f_isNumeric fct = true
         /\ exists un m0 ms mss,
              f_unit fct = Some un /\ measures un = (m0 :: ms) :: mss
              /\ rendered m m0 x
     end.

(** What one qualifier adds to the dimensions map, with names as [m] writes
    them: nothing when it is typed. *)
Definition dim_step (m : NamespaceMap.t) (acc : gmap string string)
    (item : QName * DimValue) : gmap string string :=
  match memberQname (snd item) with
  | None => acc
  | Some mq =>
      <[fst (NamespaceMap.qname m (dimensionQname (snd item)))
          := fst (NamespaceMap.qname m mq)]> acc
  end.

(** The dimensions map that the dimension loop builds from [items], with
    names as [m] writes them: typed qualifiers leave no entry, and a later
    qualifier of the same dimension replaces an earlier one. *)
Definition explicit_dims (m : NamespaceMap.t) (items : list (QName * DimValue))
  : gmap string string :=
  fold_left (dim_step m) items ∅.

(** The record [fd] describes the fact [fct] in full: [record_of], and
    its dimensions are exactly those of the explicit qualifiers. *)
Definition describes (m : NamespaceMap.t) (fct : Fact) (fd : FactData) : Prop :=
  record_of m fct fd /\ d fd = explicit_dims m (f_dims fct).

(** [fd] describes [fct] in [m] and in every later state of the map. *)
Definition described_from (m : NamespaceMap.t) (fct : Fact) (fd : FactData) : Prop :=
  record_of m fct fd
  /\ forall m', inv m' ->
       NamespaceMap.nsmap m ⊆ NamespaceMap.nsmap m' ->
       d fd = explicit_dims m' (f_dims fct).

(** The key under which the fact loop files a fact: [f.id], which is set by
    then. *)
Definition final_id (fct : Fact) : string := default "" (f_id fct).

(** The exceptions of a failed lookup: an attribute of [None], or an index
    into an empty list. *)
Definition lookup_error (e : exn) : bool :=
  match e with
  | AttributeError | IndexError => true
  | OSError => false
  end.

(* ===================================================================== *)
(** * Strings, the escaping and the prefix allocator *)
(* ===================================================================== *)

Import NamespaceMap.

Lemma append_nil_l (b : string) : "" +:+ b = b.
Proof. reflexivity. Qed.

Lemma append_cons (x : ascii) (a b : string) : String x a +:+ b = String x (a +:+ b).
Proof. reflexivity. Qed.

Lemma append_nil_r (a : string) : a +:+ "" = a.
Proof. induction a as [|x a IH]; [done|]. by rewrite append_cons, IH. Qed.

Lemma append_assoc (a b c : string) : (a +:+ b) +:+ c = a +:+ (b +:+ c).
Proof. induction a as [|x a IH]; [done|]. by rewrite !append_cons, IH. Qed.

Lemma replace_app old new a b :
  Py.replace old new (a +:+ b) = Py.replace old new a +:+ Py.replace old new b.
Proof.
  induction a as [|c a IH]; [done|].
  rewrite append_cons. cbn [Py.replace].
  destruct (Ascii.eqb c old); rewrite IH; [|done].
  by rewrite append_assoc.
Qed.

Ltac order_tac :=
  let c := fresh "c" in let s := fresh "s" in let IH := fresh "IH" in
  intros s; induction s as [|c s IH]; [done|];
  cbn [subst_all]; unfold subst_char;
  destruct (Ascii.eqb_spec c "<") as [->|N1];
    [cbn; rewrite ?replace_app, IH; done|];
  destruct (Ascii.eqb_spec c ">") as [->|N2];
    [cbn; rewrite ?replace_app, IH; done|];
  destruct (Ascii.eqb_spec c "&") as [->|N3];
    [cbn; rewrite ?replace_app, IH; done|];
  cbn [Py.replace];
  rewrite ?(proj2 (Ascii.eqb_neq _ _) N1), ?(proj2 (Ascii.eqb_neq _ _) N2),
    ?(proj2 (Ascii.eqb_neq _ _) N3);
  cbn [Py.replace];
  rewrite ?(proj2 (Ascii.eqb_neq _ _) N1), ?(proj2 (Ascii.eqb_neq _ _) N2),
    ?(proj2 (Ascii.eqb_neq _ _) N3);
  cbn [Py.replace];
  rewrite ?(proj2 (Ascii.eqb_neq _ _) N1), ?(proj2 (Ascii.eqb_neq _ _) N2),
    ?(proj2 (Ascii.eqb_neq _ _) N3);
  rewrite IH; done.

Lemma o1 : forall s, escapeJSONForScriptTag s = subst_all s.
Proof. unfold escapeJSONForScriptTag. order_tac. Qed.

Lemma o2 : forall s, escape_lt_amp_gt s = subst_all s.
Proof. unfold escape_lt_amp_gt. order_tac. Qed.

Lemma o3 : forall s, escape_gt_lt_amp s = subst_all s.
Proof. unfold escape_gt_lt_amp. order_tac. Qed.

Lemma o4 : forall s, escape_gt_amp_lt s = subst_all s.
Proof. unfold escape_gt_amp_lt. order_tac. Qed.

Lemma o5 : forall s, escape_amp_lt_gt s = subst_all s.
Proof. unfold escape_amp_lt_gt. order_tac. Qed.

Lemma o6 : forall s, escape_amp_gt_lt s = subst_all s.
Proof. unfold escape_amp_gt_lt. order_tac. Qed.

Lemma special_cases c :
  xml_special c = true -> c = "<"%char \/ c = ">"%char \/ c = "&"%char.
Proof.
  unfold xml_special. intros H.
  destruct (Ascii.eqb_spec c "<"); [by left|].
  destruct (Ascii.eqb_spec c ">"); [by right; left|].
  destruct (Ascii.eqb_spec c "&"); [by right; right|]. done.
Qed.

Lemma subst_char_plain c : xml_special c = false -> subst_char c = String c "".
Proof.
  unfold xml_special, subst_char.
  intros [[H1 H2]%orb_false_iff H3]%orb_false_iff. by rewrite H1, H2, H3.
Qed.

Lemma subst_all_plain c r :
  xml_special c = false -> subst_all (String c r) = String c (subst_all r).
Proof. intros H. cbn [subst_all]. by rewrite subst_char_plain. Qed.

Lemma hexval_plain c u : Json.hexval c = Some u -> xml_special c = false.
Proof.
  destruct (xml_special c) eqn:E; [|done].
  destruct (special_cases c E) as [->|[->| ->]]; by vm_compute.
Qed.

Lemma simple_escape_plain c u : Json.simple_escape c = Some u -> xml_special c = false.
Proof.
  destruct (xml_special c) eqn:E; [|done].
  destruct (special_cases c E) as [->|[->| ->]]; by vm_compute.
Qed.

Lemma decode_plain a b c d u :
  Json.decode_uXXXX a b c d = Some u ->
  xml_special a = false /\ xml_special b = false /\
  xml_special c = false /\ xml_special d = false.
Proof.
  unfold Json.decode_uXXXX.
  destruct (Json.hexval a) eqn:Ha; [|done].
  destruct (Json.hexval b) eqn:Hb; [|done].
  destruct (Json.hexval c) eqn:Hc; [|done].
  destruct (Json.hexval d) eqn:Hd; [|done].
  eauto 10 using hexval_plain.
Qed.

Lemma scan_subst_aux n : forall s mode toks,
  String.length s < n ->
  Json.scan mode s = Some toks -> Json.scan mode (subst_all s) = Some toks.
Proof.
  induction n as [|n IH]; intros s mode toks Hlen H; [lia|].
  destruct s as [|c r]; [done|]. cbn [String.length] in Hlen.
  destruct (xml_special c) eqn:Sp.
  - destruct mode as [acc|].
    + destruct (special_cases c Sp) as [->|[->| ->]];
        cbn in H |- *; apply IH; (lia || done).
    + destruct (special_cases c Sp) as [->|[->| ->]]; by cbn in H.
  - rewrite subst_all_plain by done.
    destruct mode as [acc|]; cbn [Json.scan] in H |- *.
    + destruct (Ascii.eqb c Json.dquote).
      { destruct (Json.scan None r) as [l|] eqn:E; [|done].
        rewrite (IH r None l); [done|lia|done]. }
      destruct (Ascii.eqb c backslash).
      2:{ destruct (Json.is_control c); [done|]. apply IH; [lia|done]. }
      destruct r as [|e r1]; [done|]. cbn [String.length] in Hlen.
      destruct (Ascii.eqb_spec e "u") as [->|Ne].
      * destruct r1 as [|h1 [|h2 [|h3 [|h4 r2]]]]; try done.
        cbn [String.length] in Hlen.
        destruct (Json.decode_uXXXX h1 h2 h3 h4) as [u|] eqn:D; [|done].
        destruct (decode_plain _ _ _ _ _ D) as (P1 & P2 & P3 & P4).
        rewrite subst_all_plain by done.
        rewrite !(subst_all_plain _ _) by done.
        cbn [Json.scan]. rewrite D. apply IH; [lia|done].
      * destruct (Json.simple_escape e) as [u|] eqn:E; [|done].
        rewrite (subst_all_plain e) by eauto using simple_escape_plain.
        rewrite (proj2 (Ascii.eqb_neq _ _) Ne), E. apply IH; [lia|done].
    + destruct (Ascii.eqb c Json.dquote); [apply IH; [lia|done]|].
      destruct (Json.outside_char c); [|done].
      destruct (Json.scan None r) as [l|] eqn:E; [|done].
      rewrite (IH r None l); [done|lia|done].
Qed.

Lemma contains_true {V} (d : gmap string V) k : contains d k = true <-> is_Some (d !! k).
Proof. unfold contains. by rewrite bool_decide_eq_true. Qed.

Lemma contains_false {V} (d : gmap string V) k : contains d k = false <-> d !! k = None.
Proof. unfold contains. rewrite bool_decide_eq_false. by rewrite eq_None_not_Some. Qed.

Lemma numbered_inj p : Inj (=) (=) (numbered p).
Proof.
  intros n1 n2 H. unfold numbered, Py.fmt_d in H.
  apply String.app_inj in H. by apply (inj _) in H.
Qed.

Lemma search_range pm p fuel : forall n,
  n <= search pm p fuel n <= n + fuel
  /\ (forall k, n <= k < search pm p fuel n -> contains pm (numbered p k) = true)
  /\ (search pm p fuel n < n + fuel ->
      contains pm (numbered p (search pm p fuel n)) = false).
Proof.
  induction fuel as [|fuel IH]; intros n; cbn [search].
  - repeat split; intros; lia.
  - destruct (contains pm (numbered p n)) eqn:E.
    + destruct (IH (S n)) as (Hr & Hin & Hout).
      split; [lia|]. split.
      * intros k Hk. destruct (decide (k = n)) as [->|]; [done|]. apply Hin. lia.
      * intros Hlt. apply Hout. lia.
    + repeat split; try lia. done.
Qed.

Lemma full_range_bounded (pm : gmap string string) p m :
  (forall k, k < m -> contains pm (numbered p k) = true) -> m <= size pm.
Proof.
  intros H.
  assert (NoDup (numbered p <$> seq 0 m)) as Hnd.
  { apply NoDup_fmap_2; [apply numbered_inj|apply NoDup_seq]. }
  assert (numbered p <$> seq 0 m ⊆+ elements (dom pm)) as Hsub.
  { apply NoDup_submseteq; [done|].
    intros x (k & -> & Hk)%list_elem_of_fmap. apply elem_of_seq in Hk.
    apply elem_of_elements, elem_of_dom, contains_true, H. lia. }
  apply submseteq_length in Hsub. rewrite length_fmap, length_seq in Hsub.
  by rewrite <- size_dom.
Qed.

Lemma first_free_spec pm p :
  contains pm (numbered p (first_free pm p)) = false
  /\ forall k, k < first_free pm p -> contains pm (numbered p k) = true.
Proof.
  unfold first_free.
  destruct (search_range pm p (S (size pm)) 0) as (Hr & Hin & Hout).
  split; [|intros k Hk; apply Hin; lia].
  apply Hout.
  destruct (decide (search pm p (S (size pm)) 0 < 0 + S (size pm))); [done|].
  assert (S (size pm) <= size pm); [|lia].
  apply (full_range_bounded pm p). intros k Hk. apply Hin. lia.
Qed.

Lemma search_exits pm p : while_taken pm p 0 (first_free pm p).
Proof.
  destruct (first_free_spec pm p) as [Hout Hin].
  assert (forall j n, n + j = first_free pm p -> while_taken pm p n (first_free pm p)) as H.
  { induction j as [|j IH]; intros n Hn.
    - replace n with (first_free pm p) by lia. by constructor.
    - apply while_iter; [apply Hin; lia|]. apply IH. lia. }
  apply (H (first_free pm p)). lia.
Qed.

Lemma truthy_ne s : Py.truthy s = true <-> s <> "".
Proof. destruct s; cbn; split; intros; congruence. Qed.

Lemma numbered_ne p n : p <> "" -> numbered p n <> "".
Proof. unfold numbered. destruct p; [done|]. by rewrite append_cons. Qed.

Lemma pick_ne pm pp : pick pm pp <> "".
Proof.
  unfold pick.
  destruct pp as [x|]; cbn -[contains first_free numbered].
  - destruct (Py.truthy x) eqn:T; cbn [andb].
    + apply truthy_ne in T. destruct (contains pm x); cbn [negb andb]; [|done].
      by apply numbered_ne.
    + by apply numbered_ne.
  - by apply numbered_ne.
Qed.

Lemma pick_fresh pm pp : pm !! pick pm pp = None.
Proof.
  unfold pick.
  destruct (Py.truthy_opt pp && negb (contains pm (default "" pp))) eqn:E.
  - apply andb_true_iff in E as [_ E]. apply negb_true_iff in E.
    by apply contains_false.
  - apply contains_false, first_free_spec.
Qed.

Lemma inv_new : inv new.
Proof. split; intros; cbn; rewrite ?lookup_empty; [split; intros [=]|intros [=]]. Qed.

Lemma getPrefix_bound m ns pp p :
  nsmap m !! ns = Some p -> p <> "" -> getPrefix m ns pp = (p, m).
Proof.
  intros H Hp. unfold getPrefix. rewrite H. cbn -[pick].
  apply truthy_ne in Hp. by rewrite Hp.
Qed.

Lemma getPrefix_unbound m ns pp :
  nsmap m !! ns = None ->
  getPrefix m ns pp =
    (pick (prefixmap m) pp,
     {| nsmap := <[ns := pick (prefixmap m) pp]> (nsmap m);
        prefixmap := <[pick (prefixmap m) pp := ns]> (prefixmap m) |}).
Proof. intros H. unfold getPrefix. by rewrite H. Qed.

Lemma getPrefix_binds m ns pp :
  nsmap (snd (getPrefix m ns pp)) !! ns = Some (fst (getPrefix m ns pp))
  /\ fst (getPrefix m ns pp) <> "".
Proof.
  unfold getPrefix.
  destruct (nsmap m !! ns) as [p|] eqn:E; cbn -[pick].
  - destruct (Py.truthy p) eqn:T; cbn [negb fst snd nsmap].
    + split; [done|by apply truthy_ne].
    + split; [by rewrite lookup_insert_eq|apply pick_ne].
  - cbn [negb fst snd nsmap]. split; [by rewrite lookup_insert_eq|apply pick_ne].
Qed.

Lemma getPrefix_again m ns pp pp' :
  getPrefix (snd (getPrefix m ns pp)) ns pp' = getPrefix m ns pp.
Proof.
  destruct (getPrefix_binds m ns pp) as [Hb Hne].
  rewrite (getPrefix_bound _ _ _ _ Hb Hne). by destruct (getPrefix m ns pp).
Qed.

Lemma getPrefix_inv m ns pp : inv m -> inv (snd (getPrefix m ns pp)).
Proof.
  intros [Hbij Hne].
  destruct (nsmap m !! ns) as [p|] eqn:E.
  - rewrite (getPrefix_bound m ns pp p); [done|done|].
    intros ->. by apply (Hne ns).
  - rewrite getPrefix_unbound by done. cbn [snd].
    pose proof (pick_fresh (prefixmap m) pp) as Hfresh.
    pose proof (pick_ne (prefixmap m) pp) as Hpne.
    set (q := pick (prefixmap m) pp) in *.
    split; cbn [nsmap prefixmap].
    + intros ns' p'. rewrite !lookup_insert. 
      destruct (decide (ns = ns')) as [->|Hns], (decide (q = p')) as [->|Hq].
      * done.
      * split; [intros [=]; congruence|intros H%Hbij; congruence].
      * split; [intros H%Hbij; congruence|intros [=]; congruence].
      * apply Hbij.
    + intros ns'. rewrite lookup_insert. destruct (decide (ns = ns')); [congruence|apply Hne].
Qed.

Lemma getPrefix_keeps m ns pp ns' p :
  inv m -> nsmap m !! ns' = Some p -> nsmap (snd (getPrefix m ns pp)) !! ns' = Some p.
Proof.
  intros [Hbij Hne] H.
  destruct (nsmap m !! ns) as [q|] eqn:E.
  - rewrite (getPrefix_bound m ns pp q); [done|done|].
    intros ->. by apply (Hne ns).
  - rewrite getPrefix_unbound by done. cbn [snd nsmap].
    rewrite lookup_insert_ne; [done|congruence].
Qed.

Lemma getPrefix_keeps_prefix m ns pp q ns' :
  prefixmap m !! q = Some ns' -> nsmap m !! ns' = Some q ->
  prefixmap (snd (getPrefix m ns pp)) !! q = Some ns'.
Proof.
  intros H Hn. unfold getPrefix.
  destruct (negb (Py.truthy_opt (nsmap m !! ns))) eqn:E; cbn [snd prefixmap]; [|done].
  rewrite lookup_insert_ne; [done|].
  intros Heq. pose proof (pick_fresh (prefixmap m) pp). congruence.
Qed.

Lemma run_inv cs : forall m, inv m -> inv (run m cs).
Proof.
  induction cs as [|[ns pp] cs IH]; intros m Hm; cbn [run]; [done|].
  by apply IH, getPrefix_inv.
Qed.

Lemma run_keeps cs : forall m ns p,
  inv m -> nsmap m !! ns = Some p -> nsmap (run m cs) !! ns = Some p.
Proof.
  induction cs as [|[ns' pp] cs IH]; intros m ns p Hm H; cbn [run]; [done|].
  apply IH; [by apply getPrefix_inv|by apply getPrefix_keeps].
Qed.

Lemma run_app cs1 cs2 m : run m (cs1 ++ cs2) = run (run m cs1) cs2.
Proof.
  revert m. induction cs1 as [|[ns pp] cs1 IH]; intros m; cbn [run app]; [done|].
  apply IH.
Qed.

Lemma returns_bound cs : forall m i ns pp p,
  inv m -> cs !! i = Some (ns, pp) -> returns m cs !! i = Some p ->
  nsmap (run m cs) !! ns = Some p.
Proof.
  induction cs as [|[ns' pp'] cs IH]; intros m i ns pp p Hm Hc Hr; [done|].
  destruct i as [|i]; cbn in Hc, Hr.
  - injection Hc as -> ->. injection Hr as <-. cbn [run].
    apply run_keeps; [by apply getPrefix_inv|apply getPrefix_binds].
  - cbn [run]. eapply IH; [by apply getPrefix_inv|done..].
Qed.

(** C2.  After any sequence of [getPrefix] calls on a fresh instance,
    [nsmap] and [prefixmap] are inverse to each other; no two identifiers are
    bound to, or were ever returned, the same prefix; and once an identifier is
    bound, every later call with that identifier returns the same prefix,
    whatever preferred prefix is passed. *)
Theorem C2_prefix_maps_inverse_and_stable (cs : list call) :
  let m := run new cs in
  (forall ns p, nsmap m !! ns = Some p <-> prefixmap m !! p = Some ns)
  /\ (forall ns1 ns2 p,
        nsmap m !! ns1 = Some p -> nsmap m !! ns2 = Some p -> ns1 = ns2)
  /\ (forall i j ns1 pp1 ns2 pp2 p,
        cs !! i = Some (ns1, pp1) -> cs !! j = Some (ns2, pp2) ->
        returns new cs !! i = Some p -> returns new cs !! j = Some p ->
        ns1 = ns2)
  /\ (forall ns p cs' pp,
        nsmap m !! ns = Some p ->
        fst (getPrefix (run m cs') ns pp) = p)
  /\ (forall ns pp cs' pp',
        fst (getPrefix (run (snd (getPrefix m ns pp)) cs') ns pp')
        = fst (getPrefix m ns pp)).
Proof.
  intros m. pose proof (run_inv cs new inv_new) as Hm. fold m in Hm.
  assert (forall ns1 ns2 p,
    nsmap m !! ns1 = Some p -> nsmap m !! ns2 = Some p -> ns1 = ns2) as Hinj.
  { intros ns1 ns2 p H1 H2. destruct Hm as [Hbij _].
    apply Hbij in H1, H2. congruence. }
  assert (forall ns p cs' pp, nsmap m !! ns = Some p ->
    fst (getPrefix (run m cs') ns pp) = p) as Hst.
  { intros ns p cs' pp H.
    rewrite (getPrefix_bound _ ns pp p); [done|by apply run_keeps|].
    intros ->. destruct Hm as [_ Hne]. by apply (Hne ns). }
  split; [apply Hm|]. split; [done|]. split; [|split; [done|]].
  - intros i j ns1 pp1 ns2 pp2 p Hi Hj Ri Rj.
    apply (Hinj ns1 ns2 p); eapply returns_bound; eauto using inv_new.
  - intros ns pp cs' pp'.
    destruct (getPrefix_binds m ns pp) as [Hb Hne].
    rewrite (getPrefix_bound _ ns pp' (fst (getPrefix m ns pp))); [done| |done].
    apply run_keeps; [by apply getPrefix_inv|done].
Qed.

Lemma pick_preferred pm x :
  x <> "" -> pm !! x = None -> pick pm (Some x) = x.
Proof.
  intros Hx Hf. unfold pick. cbn -[contains first_free numbered].
  apply truthy_ne in Hx. apply contains_false in Hf. by rewrite Hx, Hf.
Qed.

Lemma pick_taken pm x :
  x <> "" -> is_Some (pm !! x) -> pick pm (Some x) = numbered x (first_free pm x).
Proof.
  intros Hx Hf. unfold pick. cbn -[contains first_free numbered].
  apply truthy_ne in Hx. apply contains_true in Hf. by rewrite Hx, Hf.
Qed.

Lemma pick_fallback pm pp :
  pp = None \/ pp = Some "" -> pick pm pp = numbered "ns" (first_free pm "ns").
Proof. by intros [->| ->]. Qed.

Lemma first_free_least pm p : least_free pm p (first_free pm p).
Proof.
  destruct (first_free_spec pm p) as [H1 H2]. split.
  - by apply contains_false.
  - intros k Hk. by apply contains_true, H2.
Qed.

(** C5.  For an identifier that is not bound yet: a preferred prefix that is
    given (a non-empty string) and not bound is returned as it is; otherwise
    the result is the preferred prefix, or [ns] when none is given ([None] or
    the empty string), followed by the least number, from 0 upwards and in
    plain decimal, that makes a prefix not bound yet.  The loop that finds it
    exits.  [getPrefix("nsA","x")] then [getPrefix("nsB","x")] return [x] and
    [x0]. *)
Theorem C5_fresh_prefix_choice (m : t) (ns : string) (pp : option string) :
  nsmap m !! ns = None ->
  let p := fst (getPrefix m ns pp) in
  let m' := snd (getPrefix m ns pp) in
  (nsmap m' !! ns = Some p /\ prefixmap m' !! p = Some ns)
  /\ (forall x, pp = Some x -> x <> "" -> prefixmap m !! x = None -> p = x)
  /\ (forall x, pp = Some x -> x <> "" -> is_Some (prefixmap m !! x) ->
        exists n, p = x +:+ Py.fmt_d n /\ least_free (prefixmap m) x n)
  /\ (pp = None \/ pp = Some "" ->
        exists n, p = "ns" +:+ Py.fmt_d n /\ least_free (prefixmap m) "ns" n)
  /\ while_taken (prefixmap m) "ns" 0 (first_free (prefixmap m) "ns")
  /\ (Py.fmt_d 0 = "0" /\ Py.fmt_d 7 = "7" /\ Py.fmt_d 10 = "10")
  /\ (let a := getPrefix new "nsA" (Some "x") in
      let b := getPrefix (snd a) "nsB" (Some "x") in
      fst a = "x" /\ fst b = "x0").
Proof.
  intros Hnone p m'. subst p m'. rewrite getPrefix_unbound by done.
  cbn [fst snd nsmap prefixmap].
  split; [by rewrite !lookup_insert_eq|].
  split; [intros x -> Hx Hf; by apply pick_preferred|].
  split.
  { intros x -> Hx Hf. exists (first_free (prefixmap m) x).
    split; [by apply pick_taken|apply first_free_least]. }
  split.
  { intros H. exists (first_free (prefixmap m) "ns").
    split; [by apply pick_fallback|apply first_free_least]. }
  split; [apply search_exits|].
  split; [done|]. by vm_compute.
Qed.

(** C5 on the collision example. *)
Lemma C5_witness :
  nsmap (snd (getPrefix new "nsA" (Some "x"))) !! "nsB" = None
  /\ exists n, fst (getPrefix (snd (getPrefix new "nsA" (Some "x"))) "nsB" (Some "x"))
       = "x" +:+ Py.fmt_d n
     /\ least_free (prefixmap (snd (getPrefix new "nsA" (Some "x")))) "x" n.
Proof.
  assert (nsmap (snd (getPrefix new "nsA" (Some "x"))) !! "nsB" = None) as H
    by (vm_compute; reflexivity).
  split; [exact H|].
  destruct (C5_fresh_prefix_choice _ "nsB" (Some "x") H) as (_ & _ & Htaken & _).
  apply (Htaken "x"); [reflexivity|discriminate|].
  vm_compute. eauto.
Defined.

(* ===================================================================== *)
(** * The builder *)
(* ===================================================================== *)

Import Model Builder.

Lemma bind_Ok {A B} (m : result A) (k : A -> result B) b :
  m ≫= k = Ok b <-> exists a, m = Ok a /\ k a = Ok b.
Proof.
  destruct m as [a|e]; cbn; split.
  - eauto.
  - by intros (a' & [= ->] & H).
  - done.
  - by intros (a' & [=] & _).
Qed.

Lemma qname_fst m q :
  NamespaceMap.qname m q =
    (fst (getPrefix m (namespaceURI q) (prefix q)) +:+ ":" +:+ localName q,
     snd (getPrefix m (namespaceURI q) (prefix q))).
Proof. unfold NamespaceMap.qname. by destruct (getPrefix _ _ _). Qed.

Lemma qname_again m q :
  NamespaceMap.qname (snd (NamespaceMap.qname m q)) q = NamespaceMap.qname m q.
Proof.
  rewrite !qname_fst. cbn [snd fst]. by rewrite getPrefix_again.
Qed.

Lemma addLabel_Ok acc l :
  (exists r, addLabel acc l = Ok r) <-> present (xmlLang l) = true.
Proof.
  destruct acc as [lbls rm]. unfold addLabel.
  destruct (getPrefix rm (role l) None) as [rp rm'].
  destruct (xmlLang l) as [lang|]; cbn [attr mbind result_bind present].
  - split; [done|eauto].
  - split; [by intros [r H]|done].
Qed.

Lemma labelLoop_Ok ls : forall acc,
  (exists r, labelLoop ls acc = Ok r)
  <-> forallb (fun l => present (xmlLang l)) ls = true.
Proof.
  induction ls as [|l ls IH]; intros acc; cbn [labelLoop forallb].
  - split; [done|eauto].
  - rewrite andb_true_iff, <- (addLabel_Ok acc l). split.
    + intros [r H]. apply bind_Ok in H as (acc' & H1 & H2).
      split; [eauto|]. apply (IH acc'). eauto.
    + intros [[acc' H1] H2]. rewrite H1. cbn [mbind result_bind]. by apply IH.
Qed.

(** C7.  [addConcept] on a concept returns exactly when the concept's
    qualified name is a key of [concepts] already or each of its label
    resources has a language.  When it returns, a second call on the same
    concept returns the same builder, so it changes nothing at all; and
    when the name is already a key of [concepts], the call leaves
    [taxonomyData] and the role map as they are. *)
Theorem C7_addConcept_idempotent (self : Builder.t) (cpt : Concept) :
  let name := fst (NamespaceMap.qname (Builder.nsmap self) (c_qname cpt)) in
  ((exists self1, addConcept self (Some cpt) = Ok self1)
   <-> is_Some (concepts (taxonomyData self) !! name) \/ labelled cpt = true)
  /\ forall self1,
       addConcept self (Some cpt) = Ok self1 ->
       addConcept self1 (Some cpt) = Ok self1
       /\ is_Some (concepts (taxonomyData self1) !! name)
       /\ (is_Some (concepts (taxonomyData self) !! name) ->
           taxonomyData self1 = taxonomyData self /\ roleMap self1 = roleMap self)
       /\ (forall self2, addConcept self1 (Some cpt) = Ok self2 ->
           concepts (taxonomyData self2) = concepts (taxonomyData self1)).
Proof.
  intros name. subst name.
  unfold addConcept at 1 2. cbn [attr mbind result_bind].
  pose proof (qname_again (Builder.nsmap self) (c_qname cpt)) as Hagain.
  destruct (NamespaceMap.qname (Builder.nsmap self) (c_qname cpt)) as [name ns'] eqn:Q.
  cbn [fst snd] in *.
  destruct (contains (concepts (taxonomyData self)) name) eqn:C; cbn [negb].
  - split; [split; [intros _; left; by apply contains_true|eauto]|].
    intros self1 [= <-].
    assert (addConcept {| Builder.nsmap := ns'; roleMap := roleMap self;
                          taxonomyData := taxonomyData self |} (Some cpt)
            = Ok {| Builder.nsmap := ns'; roleMap := roleMap self;
                    taxonomyData := taxonomyData self |}) as Hsecond.
    { unfold addConcept. cbn [attr mbind result_bind Builder.nsmap taxonomyData roleMap].
      rewrite Hagain, C. done. }
    split; [done|]. cbn [taxonomyData roleMap].
    split; [by apply contains_true|]. split; [done|].
    intros self2. rewrite Hsecond. by intros [= <-].
  - split.
    + rewrite <- (labelLoop_Ok (c_labels cpt) (∅, roleMap self)). split.
      * intros [self1 H]. right. apply bind_Ok in H as (r & H & _). eauto.
      * intros [H%contains_true|[[lbls rm'] H]]; [congruence|].
        rewrite H. cbn [mbind result_bind]. eauto.
    + intros self1 H. apply bind_Ok in H as ([lbls rm'] & F & H). injection H as <-.
      match goal with |- addConcept ?s _ = _ /\ _ =>
        assert (addConcept s (Some cpt) = Ok s) as Hsecond end.
      { unfold addConcept. cbn [attr mbind result_bind Builder.nsmap taxonomyData roleMap concepts].
        rewrite Hagain.
        replace (contains _ name) with true; [done|].
        symmetry. apply contains_true. by rewrite lookup_insert_eq. }
      split; [done|]. cbn [taxonomyData roleMap concepts].
      split; [by rewrite lookup_insert_eq|]. split.
      * intros H%contains_true. congruence.
      * intros self2. rewrite Hsecond. by intros [= <-].
Qed.

Lemma getPrefix_prefixmap_mono m ns pp q x :
  NamespaceMap.prefixmap m !! q = Some x ->
  NamespaceMap.prefixmap (snd (getPrefix m ns pp)) !! q = Some x.
Proof.
  intros H. unfold getPrefix.
  destruct (negb (Py.truthy_opt (NamespaceMap.nsmap m !! ns))); cbn [snd prefixmap]; [|done].
  rewrite lookup_insert_ne; [done|].
  intros Heq. pose proof (pick_fresh (prefixmap m) pp). congruence.
Qed.

Lemma roles_le_refl rm : roles_le rm rm.
Proof. by intros q x. Qed.

Lemma roles_le_trans a b c : roles_le a b -> roles_le b c -> roles_le a c.
Proof. intros H1 H2 q x H. by apply H2, H1. Qed.

Lemma addLabel_roles_le acc l acc' :
  addLabel acc l = Ok acc' -> roles_le (snd acc) (snd acc').
Proof.
  destruct acc as [lbls rm]. unfold addLabel.
  destruct (getPrefix rm (role l) None) as [rp rm'] eqn:G.
  intros H. apply bind_Ok in H as (lang & _ & [= <-]). cbn [snd].
  intros q x H. replace rm' with (snd (getPrefix rm (role l) None)) by by rewrite G.
  by apply getPrefix_prefixmap_mono.
Qed.

Lemma labelLoop_roles_le ls : forall acc acc',
  labelLoop ls acc = Ok acc' -> roles_le (snd acc) (snd acc').
Proof.
  induction ls as [|l ls IH]; intros acc acc' H; cbn [labelLoop] in H.
  - injection H as <-. apply roles_le_refl.
  - apply bind_Ok in H as (acc1 & H1 & H2).
    eapply roles_le_trans; [by eapply addLabel_roles_le|by eapply IH].
Qed.

Lemma keeps_refl self : keeps self self.
Proof. repeat split; apply roles_le_refl. Qed.

Lemma keeps_trans a b c : keeps a b -> keeps b c -> keeps a c.
Proof.
  intros (F1 & P1 & R1 & L1) (F2 & P2 & R2 & L2).
  repeat split; try congruence. by eapply roles_le_trans.
Qed.

Lemma addConcept_keeps self cpt self' :
  addConcept self cpt = Ok self' -> keeps self self'.
Proof.
  unfold addConcept. destruct cpt as [cpt|]; [|done]. cbn [attr mbind result_bind].
  destruct (NamespaceMap.qname _ _) as [name ns'].
  destruct (negb _).
  - intros H. apply bind_Ok in H as ([lbls rm'] & F & [= <-]).
    apply labelLoop_roles_le in F. repeat split; done.
  - intros [= <-]. repeat split; try done. apply roles_le_refl.
Qed.

Lemma with_nsmap_keeps self ns :
  keeps self {| Builder.nsmap := ns; roleMap := roleMap self;
                taxonomyData := taxonomyData self |}.
Proof. repeat split; apply roles_le_refl. Qed.

Lemma dimLoop_keeps items : forall dims self dims' self',
  dimLoop items dims self = Ok (dims', self') -> keeps self self'.
Proof.
  induction items as [|[dq dv] items IH]; intros dims self dims' self' H; cbn [dimLoop] in H.
  - injection H as <- <-. apply keeps_refl.
  - destruct (memberQname dv) as [mq|]; [|by eapply IH].
    destruct (NamespaceMap.qname _ mq) as [mname ns1].
    destruct (NamespaceMap.qname ns1 _) as [dname ns2].
    apply bind_Ok in H as (self2 & H2 & H).
    apply bind_Ok in H as (self3 & H3 & H).
    eapply keeps_trans; [apply with_nsmap_keeps|].
    eapply keeps_trans; [by eapply addConcept_keeps|].
    eapply keeps_trans; [by eapply addConcept_keeps|].
    by eapply IH.
Qed.

Lemma dimLoop_filter items : forall dims self,
  dimLoop items dims self
  = dimLoop (List.filter (fun i => negb (is_typed i)) items) dims self.
Proof.
  induction items as [|[dq dv] items IH]; intros dims self; [done|].
  cbn [List.filter]. unfold is_typed at 1. cbn [snd dimLoop].
  destruct (memberQname dv) as [mq|] eqn:E; cbn [negb]; [|apply IH].
  cbn [dimLoop]. rewrite E.
  destruct (NamespaceMap.qname _ mq) as [mname ns1].
  destruct (NamespaceMap.qname ns1 _) as [dname ns2].
  destruct (addConcept _ (dimension dv)) as [s2|]; [|done]. cbn.
  destruct (addConcept s2 (member dv)) as [s3|]; [|done]. cbn.
  apply IH.
Qed.

Lemma dimLoop_typed items dims self :
  forallb is_typed items = true -> dimLoop items dims self = Ok (dims, self).
Proof.
  intros H. rewrite dimLoop_filter.
  replace (List.filter _ items) with (@nil (QName * DimValue)); [done|].
  induction items as [|i items IH]; [done|].
  cbn in H |- *. apply andb_true_iff in H as [H1 H2]. rewrite H1. cbn. by apply IH.
Qed.

Lemma factBody_spec idGen fct self fct' self' :
  factBody idGen fct self = Ok (fct', self') ->
  fct' = ensure_id idGen fct
  /\ exists ctx fd s0 s1,
       f_context fct = Some ctx
       /\ s0 = {| Builder.nsmap := snd (NamespaceMap.qname (Builder.nsmap self) (f_qname fct'));
                  roleMap := roleMap self; taxonomyData := taxonomyData self |}
       /\ dimLoop (qnameDims ctx) ∅ s0 = Ok (d fd, s1)
       /\ Builder.facts (taxonomyData self')
          = <[default "" (f_id fct') := fd]> (Builder.facts (taxonomyData self))
       /\ f fd = f_format fct /\ v fd = f_value fct
       /\ c fd = fst (NamespaceMap.qname (Builder.nsmap self) (f_qname fct))
       /\ period ctx = Ok (pt fd, pf fd)
       /\ (f_isNumeric fct = false -> u fd = None)
       /\ prefixes (taxonomyData self') = prefixes (taxonomyData self)
       /\ roles (taxonomyData self') = roles (taxonomyData self)
       /\ roles_le (roleMap self) (roleMap self').
Proof.
  unfold factBody. intros H.
  assert (forall k, f_qname (ensure_id k fct) = f_qname fct
                    /\ f_context (ensure_id k fct) = f_context fct
                    /\ f_isNumeric (ensure_id k fct) = f_isNumeric fct
                    /\ f_format (ensure_id k fct) = f_format fct
                    /\ f_value (ensure_id k fct) = f_value fct
                    /\ f_unit (ensure_id k fct) = f_unit fct
                    /\ f_concept (ensure_id k fct) = f_concept fct) as Hsame.
  { intros k. unfold ensure_id. by destruct (f_id fct). }
  destruct (Hsame idGen) as (Eq & Ec & En & Ef & Ev & Eu & Ecp).
  set (fct1 := ensure_id idGen fct) in *.
  destruct (NamespaceMap.qname (Builder.nsmap self) (f_qname fct1)) as [cname ns1] eqn:Q.
  apply bind_Ok in H as (ctx & Hctx & H).
  apply bind_Ok in H as ([dims s1] & Hd & H).
  apply bind_Ok in H as ([un s2] & Hu & H).
  apply bind_Ok in H as ([ptv pfv] & Hp & H).
  apply bind_Ok in H as (s3 & Ha & H).
  injection H as <- <-. split; [done|].
  rewrite Ec in Hctx. destruct (f_context fct) as [ctx0|] eqn:Ectx; [|done].
  injection Hctx as ->.
  apply dimLoop_keeps in Hd as Kd. apply addConcept_keeps in Ha as Ka.
  assert (keeps s1 s2 /\ (f_isNumeric fct = false -> un = None)) as [Ku Hun].
  { rewrite En in Hu. destruct (f_isNumeric fct).
    - split; [|done].
      apply bind_Ok in Hu as (un0 & _ & Hu).
      apply bind_Ok in Hu as (ms & _ & Hu).
      apply bind_Ok in Hu as (m0 & _ & Hu).
      destruct (NamespaceMap.qname _ m0) as [uname ns2].
      injection Hu as <- <-. apply with_nsmap_keeps.
    - injection Hu as <- <-. split; [apply keeps_refl|done]. }
  destruct Kd as (F1 & P1 & R1 & L1), Ku as (F2 & P2 & R2 & L2),
    Ka as (F3 & P3 & R3 & L3).
  cbn [taxonomyData Builder.facts prefixes roles roleMap] in *.
  eexists ctx, {| f := _; v := _; c := _; d := dims; u := un; pt := ptv; pf := pfv |}, _, s1.
  split; [reflexivity|].
  split; [reflexivity|]. rewrite Q. cbn [snd fst d f v c pt pf u].
  split; [exact Hd|].
  split; [rewrite F3, F2, F1; reflexivity|].
  rewrite Ef, Ev, <- Eq, Q.
  repeat split; try done; try congruence.
  eauto using roles_le_trans.
Qed.

Lemma ensure_id_none k fct :
  f_id fct = None -> f_id (ensure_id k fct) = Some ("ixv-" +:+ Py.fmt_d k).
Proof. intros H. unfold ensure_id. by rewrite H. Qed.

Lemma ensure_id_some k fct x :
  f_id fct = Some x -> ensure_id k fct = fct.
Proof. intros H. unfold ensure_id. by rewrite H. Qed.

Lemma factLoop_spec fs : forall idGen self fs' n self',
  factLoop fs idGen self = Ok (fs', n, self') ->
  n = idGen + length fs
  /\ fs' = imap (fun i fct => ensure_id (idGen + i) fct) fs
  /\ (forall i fct, fs !! i = Some fct ->
        is_Some (Builder.facts (taxonomyData self')
                   !! default "" (f_id (ensure_id (idGen + i) fct))))
  /\ (forall k, is_Some (Builder.facts (taxonomyData self) !! k) ->
        is_Some (Builder.facts (taxonomyData self') !! k))
  /\ prefixes (taxonomyData self') = prefixes (taxonomyData self)
  /\ roles (taxonomyData self') = roles (taxonomyData self)
  /\ roles_le (roleMap self) (roleMap self').
Proof.
  induction fs as [|fct fs IH]; intros idGen self fs' n self' H; cbn [factLoop] in H.
  - injection H as <- <- <-. cbn. repeat split; try done; try lia. apply roles_le_refl.
  - apply bind_Ok in H as ([fct1 self1] & Hb & H).
    apply bind_Ok in H as ([[rest' n'] self2] & Hl & H).
    injection H as <- <- <-.
    apply factBody_spec in Hb as (-> & ctx & fd & s0 & s1 & _ & _ & _ & HF & _ & _ & _ & _ & _ & HP & HR & HL).
    apply IH in Hl as (-> & -> & Hkeys & Hmono & HP' & HR' & HL').
    split; [cbn; lia|]. split.
    { cbn [imap]. rewrite Nat.add_0_r. f_equal.
      apply imap_ext. intros i x _. cbn. f_equal. lia. }
    split.
    { intros [|i] x Hx; cbn in Hx.
      - injection Hx as <-. rewrite Nat.add_0_r. apply Hmono.
        rewrite HF. by rewrite lookup_insert_eq.
      - replace (idGen + S i) with (S idGen + i) by lia. by apply Hkeys. }
    split.
    { intros k Hk. apply Hmono. rewrite HF. rewrite lookup_insert.
      by destruct (decide _). }
    repeat split; try congruence. by eapply roles_le_trans.
Qed.

Lemma addConcept_total self cpt :
  labelled cpt = true -> exists self', addConcept self (Some cpt) = Ok self'.
Proof.
  intros H. unfold addConcept. cbn [attr mbind result_bind].
  destruct (NamespaceMap.qname _ _) as [name ns'].
  destruct (negb _); [|eauto].
  destruct (proj2 (labelLoop_Ok (c_labels cpt) (∅, roleMap self)) H) as [[lbls rm'] ->].
  cbn [mbind result_bind]. eauto.
Qed.

Lemma dimLoop_total items : forall dims self,
  forallb wf_dim items = true -> exists r, dimLoop items dims self = Ok r.
Proof.
  induction items as [|[dq dv] items IH]; intros dims self H; cbn [dimLoop]; [eauto|].
  cbn [forallb] in H. apply andb_true_iff in H as [H1 H2].
  unfold wf_dim, is_typed in H1. cbn [snd] in H1.
  destruct (memberQname dv) as [mq|]; [|by apply IH].
  cbn [orb] in H1. apply andb_true_iff in H1 as [Hd Hm].
  destruct (dimension dv) as [dc|]; [|done]. destruct (member dv) as [mc|]; [|done].
  cbn [wf_concept] in Hd, Hm.
  destruct (NamespaceMap.qname _ mq) as [mname ns1].
  destruct (NamespaceMap.qname ns1 _) as [dname ns2].
  match goal with |- context [addConcept ?s (Some dc)] =>
    destruct (addConcept_total s dc Hd) as [s2 ->] end. cbn [mbind result_bind].
  destruct (addConcept_total s2 mc Hm) as [s3 ->]. cbn [mbind result_bind].
  by apply IH.
Qed.

Lemma period_total ctx : wf_period ctx = true -> exists r, period ctx = Ok r.
Proof.
  unfold wf_period, period.
  destruct (isInstantPeriod ctx).
  - destruct (instantDatetime ctx); [eauto|done].
  - destruct (isStartEndPeriod ctx); [|eauto].
    destruct (startDatetime ctx); [|done]. destruct (endDatetime ctx); [eauto|done].
Qed.

Lemma ensure_id_wf k fct : wf_fact (ensure_id k fct) = wf_fact fct.
Proof. unfold ensure_id. by destruct (f_id fct). Qed.

Lemma factBody_total idGen fct self :
  wf_fact fct = true -> exists r, factBody idGen fct self = Ok r.
Proof.
  intros H. rewrite <- (ensure_id_wf idGen) in H. unfold factBody.
  set (fct1 := ensure_id idGen fct) in *.
  unfold wf_fact in H.
  apply andb_true_iff in H as [H Hctx]. apply andb_true_iff in H as [Hc Hu].
  destruct (f_context fct1) as [ctx|]; [|done].
  apply andb_true_iff in Hctx as [Hper Hdims].
  destruct (NamespaceMap.qname _ (f_qname fct1)) as [cname ns1].
  cbn [attr mbind result_bind].
  match goal with |- context [dimLoop ?i ?dm ?s] =>
    destruct (dimLoop_total i dm s Hdims) as [[dims s1] ->] end.
  cbn [mbind result_bind].
  assert (exists r, (if f_isNumeric fct1 then
       un ← attr (f_unit fct1);
       ms ← item0 (measures un);
       m0 ← item0 ms;
       let '(uname, ns2) := NamespaceMap.qname (Builder.nsmap s1) m0 in
       Ok (Some uname, {| Builder.nsmap := ns2; roleMap := roleMap s1;
                          taxonomyData := taxonomyData s1 |})
     else Ok (None, s1)) = Ok r) as [[un s2] ->].
  { unfold wf_unit in Hu. destruct (f_isNumeric fct1); [|eauto].
    destruct (f_unit fct1) as [un|]; [|done]. cbn [attr mbind result_bind].
    destruct (measures un) as [|[|m0 ms] mss]; try done.
    cbn [item0 mbind result_bind]. destruct (NamespaceMap.qname _ m0). eauto. }
  cbn [mbind result_bind].
  destruct (period_total _ Hper) as [[ptv pfv] ->]. cbn [mbind result_bind].
  destruct (f_concept fct1) as [cpt|]; [|done]. cbn [wf_concept] in Hc.
  match goal with |- context [addConcept ?s (Some cpt)] =>
    destruct (addConcept_total s cpt Hc) as [s3 ->] end.
  cbn [mbind result_bind]. eauto.
Qed.

Lemma factLoop_total fs : forall idGen self,
  forallb wf_fact fs = true -> exists r, factLoop fs idGen self = Ok r.
Proof.
  induction fs as [|fct fs IH]; intros idGen self H; cbn [factLoop]; [eauto|].
  cbn [forallb] in H. apply andb_true_iff in H as [H1 H2].
  destruct (factBody_total idGen fct self H1) as [[fct1 self1] ->].
  cbn [mbind result_bind].
  destruct (IH (S idGen) self1 H2) as [[[rest n] self2] ->].
  cbn [mbind result_bind]. eauto.
Qed.

Lemma occurs_app c a b : occurs c (a +:+ b) = occurs c a || occurs c b.
Proof.
  induction a as [|x a IH]; [done|]. rewrite append_cons. cbn [occurs].
  by rewrite IH, orb_assoc.
Qed.

Lemma eqb_newline_tail s pat :
  occurs Py.newline s = false ->
  String.eqb s (pat +:+ String Py.newline "") = false.
Proof.
  intros H. destruct (String.eqb_spec s (pat +:+ String Py.newline "")) as [->|]; [|done].
  rewrite occurs_app in H. cbn in H. by rewrite orb_true_r in H.
Qed.

Lemma length_app (a b : string) :
  String.length (a +:+ b) = String.length a + String.length b.
Proof. induction a as [|x a IH]; [done|]. rewrite append_cons. cbn. by rewrite IH. Qed.

Lemma sub_at_end_strip pat s :
  pat <> "" -> occurs Py.newline (s +:+ pat) = false ->
  Py.sub_at_end pat (s +:+ pat) = s.
Proof.
  intros Hpat. induction s as [|x s IH]; intros Hnl.
  - rewrite append_nil_l in *. destruct pat as [|y pat]; [done|].
    cbn [Py.sub_at_end]. by rewrite String.eqb_refl.
  - rewrite append_cons in *. cbn [Py.sub_at_end].
    destruct (String.eqb_spec (String x (s +:+ pat)) pat) as [E|_].
    { apply (f_equal String.length) in E. cbn in E. rewrite length_app in E. lia. }
    rewrite eqb_newline_tail by done.
    cbn [occurs] in Hnl. apply orb_false_iff in Hnl as [_ Hnl]. by rewrite IH.
Qed.

Lemma sub_at_end_keep pat s :
  occurs Py.newline s = false -> (forall r, s <> r +:+ pat) ->
  Py.sub_at_end pat s = s.
Proof.
  induction s as [|x s IH]; intros Hnl Hno; [done|].
  cbn [Py.sub_at_end].
  destruct (String.eqb_spec (String x s) pat) as [E|_].
  { by destruct (Hno ""). }
  rewrite eqb_newline_tail by done.
  cbn [occurs] in Hnl. apply orb_false_iff in Hnl as [_ Hnl].
  rewrite IH; [done|done|]. intros r ->. by apply (Hno (String x r)).
Qed.

Lemma dateFormat_strip s :
  occurs Py.newline s = false -> dateFormat (s +:+ "T00:00:00") = s.
Proof.
  intros H. apply sub_at_end_strip; [done|]. rewrite occurs_app, H. done.
Qed.

Lemma dateFormat_keep s :
  occurs Py.newline s = false -> (forall r, s <> r +:+ "T00:00:00") ->
  dateFormat s = s.
Proof. apply sub_at_end_keep. Qed.

Lemma factBody_record idGen fct self fct' self' :
  factBody idGen fct self = Ok (fct', self') ->
  exists ctx fd,
    f_context fct = Some ctx
    /\ Builder.facts (taxonomyData self') !! default "" (f_id fct') = Some fd
    /\ period ctx = Ok (pt fd, pf fd)
    /\ f fd = f_format fct /\ v fd = f_value fct
    /\ c fd = fst (NamespaceMap.qname (Builder.nsmap self) (f_qname fct)).
Proof.
  intros (-> & ctx & fd & s0 & s1 & Hctx & _ & _ & HF & Hf & Hv & Hc & Hp & _)%factBody_spec.
  exists ctx, fd. rewrite HF, lookup_insert_eq. done.
Qed.

(** A fact with a forever period gets no temporal key. *)
Lemma C3_counterexample : ~ every_record_has_a_period.
Proof.
  intros H.
  destruct (factBody 0 forever_fact Builder.new) as [[fct' self']|e] eqn:E;
    [|vm_compute in E; discriminate].
  destruct (factBody_record _ _ _ _ _ E) as (ctx & fd & Hctx & Hfd & Hp & _).
  specialize (H _ _ _ _ _ _ E Hfd).
  injection Hctx as <-. cbn in Hp. injection Hp as Hpt Hpf.
  unfold temporal_keys in H. rewrite <- Hpt, <- Hpf in H. by destruct H.
Qed.

(** C3 (amended).  The temporal keys of a fact record follow the two period
    flags of the context: [pt] alone for an instant period, [pf] and [pt] for
    a start/end period that is not instant, and no temporal key when the
    context is neither.  Each timestamp is the ISO rendering with a trailing
    [T00:00:00] removed and otherwise unchanged (for renderings without a line
    break, as ISO renderings are). *)
Theorem C3_period_keys_follow_context (ctx : Context) :
  (forall dt, isInstantPeriod ctx = true -> instantDatetime ctx = Some dt ->
     period ctx = Ok (Some (dateFormat (isoformat dt)), None))
  /\ (forall ds de, isInstantPeriod ctx = false -> isStartEndPeriod ctx = true ->
       startDatetime ctx = Some ds -> endDatetime ctx = Some de ->
       period ctx = Ok (Some (dateFormat (isoformat de)),
                        Some (dateFormat (isoformat ds))))
  /\ (isInstantPeriod ctx = false -> isStartEndPeriod ctx = false ->
       period ctx = Ok (None, None))
  /\ (forall idGen fct self fct' self',
       f_context fct = Some ctx ->
       factBody idGen fct self = Ok (fct', self') ->
       exists fd,
         Builder.facts (taxonomyData self') !! default "" (f_id fct') = Some fd
         /\ period ctx = Ok (pt fd, pf fd)
         /\ fact_keys fd = (["f"; "v"; "c"; "d"; "u"] ++ temporal_keys fd)%list)
  /\ (forall s, occurs Py.newline s = false ->
       dateFormat (s +:+ "T00:00:00") = s)
  /\ (forall s, occurs Py.newline s = false ->
       (forall r, s <> r +:+ "T00:00:00") -> dateFormat s = s)
  /\ dateFormat "2023-01-01T00:00:00" = "2023-01-01"
  /\ dateFormat "2023-01-01T08:30:00" = "2023-01-01T08:30:00".
Proof.
  split. { intros dt Hi Hd. unfold period. by rewrite Hi, Hd. }
  split. { intros ds de Hi Hs Hds Hde. unfold period. by rewrite Hi, Hs, Hds, Hde. }
  split. { intros Hi Hs. unfold period. by rewrite Hi, Hs. }
  split.
  { intros idGen fct self fct' self' Hctx E.
    destruct (factBody_record _ _ _ _ _ E) as (ctx' & fd & Hctx' & Hfd & Hp & _).
    assert (ctx' = ctx) as -> by congruence.
    exists fd. done. }
  split; [apply dateFormat_strip|]. split; [apply dateFormat_keep|].
  split; reflexivity.
Qed.

Lemma assemble_Ok dumps self dts fs' self' json :
  assemble dumps self dts = Ok (fs', self', json) ->
  exists n self1,
    factLoop (Model.facts dts) 0
      {| Builder.nsmap := Builder.nsmap self;
         roleMap := snd (getPrefix (snd (getPrefix (roleMap self) standardLabel (Some "std")))
                                   documentationLabel (Some "doc"));
         taxonomyData := taxonomyData self |} = Ok (fs', n, self1)
    /\ self' = {| Builder.nsmap := Builder.nsmap self1; roleMap := roleMap self1;
                  taxonomyData :=
                    {| concepts := concepts (taxonomyData self1);
                       Builder.facts := Builder.facts (taxonomyData self1);
                       prefixes := Some (prefixmap (Builder.nsmap self1));
                       roles := Some (prefixmap (roleMap self1)) |} |}
    /\ json = escapeJSONForScriptTag (dumps (taxonomyData self')).
Proof.
  unfold assemble. intros H.
  apply bind_Ok in H as ([[fs n] self1] & Hl & H).
  injection H as <- <- <-. exists n, self1. done.
Qed.

(** C4.  In a build that completes, the fact at zero-based position [i] that
    has no identifier leaves the loop with the identifier [ixv-i]; a fact that
    has one keeps it, and the counter still advances by one for it.  Three
    facts without identifiers receive [ixv-0], [ixv-1], [ixv-2]. *)
Theorem C4_generated_ids_follow_position (dumps : TaxonomyData -> string) (self : Builder.t) (dts : ModelXbrl)
    (fs' : list Fact) (self' : Builder.t) (json : string) :
  assemble dumps self dts = Ok (fs', self', json) ->
  length fs' = length (Model.facts dts)
  /\ (forall i fct, Model.facts dts !! i = Some fct ->
        exists fct',
          fs' !! i = Some fct'
          /\ (f_id fct = None -> f_id fct' = Some ("ixv-" +:+ Py.fmt_d i))
          /\ (forall x, f_id fct = Some x -> fct' = fct)
          /\ is_Some (Builder.facts (taxonomyData self')
                        !! default "" (f_id fct')))
  /\ (forall f0 f1 f2, Model.facts dts = [f0; f1; f2] ->
        f_id f0 = None -> f_id f1 = None -> f_id f2 = None ->
        f_id <$> fs' = [Some "ixv-0"; Some "ixv-1"; Some "ixv-2"])
  /\ (forall idGen s fs n s',
        factLoop (Model.facts dts) idGen s = Ok (fs, n, s') ->
        n = idGen + length (Model.facts dts)).
Proof.
  intros H. apply assemble_Ok in H as (n & self1 & Hl & -> & _).
  apply factLoop_spec in Hl as (_ & -> & Hkeys & _).
  cbn [taxonomyData Builder.facts].
  assert (forall i fct, Model.facts dts !! i = Some fct ->
    imap (fun i fct => ensure_id (0 + i) fct) (Model.facts dts) !! i
    = Some (ensure_id i fct)) as Hnth.
  { intros i fct Hi. rewrite list_lookup_imap, Hi. done. }
  split; [by rewrite length_imap|]. split.
  { intros i fct Hi. exists (ensure_id i fct).
    split; [by apply Hnth|]. split; [apply ensure_id_none|].
    split; [intros x Hx; by eapply ensure_id_some|].
    by apply (Hkeys i fct). }
  split.
  { intros f0 f1 f2 -> H0 H1 H2. cbn.
    by rewrite !ensure_id_none. }
  intros idGen s fs n' s' Hl. by apply factLoop_spec in Hl as (-> & _).
Qed.

(** C4 on a model of three facts without identifiers. *)
Lemma C4_witness :
  exists fs self json,
    assemble no_dumps Builder.new ex_dts = Ok (fs, self, json)
    /\ f_id <$> fs = [Some "ixv-0"; Some "ixv-1"; Some "ixv-2"].
Proof.
  destruct (assemble no_dumps Builder.new ex_dts) as [[[fs self] json]|e] eqn:E;
    [|vm_compute in E; discriminate].
  exists fs, self, json. split; [reflexivity|].
  destruct (C4_generated_ids_follow_position no_dumps Builder.new ex_dts fs self json E) as (_ & _ & H3 & _).
  by apply (H3 _ _ _ eq_refl).
Defined.

Lemma seeded_prefixmap :
  prefixmap seeded = {[ "std" := standardLabel; "doc" := documentationLabel ]}.
Proof. by vm_compute. Qed.

Lemma seeded_std : prefixmap seeded !! "std" = Some standardLabel.
Proof. by vm_compute. Qed.

Lemma seeded_doc : prefixmap seeded !! "doc" = Some documentationLabel.
Proof. by vm_compute. Qed.

(** C8.  The [taxonomyData] that a completed build serializes has the four
    keys [concepts], [facts], [prefixes], [roles].  With zero facts the build
    completes, [concepts], [facts] and [prefixes] are empty and [roles] is
    exactly [std] and [doc], bound to the standard and documentation label
    roles; these two are bound before the fact loop starts and are still bound
    after it.  Every model whose facts are well formed completes. *)
Theorem C8_output_has_four_keys (dumps : TaxonomyData -> string) (dts : ModelXbrl) :
  (Model.facts dts = [] ->
     exists self',
       assemble dumps Builder.new dts
         = Ok ([], self', escapeJSONForScriptTag (dumps (taxonomyData self')))
       /\ taxonomyData self'
          = {| concepts := ∅; Builder.facts := ∅; prefixes := Some ∅;
               roles := Some {[ "std" := standardLabel;
                                "doc" := documentationLabel ]} |})
  /\ (forall fs self' json,
        assemble dumps Builder.new dts = Ok (fs, self', json) ->
        top_level_keys (taxonomyData self')
          = ["concepts"; "facts"; "prefixes"; "roles"]
        /\ json = escapeJSONForScriptTag (dumps (taxonomyData self'))
        /\ prefixes (taxonomyData self') = Some (prefixmap (Builder.nsmap self'))
        /\ exists r, roles (taxonomyData self') = Some r
             /\ r !! "std" = Some standardLabel
             /\ r !! "doc" = Some documentationLabel)
  /\ (forallb wf_fact (Model.facts dts) = true ->
        exists fs self' json, assemble dumps Builder.new dts = Ok (fs, self', json))
  /\ (prefixmap seeded = {[ "std" := standardLabel; "doc" := documentationLabel ]}
      /\ forall fs self' json,
           assemble dumps Builder.new dts = Ok (fs, self', json) ->
           exists n self1,
             factLoop (Model.facts dts) 0
               {| Builder.nsmap := NamespaceMap.new; roleMap := seeded;
                  taxonomyData := taxonomyData Builder.new |} = Ok (fs, n, self1)).
Proof.
  split.
  { intros Hnil. unfold assemble. rewrite Hnil. cbn [factLoop mbind result_bind].
    exists {| Builder.nsmap := NamespaceMap.new; roleMap := seeded;
              taxonomyData :=
                {| concepts := ∅; Builder.facts := ∅;
                   prefixes := Some (prefixmap NamespaceMap.new);
                   roles := Some (prefixmap seeded) |} |}.
    split; [reflexivity|]. cbn [taxonomyData].
    by rewrite seeded_prefixmap. }
  split.
  { intros fs self' json H.
    apply assemble_Ok in H as (n & self1 & Hl & -> & ->).
    apply factLoop_spec in Hl as (_ & _ & _ & _ & _ & _ & Hle).
    cbn [taxonomyData roleMap Builder.nsmap prefixes roles top_level_keys] in *.
    repeat split. eexists. split; [reflexivity|].
    split; apply Hle; [apply seeded_std|apply seeded_doc]. }
  split.
  { intros Hwf. unfold assemble.
    match goal with |- context [factLoop ?fs ?n ?s] =>
      destruct (factLoop_total fs n s Hwf) as [[[fs' n'] s'] ->] end.
    cbn [mbind result_bind]. eauto. }
  split; [apply seeded_prefixmap|].
  intros fs self' json H.
  apply assemble_Ok in H as (n & self1 & Hl & _). eauto.
Qed.

Lemma release_head p hs : IO.release p (p :: hs) = hs.
Proof. cbn. by rewrite String.eqb_refl. Qed.

Lemma C9_aux (dumps : TaxonomyData -> string) (tostring : Node -> string)
    (self : Builder.t) (dts : ModelXbrl) (outFile : string)
    (fl : IO.fault) (w : IO.World) :
  let w' := fst (saveViewer dumps tostring self dts outFile fl w) in
  let r := snd (saveViewer dumps tostring self dts outFile fl w) in
  IO.handles w' = IO.handles w
  /\ (forall p, p <> outFile -> IO.files w' !! p = IO.files w !! p)
  /\ (forall e, assemble dumps self dts = Raise e -> w' = w /\ r = Raise e)
  /\ (forall fs self' json,
        assemble dumps self dts = Ok (fs, self', json) ->
        let doc := embed (mark_ids (Model.facts dts) fs (root dts)) json in
        let data := tostring doc in
        match fl with
        | IO.NoFault =>
            r = Ok (self', {| Model.facts := fs; root := doc |})
            /\ IO.files w' !! outFile = Some data
            /\ IO.events w'
               = (IO.events w ++ [IO.EvOpen outFile; IO.EvWrite outFile data;
                                  IO.EvClose outFile])%list
        | IO.OpenFails => r = Raise OSError /\ w' = w
        | IO.WriteFails k =>
            r = Raise OSError
            /\ IO.files w' !! outFile = Some (IO.take_str k data)
            /\ IO.events w'
               = (IO.events w ++ [IO.EvOpen outFile;
                                  IO.EvWrite outFile (IO.take_str k data);
                                  IO.EvClose outFile])%list
        end).
Proof.
  intros w' r. subst w' r. unfold saveViewer.
  destruct (assemble dumps self dts) as [[[fs self'] json]|e] eqn:E.
  - unfold IO.with_open_write, IO.open_wb, IO.write, IO.close.
    destruct fl as [| |k]; cbn [fst snd IO.handles IO.files IO.events mbind result_bind].
    + rewrite release_head. split; [done|]. split.
      { intros p Hp. by rewrite !lookup_insert_ne. }
      split; [done|]. intros ? ? ? [= <- <- <-]. cbn.
      rewrite !lookup_insert_eq. cbn. rewrite <- !app_assoc. done.
    + split; [done|]. split; [done|]. split; [done|].
      by intros ? ? ? [= <- <- <-].
    + rewrite release_head. split; [done|]. split.
      { intros p Hp. by rewrite !lookup_insert_ne. }
      split; [done|]. intros ? ? ? [= <- <- <-]. cbn.
      rewrite !lookup_insert_eq. cbn. rewrite <- !app_assoc. done.
  - cbn [fst snd]. split; [done|]. split; [done|].
    split; [by intros ? [= <-]|]. done.
Qed.

(** C9 (amended).  [saveViewer] opens the output file only once the
    document is assembled, writes once and closes on every path: no handle
    stays open, no other file is touched, and when assembling raises nothing
    is opened.  When the write fails the error propagates and the file, which
    was truncated on opening, holds the part that was written. *)
Theorem C9_file_handle_is_scoped (dumps : TaxonomyData -> string) (tostring : Node -> string)
    (self : Builder.t) (dts : ModelXbrl) (outFile : string)
    (fl : IO.fault) (w : IO.World) :
  let w' := fst (saveViewer dumps tostring self dts outFile fl w) in
  let r := snd (saveViewer dumps tostring self dts outFile fl w) in
  IO.handles w' = IO.handles w
  /\ (forall p, p <> outFile -> IO.files w' !! p = IO.files w !! p)
  /\ (forall e, assemble dumps self dts = Raise e -> w' = w /\ r = Raise e)
  /\ (forall fs self' json,
        assemble dumps self dts = Ok (fs, self', json) ->
        let doc := embed (mark_ids (Model.facts dts) fs (root dts)) json in
        let data := tostring doc in
        match fl with
        | IO.NoFault =>
            r = Ok (self', {| Model.facts := fs; root := doc |})
            /\ IO.files w' !! outFile = Some data
            /\ IO.events w'
               = (IO.events w ++ [IO.EvOpen outFile; IO.EvWrite outFile data;
                                  IO.EvClose outFile])%list
        | IO.OpenFails => r = Raise OSError /\ w' = w
        | IO.WriteFails k =>
            r = Raise OSError
            /\ IO.files w' !! outFile = Some (IO.take_str k data)
            /\ IO.events w'
               = (IO.events w ++ [IO.EvOpen outFile;
                                  IO.EvWrite outFile (IO.take_str k data);
                                  IO.EvClose outFile])%list
        end).
Proof. apply C9_aux. Qed.














(** A write that fails after three characters leaves those three
    characters in the file. *)
Lemma C9_counterexample : ~ written_whole_or_not_at_all.
Proof.
  intros H.
  destruct (assemble no_dumps Builder.new ex_dts) as [[[fs self'] json]|e] eqn:E;
    [|vm_compute in E; discriminate].
  specialize (H no_dumps const_doc Builder.new ex_dts "viewer.html"
                (IO.WriteFails 3) empty_world fs self' json E).
  destruct (C9_aux no_dumps const_doc Builder.new ex_dts "viewer.html"
              (IO.WriteFails 3) empty_world) as (_ & _ & _ & Hw).
  destruct (Hw _ _ _ E) as (_ & Hf & _).
  cbn zeta in H. rewrite Hf in H. unfold const_doc in H.
  destruct H as [H|H]; [|discriminate H].
  unfold empty_world in H. cbn [IO.files] in H. rewrite lookup_empty in H.
  discriminate H.
Qed.

Lemma subst_all_app a b : subst_all (a +:+ b) = subst_all a +:+ subst_all b.
Proof.
  induction a as [|x a IH]; [done|]. rewrite append_cons. cbn [subst_all].
  by rewrite IH, append_assoc.
Qed.

Lemma subst_char_clean c x : xml_special c = true -> occurs c (subst_char x) = false.
Proof.
  intros Hc. destruct (special_cases c Hc) as [->|[->| ->]];
    unfold subst_char;
    destruct (Ascii.eqb_spec x "<") as [->|N1]; try reflexivity;
    destruct (Ascii.eqb_spec x ">") as [->|N2]; try reflexivity;
    destruct (Ascii.eqb_spec x "&") as [->|N3]; try reflexivity;
    cbn [occurs]; rewrite orb_false_r; by apply Ascii.eqb_neq.
Qed.

Lemma subst_all_clean c s : xml_special c = true -> occurs c (subst_all s) = false.
Proof.
  intros Hc. induction s as [|x s IH]; [done|].
  cbn [subst_all]. by rewrite occurs_app, subst_char_clean, IH.
Qed.

(** C1.  For every string [s], [escapeJSONForScriptTag s] is the
    character-for-character substitution of [s]: each [<], [>] and [&] becomes
    its six-character JSON escape and every other character is unchanged.  The
    six orders of the three passes agree, the result contains none of the three
    characters, and a JSON text reads the same after escaping: the same
    characters outside strings and the same string values. *)
Theorem C1_escape_is_charwise_substitution (s : string) :
  escapeJSONForScriptTag s = subst_all s
  /\ (escape_lt_amp_gt s = escapeJSONForScriptTag s
      /\ escape_gt_lt_amp s = escapeJSONForScriptTag s
      /\ escape_gt_amp_lt s = escapeJSONForScriptTag s
      /\ escape_amp_lt_gt s = escapeJSONForScriptTag s
      /\ escape_amp_gt_lt s = escapeJSONForScriptTag s)
  /\ (occurs "<" (escapeJSONForScriptTag s) = false
      /\ occurs ">" (escapeJSONForScriptTag s) = false
      /\ occurs "&" (escapeJSONForScriptTag s) = false)
  /\ (forall toks, Json.tokens s = Some toks ->
        Json.tokens (escapeJSONForScriptTag s) = Some toks).
Proof.
  split; [apply o1|]. rewrite o1, o2, o3, o4, o5, o6.
  split; [done|]. split.
  { by rewrite !subst_all_clean. }
  intros toks H. by apply (scan_subst_aux (S (String.length s))); [lia|].
Qed.

(** C1 on a sample text. *)
Lemma C1_witness :
  Json.tokens ex_json_text
    = Some [Json.TChar "{"; Json.TStr [97; 60; 98]%N; Json.TChar ":";
            Json.TChar " ";
            Json.TStr [82; 38; 68; 32; 62; 32; 48]%N; Json.TChar "}"]
  /\ Json.tokens (escapeJSONForScriptTag ex_json_text)
    = Some [Json.TChar "{"; Json.TStr [97; 60; 98]%N; Json.TChar ":";
            Json.TChar " ";
            Json.TStr [82; 38; 68; 32; 62; 32; 48]%N; Json.TChar "}"].
Proof.
  split; [reflexivity|].
  destruct (C1_escape_is_charwise_substitution ex_json_text) as (_ & _ & _ & H).
  apply H. reflexivity.
Defined.

(** C2 on the two calls of the collision example. *)
Lemma C2_witness :
  NamespaceMap.nsmap (run NamespaceMap.new ex_calls) !! "nsB" = Some "x0"
  /\ fst (getPrefix (run (run NamespaceMap.new ex_calls) [("nsC", Some "x")])
                    "nsB" (Some "other")) = "x0".
Proof.
  destruct (C2_prefix_maps_inverse_and_stable ex_calls) as (_ & _ & _ & H & _).
  split; [reflexivity|]. apply H. reflexivity.
Defined.

(** C3 on an instant context. *)
Lemma C3_witness :
  isInstantPeriod ex_instant = true
  /\ period ex_instant
     = Ok (Some (dateFormat "2023-01-01T00:00:00"), None).
Proof.
  destruct (C3_period_keys_follow_context ex_instant) as (H & _).
  split; [reflexivity|].
  apply (H {| isoformat := "2023-01-01T00:00:00" |}); reflexivity.
Defined.

(** C7 on a builder that already holds the concept. *)
Lemma C7_witness :
  is_Some (concepts (taxonomyData ex_self) !! "ex:Assets")
  /\ exists self1,
       addConcept ex_self (Some (ex_concept "Assets" "Assets")) = Ok self1
       /\ taxonomyData self1 = taxonomyData ex_self.
Proof.
  assert (is_Some (concepts (taxonomyData ex_self) !! "ex:Assets")) as Hin
    by (vm_compute; eauto).
  split; [exact Hin|].
  pose proof (C7_addConcept_idempotent ex_self (ex_concept "Assets" "Assets")) as H.
  cbn zeta in H. destruct H as (Hiff & H).
  destruct (proj2 Hiff (or_introl Hin)) as [self1 H1].
  exists self1. split; [exact H1|].
  destruct (H self1 H1) as (_ & _ & Hsame & _). exact (proj1 (Hsame Hin)).
Defined.

(** C8 on a model with no facts. *)
Lemma C8_witness :
  Model.facts ex_empty_dts = []
  /\ exists self',
       assemble no_dumps Builder.new ex_empty_dts
         = Ok ([], self', escapeJSONForScriptTag (no_dumps (taxonomyData self')))
       /\ taxonomyData self'
          = {| concepts := ∅; Builder.facts := ∅; prefixes := Some ∅;
               roles := Some {[ "std" := standardLabel;
                                "doc" := documentationLabel ]} |}.
Proof.
  split; [reflexivity|].
  destruct (C8_output_has_four_keys no_dumps ex_empty_dts) as (H & _). apply H. reflexivity.
Defined.

Lemma C8_aux_empty :
  exists self',
    assemble no_dumps Builder.new ex_empty_dts
    = Ok ([], self', escapeJSONForScriptTag (no_dumps (taxonomyData self'))).
Proof.
  unfold assemble. cbn [Model.facts ex_empty_dts factLoop mbind result_bind].
  eexists {| Builder.nsmap := _; roleMap := _; taxonomyData := _ |}. reflexivity.
Qed.

(** C9 on a run without fault. *)
Lemma C9_witness :
  exists fs self' json,
    assemble no_dumps Builder.new ex_empty_dts = Ok (fs, self', json)
    /\ IO.files (fst (saveViewer no_dumps const_doc Builder.new ex_empty_dts
                        "viewer.html" IO.NoFault empty_world)) !! "viewer.html"
       = Some "<html/>".
Proof.
  destruct (C8_aux_empty) as (self' & E).
  exists [], self', (escapeJSONForScriptTag (no_dumps (taxonomyData self'))).
  split; [exact E|].
  destruct (C9_file_handle_is_scoped no_dumps const_doc Builder.new ex_empty_dts "viewer.html"
              IO.NoFault empty_world) as (_ & _ & _ & H).
  destruct (H _ _ _ E) as (_ & Hf & _). exact Hf.
Defined.


(* ===================================================================== *)
(** * Further properties: strings and the prefix allocator *)
(* ===================================================================== *)

Import NamespaceMap.


Lemma subst_all_id s :
  occurs "<" s = false -> occurs ">" s = false -> occurs "&" s = false ->
  subst_all s = s.
Proof.
  induction s as [|x s IH]; [done|]. cbn [occurs]. 
  intros [H1 H1']%orb_false_iff [H2 H2']%orb_false_iff [H3 H3']%orb_false_iff.
  rewrite subst_all_plain; [by rewrite IH|].
  unfold xml_special. by rewrite H1, H2, H3.
Qed.

(** X1.  [escapeJSONForScriptTag] is idempotent and distributes over
    concatenation; it returns its argument unchanged exactly when the
    argument holds none of the three characters, and its result is never
    shorter than its argument. *)
Theorem X1_escape_idempotent_additive (s t : string) :
  escapeJSONForScriptTag (escapeJSONForScriptTag s) = escapeJSONForScriptTag s
  /\ escapeJSONForScriptTag (s +:+ t)
     = escapeJSONForScriptTag s +:+ escapeJSONForScriptTag t
  /\ (escapeJSONForScriptTag s = s <->
      occurs "<" s = false /\ occurs ">" s = false /\ occurs "&" s = false)
  /\ String.length s <= String.length (escapeJSONForScriptTag s).
Proof.
  rewrite !o1. split.
  { apply subst_all_id; by apply subst_all_clean. }
  split; [apply subst_all_app|]. split.
  - split.
    + intros Heq. rewrite <- Heq. by rewrite !subst_all_clean.
    + intros (H1 & H2 & H3). by apply subst_all_id.
  - induction s as [|x s IH]; [done|]. cbn [subst_all]. rewrite length_app.
    assert (1 <= String.length (subst_char x)).
    { unfold subst_char. repeat case_match; cbn; lia. }
    cbn [String.length]. lia.
Qed.

Lemma eqb_length_ne (a b : string) :
  String.length a <> String.length b -> String.eqb a b = false.
Proof. intros H. apply String.eqb_neq. intros ->. done. Qed.

Lemma sub_at_end_suffix pat s :
  pat <> "" -> occurs Py.newline pat = false ->
  Py.sub_at_end pat (s +:+ pat) = s.
Proof.
  intros Hne Hnl. induction s as [|x s IH].
  - rewrite append_nil_l. destruct pat as [|c r]; [done|].
    cbn [Py.sub_at_end]. by rewrite String.eqb_refl.
  - rewrite append_cons. cbn [Py.sub_at_end]. rewrite <- append_cons.
    rewrite eqb_length_ne by (rewrite length_app; cbn; lia).
    destruct (String.eqb_spec (String x s +:+ pat) (pat +:+ String Py.newline "")) as [E|_].
    + exfalso. 
      assert (occurs Py.newline (String x s +:+ pat) = true) as Ho.
      { rewrite E, occurs_app. cbn [occurs]. rewrite Ascii.eqb_refl. by rewrite orb_true_r. }
      rewrite occurs_app, Hnl, orb_false_r in Ho.
      assert (String.length s = 0) as Hl.
      { apply (f_equal String.length) in E. rewrite !length_app in E. cbn in E. lia. }
      destruct s; [|done]. cbn in Ho. rewrite orb_false_r in Ho.
      apply Ascii.eqb_eq in Ho. subst x.
      destruct pat as [|c r]; [done|]. rewrite !append_cons, append_nil_l in E.
      injection E as E1 E2. subst c. cbn [occurs] in Hnl. by rewrite Ascii.eqb_refl in Hnl.
    + by rewrite IH.
Qed.

Lemma sub_at_end_suffix_nl pat s :
  pat <> "" ->
  Py.sub_at_end pat (s +:+ pat +:+ String Py.newline "") = s +:+ String Py.newline "".
Proof.
  intros Hne. induction s as [|x s IH].
  - rewrite !append_nil_l. destruct pat as [|c r]; [done|].
    rewrite append_cons. cbn [Py.sub_at_end]. rewrite <- !append_cons.
    rewrite eqb_length_ne by (rewrite length_app; cbn; lia).
    by rewrite String.eqb_refl.
  - rewrite !append_cons. cbn [Py.sub_at_end]. rewrite <- !append_cons.
    rewrite eqb_length_ne by (rewrite !length_app; cbn; lia).
    rewrite eqb_length_ne by (rewrite !length_app; cbn; lia).
    by rewrite IH.
Qed.

Lemma sub_at_end_other pat s :
  (forall r, s <> r +:+ pat) ->
  (forall r, s <> r +:+ pat +:+ String Py.newline "") ->
  Py.sub_at_end pat s = s.
Proof.
  induction s as [|x s IH]; [done|]. intros H1 H2. cbn [Py.sub_at_end].
  destruct (String.eqb_spec (String x s) pat) as [E|_].
  { exfalso. apply (H1 ""). by rewrite append_nil_l. }
  destruct (String.eqb_spec (String x s) (pat +:+ String Py.newline "")) as [E|_].
  { exfalso. apply (H2 ""). by rewrite append_nil_l. }
  rewrite IH; [done| |].
  - intros r ->. apply (H1 (String x r)). by rewrite append_cons.
  - intros r ->. apply (H2 (String x r)). by rewrite append_cons.
Qed.

(** X2.  [dateFormat], completely: a text that ends in [T00:00:00] loses
    these nine characters; a text that ends in [T00:00:00] and a newline loses
    them and keeps the newline; any other text is returned as it is.  So the
    length stays or drops by nine, and a second call strips a second time
    component. *)
Theorem X2_dateFormat_cases :
  (forall s, dateFormat (s +:+ "T00:00:00") = s)
  /\ (forall s, dateFormat (s +:+ "T00:00:00" +:+ String Py.newline "")
                = s +:+ String Py.newline "")
  /\ (forall d, (forall s, d <> s +:+ "T00:00:00") ->
                (forall s, d <> s +:+ "T00:00:00" +:+ String Py.newline "") ->
                dateFormat d = d)
  /\ (forall d, String.length (dateFormat d) = String.length d
                \/ String.length (dateFormat d) + 9 = String.length d)
  /\ (forall s, dateFormat (dateFormat (s +:+ "T00:00:00T00:00:00")) = s).
Proof.
  assert (forall s, dateFormat (s +:+ "T00:00:00") = s) as H1.
  { intros s. apply sub_at_end_suffix; done. }
  assert (forall s, dateFormat (s +:+ "T00:00:00" +:+ String Py.newline "")
                = s +:+ String Py.newline "") as H2.
  { intros s. apply sub_at_end_suffix_nl; done. }
  assert (forall d, (forall s, d <> s +:+ "T00:00:00") ->
                (forall s, d <> s +:+ "T00:00:00" +:+ String Py.newline "") ->
                dateFormat d = d) as H3.
  { intros d. apply sub_at_end_other. }
  repeat split; try done.
  - intros dd. unfold dateFormat. induction dd as [|x s IH]; [by left|].
    cbn [Py.sub_at_end].
    destruct (String.eqb_spec (String x s) "T00:00:00") as [E|_].
    { right. by rewrite E. }
    destruct (String.eqb_spec (String x s) ("T00:00:00" +:+ String Py.newline "")) as [E|_].
    { right. by rewrite E. }
    cbn [String.length]. lia.
  - intros s. replace (s +:+ "T00:00:00T00:00:00") with ((s +:+ "T00:00:00") +:+ "T00:00:00").
    + by rewrite !H1.
    + by rewrite append_assoc.
Qed.

Lemma while_taken_range pm p k n :
  while_taken pm p k n ->
  k <= n /\ contains pm (numbered p n) = false
  /\ forall j, k <= j < n -> contains pm (numbered p j) = true.
Proof.
  induction 1 as [n H|n n' H _ (IH1 & IH2 & IH3)].
  - repeat split; [lia|done|]. intros j Hj. lia.
  - repeat split; [lia|done|]. intros j Hj.
    destruct (decide (j = n)) as [->|]; [done|]. apply IH3. lia.
Qed.

(** X3.  The [while] loop of [getPrefix] stops after at most
    [len(self.prefixmap)] increments; it can stop at one value of [n] only,
    and the candidate it stops at is not a bound prefix. *)
Theorem X3_prefix_search_bound (pm : gmap string string) (p : string) :
  first_free pm p <= size pm
  /\ (forall n, while_taken pm p 0 n -> n = first_free pm p)
  /\ (forall n, while_taken pm p 0 n -> pm !! numbered p n = None)
  /\ (pm = ∅ -> first_free pm p = 0).
Proof.
  destruct (first_free_spec pm p) as [Hf Hb].
  assert (first_free pm p <= size pm) as Hle by (by apply (full_range_bounded pm p)).
  assert (forall n, while_taken pm p 0 n -> n = first_free pm p) as Hu.
  { intros n (_ & Hn & Hlt)%while_taken_range.
    destruct (Nat.lt_trichotomy n (first_free pm p)) as [Hlt'|[->|Hgt]]; [|done|].
    - rewrite Hb in Hn by done. done.
    - rewrite Hlt in Hf by lia. done. }
  repeat split; [done|done| |].
  - intros n Hn. rewrite (Hu n Hn). by apply contains_false.
  - intros ->. rewrite map_size_empty in Hle. lia.
Qed.

Lemma getPrefix_dom m ns pp :
  inv m ->
  dom (nsmap (snd (getPrefix m ns pp))) = {[ ns ]} ∪ dom (nsmap m)
  /\ (size (prefixmap m) = size (nsmap m) ->
      size (prefixmap (snd (getPrefix m ns pp))) = size (nsmap (snd (getPrefix m ns pp))))
  /\ size (nsmap (snd (getPrefix m ns pp))) <= S (size (nsmap m)).
Proof.
  intros [Hbij Hne]. destruct (nsmap m !! ns) as [p|] eqn:E.
  - rewrite (getPrefix_bound m ns pp p E); [|intros ->; by apply (Hne ns)].
    cbn [snd]. repeat split; [|done|lia].
    apply elem_of_dom_2 in E. symmetry. apply subseteq_union_1_L.
    by apply singleton_subseteq_l.
  - rewrite (getPrefix_unbound m ns pp E). cbn [snd nsmap prefixmap].
    rewrite dom_insert_L. split; [done|].
    rewrite !map_size_insert_None; [|done|apply pick_fresh].
    split; lia.
Qed.

(** X4.  After any calls of [getPrefix] on a fresh instance the identifiers
    bound are exactly those passed; the two dictionaries have the same size,
    at most the number of calls, and equal to it when the identifiers are
    pairwise distinct. *)
Theorem X4_bound_identifiers (cs : list call) :
  let m := run new cs in
  dom (nsmap m) = list_to_set cs.*1
  /\ size (prefixmap m) = size (nsmap m)
  /\ size (nsmap m) <= length cs
  /\ (NoDup cs.*1 -> size (prefixmap m) = length cs).
Proof.
  cbn zeta.
  assert (forall cs m, inv m -> size (prefixmap m) = size (nsmap m) ->
    dom (nsmap (run m cs)) = list_to_set cs.*1 ∪ dom (nsmap m)
    /\ size (prefixmap (run m cs)) = size (nsmap (run m cs))
    /\ size (nsmap (run m cs)) <= length cs + size (nsmap m)) as H.
  { clear cs. induction cs as [|[ns pp] cs IH]; intros m Hinv Hsz.
    - cbn. split; [by rewrite (left_id_L ∅ (∪))|]. split; [done|lia].
    - cbn [run]. destruct (getPrefix_dom m ns pp Hinv) as (Hd & Hs & Hl).
      destruct (IH (snd (getPrefix m ns pp)) (getPrefix_inv m ns pp Hinv) (Hs Hsz))
        as (Hd' & Hs' & Hl').
      rewrite Hd', Hd. cbn [fmap list_fmap fst list_to_set length].
      split; [|split; [done|lia]].
      by rewrite (assoc_L (∪)), (comm_L (∪) (list_to_set cs.*1) {[ns]}). }
  destruct (H cs new inv_new eq_refl) as (Hd & Hs & Hl).
  change (nsmap new) with (∅ : gmap string string) in *.
  rewrite dom_empty_L, map_size_empty in *.
  repeat split.
  - by rewrite Hd, (right_id_L ∅ (∪)).
  - done.
  - lia.
  - intros Hnd. rewrite Hs, <- size_dom, Hd, (right_id_L ∅ (∪)).
    rewrite size_list_to_set by done. by rewrite length_fmap.
Qed.

Lemma colon_split p1 : forall p2 l1 l2,
  occurs ":" p1 = false -> occurs ":" p2 = false ->
  p1 +:+ ":" +:+ l1 = p2 +:+ ":" +:+ l2 -> p1 = p2 /\ l1 = l2.
Proof.
  induction p1 as [|x p1 IH]; intros [|y p2] l1 l2 H1 H2;
    rewrite ?append_nil_l, ?append_cons, ?append_nil_l; intros E.
  - by injection E as ->.
  - injection E as <- _. cbn [occurs] in H2. by rewrite Ascii.eqb_refl in H2.
  - injection E as -> _. cbn [occurs] in H1. by rewrite Ascii.eqb_refl in H1.
  - injection E as -> E. cbn [occurs] in H1, H2.
    apply orb_false_iff in H1 as [_ H1]. apply orb_false_iff in H2 as [_ H2].
    destruct (IH p2 l1 l2 H1 H2 E) as [-> ->]. done.
Qed.

(** X5.  [qname] on an instance whose dictionaries are inverse to each other:
    a name with the same namespace and local name is written the same at any
    later time, whatever prefix it carries itself; and when the two prefixes
    hold no colon, names written the same have the same namespace and the
    same local name. *)
Theorem X5_qname_unambiguous (m : NamespaceMap.t) (q1 q2 : QName) (cs : list call) :
  inv m ->
  let r1 := NamespaceMap.qname m q1 in
  let r2 := NamespaceMap.qname (run (snd r1) cs) q2 in
  (namespaceURI q1 = namespaceURI q2 -> localName q1 = localName q2 ->
     fst r2 = fst r1)
  /\ (occurs ":" (fst (getPrefix m (namespaceURI q1) (prefix q1))) = false ->
      occurs ":" (fst (getPrefix (run (snd r1) cs) (namespaceURI q2) (prefix q2))) = false ->
      fst r2 = fst r1 ->
      namespaceURI q1 = namespaceURI q2 /\ localName q1 = localName q2).
Proof.
  intros Hinv. cbn zeta. rewrite !qname_fst. cbn [fst snd].
  set (m1 := snd (getPrefix m (namespaceURI q1) (prefix q1))).
  set (p1 := fst (getPrefix m (namespaceURI q1) (prefix q1))).
  assert (inv m1) as Hinv1 by (by apply getPrefix_inv).
  destruct (getPrefix_binds m (namespaceURI q1) (prefix q1)) as [Hb1 Hne1].
  fold m1 p1 in Hb1, Hne1.
  pose proof (run_keeps cs m1 _ _ Hinv1 Hb1) as Hk.
  pose proof (run_inv cs m1 Hinv1) as Hinv2.
  set (m2 := run m1 cs) in *.
  split.
  - intros <- <-. by rewrite (getPrefix_bound m2 _ _ p1 Hk Hne1).
  - intros Hc1 Hc2 Heq. 
    apply colon_split in Heq as [Hp Hl]; [|done..]. split; [|done].
    destruct (getPrefix_binds m2 (namespaceURI q2) (prefix q2)) as [Hb2 _].
    rewrite Hp in Hb2.
    pose proof (getPrefix_keeps m2 (namespaceURI q2) (prefix q2) _ _ Hinv2 Hk) as Hk'.
    pose proof (getPrefix_inv m2 (namespaceURI q2) (prefix q2) Hinv2) as [Hbij _].
    apply Hbij in Hb2, Hk'. congruence.
Qed.

(** X5 on a fresh instance: the same name with another prefix, after another call. *)
Lemma X5_witness :
  inv NamespaceMap.new
  /\ fst (NamespaceMap.qname
            (run (snd (NamespaceMap.qname NamespaceMap.new (ex_qname "Assets")))
                 [("http://example.com/other", Some "ex")])
            {| namespaceURI := "http://example.com/taxonomy"; prefix := Some "zz";
               localName := "Assets" |})
     = fst (NamespaceMap.qname NamespaceMap.new (ex_qname "Assets")).
Proof.
  split; [apply inv_new|].
  apply (X5_qname_unambiguous NamespaceMap.new (ex_qname "Assets")
           {| namespaceURI := "http://example.com/taxonomy"; prefix := Some "zz";
              localName := "Assets" |}
           [("http://example.com/other", Some "ex")] inv_new); reflexivity.
Defined.

Lemma pretty_N_char_digit x : Ascii.eqb (pretty_N_char x) ":" = false.
Proof. unfold pretty_N_char. by repeat case_match. Qed.

Lemma pretty_N_go_colon x : forall s,
  occurs ":" s = false -> occurs ":" (pretty_N_go x s) = false.
Proof.
  induction (N.lt_wf_0 x) as [x _ IH]. intros s Hs.
  destruct (decide (0 < x)%N) as [Hx|Hx].
  - rewrite pretty_N_go_step by done. apply IH.
    + by apply N.div_lt.
    + cbn [occurs]. by rewrite pretty_N_char_digit.
  - assert (x = 0%N) as -> by lia. by rewrite pretty_N_go_0.
Qed.

Lemma fmt_d_colon n : occurs ":" (Py.fmt_d n) = false.
Proof.
  unfold Py.fmt_d, pretty, pretty_nat, pretty, pretty_N.
  destruct (decide (N.of_nat n = 0%N)); [done|]. by apply pretty_N_go_colon.
Qed.

Lemma pick_colon pm pp :
  (forall x, pp = Some x -> occurs ":" x = false) -> occurs ":" (pick pm pp) = false.
Proof.
  intros H. unfold pick. destruct pp as [x|]; cbn [Py.truthy_opt default].
  - specialize (H x eq_refl).
    destruct (Py.truthy x && negb (contains pm (id x))); [done|].
    unfold numbered. rewrite occurs_app, fmt_d_colon.
    destruct (Py.truthy x); cbn [id]; by rewrite ?H.
  - cbn [andb]. unfold numbered. by rewrite occurs_app, fmt_d_colon.
Qed.

Lemma getPrefix_colon_free m ns pp :
  inv m -> colon_free m -> (forall x, pp = Some x -> occurs ":" x = false) ->
  occurs ":" (fst (getPrefix m ns pp)) = false
  /\ colon_free (snd (getPrefix m ns pp)).
Proof.
  intros [_ Hne] Hm Hpp. destruct (NamespaceMap.nsmap m !! ns) as [p|] eqn:E.
  - rewrite (getPrefix_bound m ns pp p E); [|intros ->; by apply (Hne ns)].
    split; [by eapply Hm|done].
  - rewrite (getPrefix_unbound m ns pp E). cbn [fst snd].
    split; [by apply pick_colon|].
    intros ns' p'. cbn [NamespaceMap.nsmap]. destruct (decide (ns' = ns)) as [->|Hn].
    + rewrite lookup_insert_eq. intros [= <-]. by apply pick_colon.
    + rewrite lookup_insert_ne by done. apply Hm.
Qed.

Lemma run_colon_free cs : forall m,
  inv m -> colon_free m -> forallb colon_free_call cs = true ->
  colon_free (run m cs)
  /\ (forall i p, returns m cs !! i = Some p -> occurs ":" p = false).
Proof.
  induction cs as [|[ns pp] cs IH]; intros m Hinv Hm Hcs; cbn [run returns].
  - split; [done|]. by intros i p Hi.
  - cbn [forallb] in Hcs. apply andb_true_iff in Hcs as [Hc Hcs].
    assert (forall x, pp = Some x -> occurs ":" x = false) as Hpp.
    { intros x ->. unfold colon_free_call in Hc. cbn [snd] in Hc.
      by apply negb_true_iff in Hc. }
    destruct (getPrefix_colon_free m ns pp Hinv Hm Hpp) as [H1 H2].
    destruct (IH _ (getPrefix_inv m ns pp Hinv) H2 Hcs) as [H3 H4].
    split; [done|]. intros [|i] p Hi; cbn in Hi; [|eauto].
    by injection Hi as <-.
Qed.

(** X6.  When no preferred prefix of the calls holds a colon, no prefix that
    a fresh instance returns or binds holds one (the loop only adds decimal
    digits); two names with bound namespaces that [qname] then writes the
    same have the same namespace and the same local name. *)
Theorem X6_prefixes_never_hold_a_colon (cs : list call) :
  forallb colon_free_call cs = true ->
  let m := run NamespaceMap.new cs in
  colon_free m
  /\ (forall i p, returns NamespaceMap.new cs !! i = Some p -> occurs ":" p = false)
  /\ (forall q1 q2,
        is_Some (NamespaceMap.nsmap m !! namespaceURI q1) ->
        is_Some (NamespaceMap.nsmap m !! namespaceURI q2) ->
        fst (NamespaceMap.qname m q1) = fst (NamespaceMap.qname m q2) ->
        namespaceURI q1 = namespaceURI q2 /\ localName q1 = localName q2).
Proof.
  intros Hcs. cbn zeta.
  destruct (run_colon_free cs NamespaceMap.new inv_new) as [H1 H2]; [|done|].
  { intros ns p Hp. cbn [NamespaceMap.new NamespaceMap.nsmap] in Hp.
    by rewrite lookup_empty in Hp. }
  split; [done|]. split; [done|].
  pose proof (run_inv cs NamespaceMap.new inv_new) as Hinv.
  intros q1 q2 [p1 Hp1] [p2 Hp2]. rewrite !qname_fst.
  destruct Hinv as [Hbij Hne].
  rewrite (getPrefix_bound _ _ _ p1 Hp1), (getPrefix_bound _ _ _ p2 Hp2);
    [|intros ->; by eapply Hne..].
  cbn [fst]. intros Heq.
  apply colon_split in Heq as [-> Hl]; [|by eapply H1..].
  split; [|done]. apply Hbij in Hp1, Hp2. congruence.
Qed.

(** X6 on the two calls of the collision example. *)
Lemma X6_witness :
  returns NamespaceMap.new ex_calls !! 1 = Some "x0" /\ occurs ":" "x0" = false.
Proof.
  destruct (X6_prefixes_never_hold_a_colon ex_calls) as (_ & H & _); [reflexivity|].
  split; [reflexivity|]. apply (H 1). reflexivity.
Defined.

(* ===================================================================== *)
(** * Further properties: the builder *)
(* ===================================================================== *)

Import Model Builder.

Lemma addLabel_lookup lbls rm l lbls1 rm1 :
  inv rm ->
  (forall rp, is_Some (lbls !! rp) -> is_Some (prefixmap rm !! rp)) ->
  addLabel (lbls, rm) l = Ok (lbls1, rm1) ->
  inv rm1
  /\ (forall r p, NamespaceMap.nsmap rm !! r = Some p -> NamespaceMap.nsmap rm1 !! r = Some p)
  /\ (forall rp, is_Some (lbls1 !! rp) -> is_Some (prefixmap rm1 !! rp))
  /\ is_Some (NamespaceMap.nsmap rm1 !! role l)
  /\ (forall r rp lang, NamespaceMap.nsmap rm1 !! r = Some rp ->
        lookup2 lbls1 rp lang
        = if String.eqb (role l) r && bool_decide (lower <$> xmlLang l = Some lang)
          then Some (text l) else lookup2 lbls rp lang).
Proof.
  intros Hinv Hkeys. unfold addLabel.
  pose proof (getPrefix_inv rm (role l) None Hinv) as Hinv1.
  destruct (getPrefix_binds rm (role l) None) as [Hb Hne].
  pose proof (fun r p => getPrefix_keeps rm (role l) None r p Hinv) as Hk.
  pose proof (fun q x => getPrefix_prefixmap_mono rm (role l) None q x) as Hm.
  destruct (getPrefix rm (role l) None) as [rp0 rm0]. cbn [fst snd] in *.
  destruct (xmlLang l) as [lg|]; [|done]. cbn [attr mbind result_bind].
  intros [= <- <-].
  split; [done|]. split; [done|]. split; [|split; [eauto|]].
  - intros rp. destruct (decide (rp = rp0)) as [->|Hn].
    + intros _. exists (role l). by apply Hinv1.
    + rewrite lookup_insert_ne by done. intros [x Hx]%Hkeys. eauto.
  - intros r rp lang Hr. unfold lookup2. cbn [fmap option_fmap option_map].
    destruct (String.eqb_spec (role l) r) as [<-|Hr'].
    + assert (rp = rp0) as -> by congruence.
      rewrite lookup_insert_eq. cbn [mbind option_bind andb].
      case_bool_decide as Hl.
      * injection Hl as <-. by rewrite lookup_insert_eq.
      * rewrite lookup_insert_ne by (intros <-; by apply Hl).
        destruct (lbls !! rp0); [done|]. cbn. apply lookup_empty.
    + cbn [andb]. rewrite lookup_insert_ne; [done|].
      intros <-. apply Hr'. destruct Hinv1 as [Hbij _].
      apply Hbij in Hb, Hr. congruence.
Qed.

Lemma labelLoop_lookup ls : forall lbls rm lbls' rm',
  inv rm ->
  (forall rp, is_Some (lbls !! rp) -> is_Some (prefixmap rm !! rp)) ->
  labelLoop ls (lbls, rm) = Ok (lbls', rm') ->
  inv rm'
  /\ (forall r p, NamespaceMap.nsmap rm !! r = Some p -> NamespaceMap.nsmap rm' !! r = Some p)
  /\ (forall rp, is_Some (lbls' !! rp) -> is_Some (prefixmap rm' !! rp))
  /\ (forall l, l ∈ ls -> is_Some (NamespaceMap.nsmap rm' !! role l))
  /\ (forall r rp lang, NamespaceMap.nsmap rm' !! r = Some rp ->
        lookup2 lbls' rp lang
        = match label_for ls r lang with
          | Some t => Some t
          | None => lookup2 lbls rp lang
          end).
Proof.
  induction ls as [|l ls IH]; intros lbls rm lbls' rm' Hinv Hkeys H;
    cbn [labelLoop label_for] in *.
  - injection H as <- <-.
    split; [done|]. split; [done|]. split; [done|]. split; [|done].
    intros l' Hl'. by apply elem_of_nil in Hl'.
  - apply bind_Ok in H as ([lbls1 rm1] & E & H).
    destruct (addLabel_lookup lbls rm l lbls1 rm1 Hinv Hkeys E)
      as (Hi1 & Hk1 & Hkeys1 & Hb1 & Hl1).
    destruct (IH lbls1 rm1 lbls' rm' Hi1 Hkeys1 H) as (Hi2 & Hk2 & Hkeys2 & Hb2 & Hl2).
    split; [done|]. split; [eauto|]. split; [done|]. split.
    + intros l' [->|Hin]%elem_of_cons; [|eauto].
      destruct Hb1 as [p Hp]. eauto.
    + intros r rp lang Hr. rewrite (Hl2 r rp lang Hr).
      destruct (label_for ls r lang); [done|].
      destruct (NamespaceMap.nsmap rm1 !! r) as [p|] eqn:E1.
      * assert (p = rp) as -> by (apply Hk2 in E1; congruence).
        rewrite (Hl1 r rp lang E1).
        by destruct (String.eqb (role l) r && bool_decide (lower <$> xmlLang l = Some lang)).
      * assert (prefixmap rm1 !! rp = None) as Hfresh.
        { destruct (prefixmap rm1 !! rp) as [x|] eqn:E2; [|done]. exfalso.
          destruct Hi1 as [Hbij1 _]. destruct Hi2 as [Hbij2 _].
          apply Hbij1 in E2. pose proof (Hk2 _ _ E2) as E3.
          apply Hbij2 in E3, Hr. congruence. }
        assert (lbls1 !! rp = None) as N1.
        { destruct (lbls1 !! rp) eqn:E2; [|done].
          destruct (Hkeys1 rp) as [x Hx]; [eauto|congruence]. }
        assert (lbls !! rp = None) as N0.
        { destruct (lbls !! rp) eqn:E2; [|done].
          destruct (Hkeys rp) as [x Hx]; [eauto|].
          apply (addLabel_roles_le _ _ _ E) in Hx. cbn [snd] in Hx. congruence. }
        unfold lookup2. rewrite N1, N0. cbn [mbind option_bind].
        destruct (String.eqb_spec (role l) r) as [<-|Hne]; [|done].
        destruct Hb1 as [q Hq]. congruence.
Qed.

(** X7.  [addConcept] on a concept that has no entry yet, when it returns:
    the new entry holds, for each role and each language key, the text of
    the last label resource with that role whose language in lower case (as
    [str.lower] returns it) is that key, so languages with the same lower
    case share a key; every role of a label resource is bound in the role
    map, and every key of the entry is a bound role prefix. *)
Theorem X7_labels_last_wins (self self' : Builder.t) (cpt : Concept) :
  inv (roleMap self) ->
  concepts (taxonomyData self)
    !! fst (NamespaceMap.qname (Builder.nsmap self) (c_qname cpt)) = None ->
  addConcept self (Some cpt) = Ok self' ->
  exists cd,
    concepts (taxonomyData self')
      !! fst (NamespaceMap.qname (Builder.nsmap self) (c_qname cpt)) = Some cd
    /\ (forall l, l ∈ c_labels cpt ->
          is_Some (NamespaceMap.nsmap (roleMap self') !! role l))
    /\ (forall r rp lang, NamespaceMap.nsmap (roleMap self') !! r = Some rp ->
          lookup2 (labels cd) rp lang = label_for (c_labels cpt) r lang)
    /\ (forall rp, is_Some (labels cd !! rp) ->
          is_Some (prefixmap (roleMap self') !! rp)).
Proof.
  intros Hinv Hnew. unfold addConcept. cbn [attr mbind result_bind].
  rewrite qname_fst in Hnew |- *. cbn [fst] in Hnew |- *.
  apply contains_false in Hnew. rewrite Hnew. cbn [negb].
  intros H. apply bind_Ok in H as ([lbls rm'] & F & [= <-]).
  destruct (labelLoop_lookup (c_labels cpt) ∅ (roleMap self) lbls rm' Hinv)
    as (_ & _ & Hkeys & Hb & Hl); [|exact F|].
  { intros rp [x Hx]. by rewrite lookup_empty in Hx. }
  cbn [taxonomyData concepts roleMap].
  exists {| labels := lbls |}. rewrite lookup_insert_eq. cbn [labels].
  split; [done|]. split; [done|]. split; [|done].
  intros r rp lang Hr. rewrite (Hl r rp lang Hr).
  destruct (label_for (c_labels cpt) r lang); [done|].
  unfold lookup2. by rewrite lookup_empty.
Qed.

(** X7 on a concept with two labels whose languages have the same lower-case
    form. *)
Lemma X7_witness :
  exists cd,
    concepts (taxonomyData ex_two_labels_built) !! "ex:Cash" = Some cd
    /\ lookup2 (labels cd) "ns0" "en-us" = Some "Cash at bank".
Proof.
  destruct (X7_labels_last_wins Builder.new ex_two_labels_built ex_two_labels inv_new)
    as (cd & Hcd & _ & Hl & _); [vm_compute; reflexivity..|].
  exists cd. split; [exact Hcd|].
  rewrite (Hl standardLabel "ns0" "en-us"); [reflexivity|vm_compute; reflexivity].
Defined.

Lemma getPrefix_grows m ns pp :
  inv m ->
  NamespaceMap.nsmap m ⊆ NamespaceMap.nsmap (snd (getPrefix m ns pp))
  /\ prefixmap m ⊆ prefixmap (snd (getPrefix m ns pp)).
Proof.
  intros [Hbij Hne]. destruct (NamespaceMap.nsmap m !! ns) as [p|] eqn:E.
  - rewrite (getPrefix_bound m ns pp p E); [done|]. intros ->. by apply (Hne ns).
  - rewrite (getPrefix_unbound m ns pp E). cbn [snd NamespaceMap.nsmap prefixmap].
    split; apply insert_subseteq; [done|apply pick_fresh].
Qed.

Lemma declared_mono pm pm' name : pm ⊆ pm' -> declared pm name -> declared pm' name.
Proof.
  intros Hsub (p & l & -> & [x Hx]). exists p, l. split; [done|].
  exists x. by eapply lookup_weaken.
Qed.

Lemma fd_declared_mono pm pm' fd : pm ⊆ pm' -> fd_declared pm fd -> fd_declared pm' fd.
Proof.
  intros Hsub (H1 & H2 & H3). split; [by eapply declared_mono|]. split.
  - intros k x Hk. destruct (H2 k x Hk). split; by eapply declared_mono.
  - intros x Hx. eapply declared_mono; eauto.
Qed.

Lemma qname_step m q :
  inv m ->
  let n := fst (NamespaceMap.qname m q) in
  let m' := snd (NamespaceMap.qname m q) in
  inv m'
  /\ NamespaceMap.nsmap m ⊆ NamespaceMap.nsmap m'
  /\ prefixmap m ⊆ prefixmap m'
  /\ declared (prefixmap m') n
  /\ (forall m'', inv m'' -> NamespaceMap.nsmap m' ⊆ NamespaceMap.nsmap m'' ->
        NamespaceMap.qname m'' q = (n, m'')).
Proof.
  intros Hinv. rewrite qname_fst. cbn [fst snd].
  pose proof (getPrefix_inv m (namespaceURI q) (prefix q) Hinv) as Hinv'.
  destruct (getPrefix_grows m (namespaceURI q) (prefix q) Hinv) as [G1 G2].
  destruct (getPrefix_binds m (namespaceURI q) (prefix q)) as [Hb Hne].
  split; [done|]. split; [done|]. split; [done|]. split.
  - eexists _, _. split; [reflexivity|]. exists (namespaceURI q).
    destruct Hinv' as [Hbij _]. by apply Hbij.
  - intros m'' Hi'' Hsub. rewrite qname_fst.
    eapply lookup_weaken in Hb; [|exact Hsub].
    by rewrite (getPrefix_bound m'' _ _ _ Hb Hne).
Qed.

Lemma grows_refl self : grows self self.
Proof. by repeat split. Qed.

Lemma grows_trans a b c : grows a b -> grows b c -> grows a c.
Proof.
  intros (A1 & A2 & A3 & A4) (B1 & B2 & B3 & B4).
  repeat split; etrans; eauto.
Qed.

Lemma roles_le_subseteq rm rm' : roles_le rm rm' -> prefixmap rm ⊆ prefixmap rm'.
Proof. intros H. apply map_subseteq_spec. exact H. Qed.

Lemma addConcept_consistent self cpt self' :
  consistent self -> addConcept self (Some cpt) = Ok self' ->
  consistent self' /\ grows self self'
  /\ is_Some (concepts (taxonomyData self')
                !! fst (NamespaceMap.qname (Builder.nsmap self) (c_qname cpt)))
  /\ Builder.facts (taxonomyData self') = Builder.facts (taxonomyData self).
Proof.
  intros (Hi1 & Hi2 & Hf & Hc). unfold addConcept. cbn [attr mbind result_bind].
  destruct (qname_step (Builder.nsmap self) (c_qname cpt) Hi1) as (Q1 & Q2 & Q3 & Q4 & _).
  destruct (NamespaceMap.qname (Builder.nsmap self) (c_qname cpt)) as [name ns'].
  cbn [fst snd] in *.
  destruct (contains (concepts (taxonomyData self)) name) eqn:Hin; cbn [negb].
  - intros [= <-]. unfold consistent, grows. cbn [taxonomyData Builder.nsmap roleMap].
    apply contains_true in Hin. split; [|split; [|done]].
    + split; [done|]. split; [done|]. split.
      * intros id fd Hfd. eapply fd_declared_mono; eauto.
      * intros nm cd Hcd. destruct (Hc nm cd Hcd) as [D1 D2].
        split; [by eapply declared_mono|done].
    + by repeat split.
  - apply contains_false in Hin.
    intros H. apply bind_Ok in H as ([lbls rm'] & F & [= <-]).
    destruct (labelLoop_lookup (c_labels cpt) ∅ (roleMap self) lbls rm' Hi2)
      as (F1 & _ & Fkeys & _ & _); [|exact F|].
    { intros rp [x Hx]. by rewrite lookup_empty in Hx. }
    pose proof (labelLoop_roles_le _ _ _ F) as Fle.
    cbn [fst snd] in *. apply roles_le_subseteq in Fle.
    unfold consistent, grows.
    cbn [taxonomyData Builder.nsmap roleMap concepts Builder.facts].
    split; [|split; [|split; [|done]]].
    + split; [done|]. split; [done|]. split.
      * intros id fd Hfd. eapply fd_declared_mono; eauto.
      * intros nm cd. destruct (decide (nm = name)) as [->|Hn].
        -- rewrite lookup_insert_eq. intros [= <-]. cbn [labels]. done.
        -- rewrite lookup_insert_ne by done. intros Hcd.
           destruct (Hc nm cd Hcd) as [D1 D2]. split; [by eapply declared_mono|].
           intros rp [x Hx]%D2. exists x. by eapply lookup_weaken.
    + repeat split; try done. by apply insert_subseteq.
    + rewrite lookup_insert_eq. eauto.
Qed.

Lemma rendered_qname m q :
  inv m -> rendered (snd (NamespaceMap.qname m q)) q (fst (NamespaceMap.qname m q)).
Proof.
  intros Hinv. rewrite qname_fst. cbn [fst snd].
  destruct (getPrefix_binds m (namespaceURI q) (prefix q)) as [Hb _]. by eexists.
Qed.

Lemma rendered_mono m m' q n :
  NamespaceMap.nsmap m ⊆ NamespaceMap.nsmap m' -> rendered m q n -> rendered m' q n.
Proof. intros Hsub (p & Hp & ->). exists p. split; [by eapply lookup_weaken|done]. Qed.

Lemma rendered_final m q n :
  inv m -> rendered m q n -> NamespaceMap.qname m q = (n, m).
Proof.
  intros [_ Hne] (p & Hp & ->). rewrite qname_fst.
  rewrite (getPrefix_bound m _ _ p Hp); [done|]. intros ->. by apply (Hne (namespaceURI q)).
Qed.

Lemma rendered_declared m q n : inv m -> rendered m q n -> declared (prefixmap m) n.
Proof.
  intros [Hbij _] (p & Hp & ->). eexists _, _. split; [done|].
  exists (namespaceURI q). by apply Hbij.
Qed.

Lemma entered_grows self self' cpt : grows self self' -> entered self cpt -> entered self' cpt.
Proof.
  intros (G1 & _ & _ & G4) (n & Hr & [cd Hcd]). exists n.
  split; [by eapply rendered_mono|]. exists cd. by eapply lookup_weaken.
Qed.

Lemma entered_final self cpt :
  consistent self -> entered self cpt ->
  is_Some (concepts (taxonomyData self)
             !! fst (NamespaceMap.qname (Builder.nsmap self) (c_qname cpt))).
Proof.
  intros (Hi & _) (n & Hr & Hn). by rewrite (rendered_final _ _ _ Hi Hr).
Qed.

Lemma dim_of_mono m m' items k x :
  NamespaceMap.nsmap m ⊆ NamespaceMap.nsmap m' -> dim_of m items k x -> dim_of m' items k x.
Proof.
  intros Hsub (q & dv & mq & H1 & H2 & H3 & H4).
  exists q, dv, mq. eauto 6 using rendered_mono.
Qed.

Lemma record_of_mono m m' fct fd :
  NamespaceMap.nsmap m ⊆ NamespaceMap.nsmap m' -> record_of m fct fd -> record_of m' fct fd.
Proof.
  intros Hsub (H1 & H2 & H3 & H4 & H5 & H6).
  split; [done|]. split; [done|]. split; [by eapply rendered_mono|]. split; [done|].
  split; [intros k x Hk; eapply dim_of_mono; eauto|].
  destruct (u fd); [|done]. destruct H6 as (E & un & m0 & ms & mss & A & B & C).
  split; [done|]. exists un, m0, ms, mss. eauto using rendered_mono.
Qed.

Lemma record_of_declared m fct fd : inv m -> record_of m fct fd -> fd_declared (prefixmap m) fd.
Proof.
  intros Hinv (_ & _ & H3 & _ & H5 & H6). split; [by eapply rendered_declared|]. split.
  - intros k x (q & dv & mq & _ & _ & R1 & R2)%H5. split; by eapply rendered_declared.
  - intros x Hx. rewrite Hx in H6. destruct H6 as (_ & un & m0 & ms & mss & _ & _ & R).
    by eapply rendered_declared.
Qed.

Lemma described_from_mono m m' fct fd :
  NamespaceMap.nsmap m ⊆ NamespaceMap.nsmap m' ->
  described_from m fct fd -> described_from m' fct fd.
Proof.
  intros Hsub [R X]. split; [by eapply record_of_mono|].
  intros m2 Hi H2. apply X; [done|]. by etrans.
Qed.

Lemma described_from_describes m fct fd :
  inv m -> described_from m fct fd -> describes m fct fd.
Proof. intros Hi [R X]. split; [done|]. by apply X. Qed.

Lemma with_nsmap_consistent self ns :
  consistent self -> inv ns ->
  NamespaceMap.nsmap (Builder.nsmap self) ⊆ NamespaceMap.nsmap ns ->
  prefixmap (Builder.nsmap self) ⊆ prefixmap ns ->
  let self' := {| Builder.nsmap := ns; roleMap := roleMap self;
                  taxonomyData := taxonomyData self |} in
  consistent self' /\ grows self self'.
Proof.
  intros (Hi1 & Hi2 & Hf & Hc) Hinv S1 S2. unfold consistent, grows.
  cbn [Builder.nsmap roleMap taxonomyData]. split; [|done].
  split; [done|]. split; [done|]. split.
  - intros id fd Hfd. eapply fd_declared_mono; eauto.
  - intros nm cd Hcd. destruct (Hc nm cd Hcd). split; [by eapply declared_mono|done].
Qed.

Lemma addConcept_entered self cpt self' :
  consistent self -> addConcept self (Some cpt) = Ok self' ->
  consistent self' /\ grows self self' /\ entered self' cpt
  /\ Builder.facts (taxonomyData self') = Builder.facts (taxonomyData self).
Proof.
  intros Hc H. destruct (addConcept_consistent self cpt self' Hc H) as (C & G & E & F).
  split; [done|]. split; [done|]. split; [|done].
  exists (fst (NamespaceMap.qname (Builder.nsmap self) (c_qname cpt))). split; [|done].
  destruct Hc as (Hi & _). pose proof (rendered_qname _ (c_qname cpt) Hi) as R.
  replace (Builder.nsmap self') with (snd (NamespaceMap.qname (Builder.nsmap self) (c_qname cpt))); [done|].
  unfold addConcept in H. cbn [attr mbind result_bind] in H.
  destruct (NamespaceMap.qname _ _) as [name ns']. destruct (negb _).
  - apply bind_Ok in H as ([lbls rm'] & _ & H). by injection H as <-.
  - by injection H as <-.
Qed.

Lemma dimLoop_consistent items : forall dims self dims' self',
  consistent self -> dimLoop items dims self = Ok (dims', self') ->
  consistent self' /\ grows self self'
  /\ Builder.facts (taxonomyData self') = Builder.facts (taxonomyData self)
  /\ (forall k x, dims' !! k = Some x ->
        dims !! k = Some x \/ dim_of (Builder.nsmap self') items k x)
  /\ (forall q dv, (q, dv) ∈ items -> is_Some (memberQname dv) ->
        (forall cpt, dimension dv = Some cpt -> entered self' cpt)
        /\ (forall cpt, member dv = Some cpt -> entered self' cpt))
  /\ (forall m, inv m ->
        NamespaceMap.nsmap (Builder.nsmap self') ⊆ NamespaceMap.nsmap m ->
        dims' = fold_left (dim_step m) items dims).
Proof.
  induction items as [|[dq dv] items IH]; intros dims self dims' self' Hc H;
    cbn [dimLoop] in H.
  - injection H as <- <-. split; [done|]. split; [apply grows_refl|]. split; [done|].
    split; [eauto|]. split; [|done]. intros q dv' Hin. by apply elem_of_nil in Hin.
  - destruct (memberQname dv) as [mq|] eqn:Emq.
    2:{ destruct (IH _ _ _ _ Hc H) as (C & G & F & D & E & X).
        split; [done|]. split; [done|]. split; [done|]. split; [|split].
        - intros k x Hk. destruct (D k x Hk) as [?|(q & dv' & mq' & I1 & I2)]; [by left|].
          right. exists q, dv', mq'. split; [by apply elem_of_cons; right|done].
        - intros q dv' [[= -> ->]|Hin]%elem_of_cons Hm.
          + rewrite Emq in Hm. by destruct Hm.
          + eauto.
        - intros m Hi Hsub. cbn [fold_left]. unfold dim_step at 2. cbn [snd].
          rewrite Emq. by apply X. }
    pose proof Hc as (Hi & _).
    destruct (qname_step (Builder.nsmap self) mq Hi) as (Q1 & Q2 & Q3 & _).
    pose proof (rendered_qname _ mq Hi) as Rm.
    destruct (NamespaceMap.qname (Builder.nsmap self) mq) as [mname ns1]. cbn [fst snd] in *.
    destruct (qname_step ns1 (dimensionQname dv) Q1) as (P1 & P2 & P3 & _).
    pose proof (rendered_qname _ (dimensionQname dv) Q1) as Rd.
    destruct (NamespaceMap.qname ns1 (dimensionQname dv)) as [dname ns2]. cbn [fst snd] in *.
    destruct (with_nsmap_consistent self ns2 Hc P1) as [C1 G1]; [by etrans..|].
    apply bind_Ok in H as (self2 & H2 & H).
    apply bind_Ok in H as (self3 & H3 & H).
    destruct (dimension dv) as [dc|] eqn:Edc; [|done].
    destruct (member dv) as [mc|] eqn:Emc; [|done].
    destruct (addConcept_entered _ _ _ C1 H2) as (C2 & G2 & E2 & F2).
    destruct (addConcept_entered _ _ _ C2 H3) as (C3 & G3 & E3 & F3).
    destruct (IH _ _ _ _ C3 H) as (C & G & F & D & E & X).
    assert (grows {| Builder.nsmap := ns2; roleMap := roleMap self;
                     taxonomyData := taxonomyData self |} self') as G13
      by eauto using grows_trans.
    split; [done|]. split; [eauto using grows_trans|].
    split; [by rewrite F, F3, F2|]. split; [|split].
    + intros k x Hk. destruct (D k x Hk) as [Hk'|(q & dv' & mq' & I1 & I2)].
      * destruct (decide (k = dname)) as [->|Hn].
        -- rewrite lookup_insert_eq in Hk'. injection Hk' as <-. right.
           exists dq, dv, mq. split; [apply elem_of_cons; by left|]. split; [done|].
           destruct G13 as (S & _). cbn [Builder.nsmap] in S.
           split; [by eapply rendered_mono|].
           eapply rendered_mono; [|exact Rm]. by etrans.
        -- rewrite lookup_insert_ne in Hk' by done. by left.
      * right. exists q, dv', mq'. split; [by apply elem_of_cons; right|done].
    + intros q dv' [[= -> ->]|Hin]%elem_of_cons Hm; [|eauto].
      rewrite Edc, Emc. split; intros cpt [= <-].
      * eapply entered_grows; [|exact E2]. eauto using grows_trans.
      * eapply entered_grows; [|exact E3]. done.
    + intros m Hm Hsub. cbn [fold_left]. unfold dim_step at 2. cbn [snd].
      rewrite Emq. destruct G13 as (S & _). cbn [Builder.nsmap] in S.
      assert (NamespaceMap.nsmap ns2 ⊆ NamespaceMap.nsmap m) as S2 by (by etrans).
      rewrite (rendered_final m (dimensionQname dv) dname Hm)
        by (by eapply rendered_mono).
      rewrite (rendered_final m mq mname Hm)
        by (eapply rendered_mono; [|exact Rm]; by etrans).
      cbn [fst]. by apply X.
Qed.

Lemma ensure_id_fields k fct :
  f_qname (ensure_id k fct) = f_qname fct
  /\ f_context (ensure_id k fct) = f_context fct
  /\ f_isNumeric (ensure_id k fct) = f_isNumeric fct
  /\ f_format (ensure_id k fct) = f_format fct
  /\ f_value (ensure_id k fct) = f_value fct
  /\ f_unit (ensure_id k fct) = f_unit fct
  /\ f_concept (ensure_id k fct) = f_concept fct.
Proof. unfold ensure_id. by destruct (f_id fct). Qed.

Lemma record_of_ensure_id m k fct fd :
  record_of m (ensure_id k fct) fd <-> record_of m fct fd.
Proof.
  destruct (ensure_id_fields k fct) as (Eq & Ec & En & Ef & Ev & Eu & Ecp).
  unfold record_of, f_dims. by rewrite Eq, Ec, En, Ef, Ev, Eu.
Qed.

Lemma described_from_ensure_id m k fct fd :
  described_from m (ensure_id k fct) fd <-> described_from m fct fd.
Proof.
  destruct (ensure_id_fields k fct) as (_ & Ec & _).
  unfold described_from. rewrite record_of_ensure_id. unfold f_dims. by rewrite Ec.
Qed.

Lemma factBody_consistent idGen fct self fct' self' :
  consistent self -> factBody idGen fct self = Ok (fct', self') ->
  fct' = ensure_id idGen fct
  /\ consistent self' /\ grows self self'
  /\ (exists fd,
        Builder.facts (taxonomyData self')
        = <[default "" (f_id fct') := fd]> (Builder.facts (taxonomyData self))
        /\ described_from (Builder.nsmap self') fct fd)
  /\ (forall cpt, f_concept fct = Some cpt -> entered self' cpt)
  /\ (forall q dv, (q, dv) ∈ f_dims fct -> is_Some (memberQname dv) ->
        (forall cpt, dimension dv = Some cpt -> entered self' cpt)
        /\ (forall cpt, member dv = Some cpt -> entered self' cpt)).
Proof.
  intros Hc H. unfold factBody in H.
  destruct (ensure_id_fields idGen fct) as (Eq & Ec & En & Ef & Ev & Eu & Ecp).
  set (fct1 := ensure_id idGen fct) in *.
  pose proof Hc as (Hi & _).
  destruct (qname_step (Builder.nsmap self) (f_qname fct1) Hi) as (Q1 & Q2 & Q3 & _).
  pose proof (rendered_qname _ (f_qname fct1) Hi) as Rc.
  destruct (NamespaceMap.qname (Builder.nsmap self) (f_qname fct1)) as [cname ns1].
  cbn [fst snd] in *.
  destruct (with_nsmap_consistent self ns1 Hc Q1 Q2 Q3) as [C0 G0].
  apply bind_Ok in H as (ctx & Hctx & H).
  apply bind_Ok in H as ([dims s1] & Hd & H).
  apply bind_Ok in H as ([un s2] & Hu & H).
  apply bind_Ok in H as ([ptv pfv] & Hp & H).
  apply bind_Ok in H as (s3 & Ha & H).
  injection H as <- <-. split; [done|].
  rewrite Ec in Hctx. destruct (f_context fct) as [ctx0|] eqn:Ectx; [|done].
  injection Hctx as ->.
  assert (f_dims fct = qnameDims ctx) as Edims by (unfold f_dims; by rewrite Ectx).
  destruct (dimLoop_consistent _ _ _ _ _ C0 Hd) as (C1 & G1 & F1 & D1 & E1 & X1).
  assert (consistent s2 /\ grows s1 s2
          /\ Builder.facts (taxonomyData s2) = Builder.facts (taxonomyData s1)
          /\ match un with
             | None => f_isNumeric fct = false
             | Some x =>
                 f_isNumeric fct = true
                 /\ exists un0 m0 ms mss,
                      f_unit fct = Some un0 /\ measures un0 = (m0 :: ms) :: mss
                      /\ rendered (Builder.nsmap s2) m0 x
             end) as (C2 & G2 & F2 & U2).
  { rewrite En, Eu in Hu. destruct (f_isNumeric fct).
    - apply bind_Ok in Hu as (un0 & Hun & Hu).
      apply bind_Ok in Hu as (ms & Hms & Hu).
      apply bind_Ok in Hu as (m0 & Hm0 & Hu).
      destruct (f_unit fct) as [un1|]; [|done]. injection Hun as ->.
      destruct (measures un0) as [|ms1 mss] eqn:Em; [done|]. injection Hms as ->.
      destruct ms as [|m1 ms]; [done|]. injection Hm0 as ->.
      pose proof C1 as (Hi1 & _).
      destruct (qname_step (Builder.nsmap s1) m0 Hi1) as (U1 & U2 & U3 & _).
      pose proof (rendered_qname _ m0 Hi1) as Ru.
      destruct (NamespaceMap.qname (Builder.nsmap s1) m0) as [uname ns2].
      cbn [fst snd] in *. injection Hu as <- <-.
      destruct (with_nsmap_consistent s1 ns2 C1 U1 U2 U3) as [C2 G2].
      split; [done|]. split; [done|]. split; [done|]. split; [done|].
      exists un0, m0, ms, mss. done.
    - injection Hu as <- <-. split; [done|]. split; [apply grows_refl|]. done. }
  rewrite Ecp in Ha. destruct (f_concept fct) as [cpt|] eqn:Ecpt; [|done].
  set (fd := {| f := f_format fct1; v := f_value fct1; c := cname; d := dims;
                u := un; pt := ptv; pf := pfv |}) in *.
  assert (record_of (Builder.nsmap s2) fct fd) as R2.
  { unfold record_of. subst fd. cbn [f v c d u pt pf].
    split; [done|]. split; [done|]. split.
    { rewrite <- Eq. eapply rendered_mono; [|exact Rc].
      destruct G1 as (S1 & _), G2 as (S2 & _). cbn [Builder.nsmap] in S1. by etrans. }
    split; [by exists ctx|]. split; [|done].
    intros k x Hk. destruct (D1 k x Hk) as [Hk'|Hk']; [by rewrite lookup_empty in Hk'|].
    rewrite Edims. eapply dim_of_mono; [|exact Hk']. by destruct G2. }
  match type of Ha with addConcept ?s _ = _ => set (s2' := s) in * end.
  assert (consistent s2' /\ grows s2 s2') as [C2' G2'].
  { destruct C2 as (I1 & I2 & Hf & Hcc). unfold consistent, grows. subst s2'.
    cbn [Builder.nsmap roleMap taxonomyData Builder.facts concepts].
    split; [|done]. split; [done|]. split; [done|]. split; [|done].
    intros id fd'. destruct (decide (id = default "" (f_id fct1))) as [->|Hn].
    - rewrite lookup_insert_eq. intros [= <-]. by apply (record_of_declared _ fct).
    - rewrite lookup_insert_ne by done. apply Hf. }
  destruct (addConcept_entered _ _ _ C2' Ha) as (C3 & G3 & E3 & F3).
  assert (grows s2 s3) as G23 by eauto using grows_trans.
  assert (grows s1 s3) as G13 by eauto using grows_trans.
  split; [done|]. split; [eauto using grows_trans|]. split; [|split].
  - exists fd. split.
    + rewrite F3. subst s2'. cbn [taxonomyData Builder.facts]. by rewrite F2, F1.
    + split; [eapply record_of_mono; [|exact R2]; by destruct G23|].
      intros m' Hm' Hsub. unfold explicit_dims. rewrite Edims. subst fd. cbn [d].
      apply X1; [done|]. etrans; [|exact Hsub]. by destruct G13.
  - by intros cpt' [= <-].
  - intros q dv Hin Hm. rewrite Edims in Hin. destruct (E1 q dv Hin Hm) as [A B].
    split; intros cpt' Hcpt'; eapply entered_grows; eauto.
Qed.

Lemma factLoop_consistent fs : forall idGen self fs' n self',
  consistent self -> factLoop fs idGen self = Ok (fs', n, self') ->
  consistent self' /\ grows self self'
  /\ (forall fct, fct ∈ fs ->
        (forall cpt, f_concept fct = Some cpt -> entered self' cpt)
        /\ (forall q dv, (q, dv) ∈ f_dims fct ->
              is_Some (memberQname dv) ->
              (forall cpt, dimension dv = Some cpt -> entered self' cpt)
              /\ (forall cpt, member dv = Some cpt -> entered self' cpt)))
  /\ (forall id fd, Builder.facts (taxonomyData self') !! id = Some fd ->
        Builder.facts (taxonomyData self) !! id = Some fd
        \/ exists i fct', fs' !! i = Some fct' /\ final_id fct' = id
                          /\ described_from (Builder.nsmap self') fct' fd)
  /\ (forall id, (forall fct', fct' ∈ fs' -> final_id fct' <> id) ->
        Builder.facts (taxonomyData self') !! id
        = Builder.facts (taxonomyData self) !! id)
  /\ (forall i fct', fs' !! i = Some fct' ->
        (forall j fct2, i < j -> fs' !! j = Some fct2 -> final_id fct2 <> final_id fct') ->
        exists fd, Builder.facts (taxonomyData self') !! final_id fct' = Some fd
                   /\ described_from (Builder.nsmap self') fct' fd)
  /\ dom (Builder.facts (taxonomyData self'))
     = dom (Builder.facts (taxonomyData self)) ∪ list_to_set (final_id <$> fs').
Proof.
  induction fs as [|fct fs IH]; intros idGen self fs' n self' Hc H; cbn [factLoop] in H.
  - injection H as <- <- <-. split; [done|]. split; [apply grows_refl|].
    split; [intros fct Hin; by apply elem_of_nil in Hin|].
    split; [eauto|]. split; [done|]. split; [intros i fct' Hi; done|].
    cbn. by rewrite (right_id_L ∅ (∪)).
  - apply bind_Ok in H as ([fct1 self1] & Hb & H).
    apply bind_Ok in H as ([[rest' n'] self2] & Hl & H).
    injection H as <- <- <-.
    destruct (factBody_consistent _ _ _ _ _ Hc Hb) as (-> & C1 & G1 & (fd & F1 & R1) & E1 & D1).
    destruct (IH _ _ _ _ _ C1 Hl) as (C2 & G2 & E2 & Rec2 & Un2 & Last2 & Dom2).
    assert (NamespaceMap.nsmap (Builder.nsmap self1) ⊆ NamespaceMap.nsmap (Builder.nsmap self2))
      as S12 by (by destruct G2).
    apply (described_from_ensure_id _ idGen) in R1.
    set (fct1 := ensure_id idGen fct) in *.
    split; [done|]. split; [eauto using grows_trans|]. split; [|split; [|split; [|split]]].
    + intros fct0 [->|Hin]%elem_of_cons; [|eauto].
      split.
      * intros cpt Hcpt. eapply entered_grows; eauto.
      * intros q dv Hin Hm. destruct (D1 q dv Hin Hm) as [A B].
        split; intros cpt Hcpt; eapply entered_grows; eauto.
    + intros id fd' Hid. destruct (Rec2 id fd' Hid) as [Hid1|(i & fct' & Hi & Hfi & Hr)].
      * rewrite F1 in Hid1. destruct (decide (id = final_id fct1)) as [->|Hn].
        -- rewrite lookup_insert_eq in Hid1. injection Hid1 as <-. right.
           exists 0, fct1. split; [done|]. split; [done|]. by eapply described_from_mono.
        -- rewrite lookup_insert_ne in Hid1 by done. by left.
      * right. exists (S i), fct'. done.
    + intros id Hno. rewrite Un2.
      * rewrite F1. rewrite lookup_insert_ne; [done|].
        apply Hno. apply elem_of_cons. by left.
      * intros fct' Hin. apply Hno. apply elem_of_cons. by right.
    + intros [|i] fct' Hi Hlater; cbn in Hi.
      * injection Hi as <-. exists fd. split; [|by eapply described_from_mono].
        rewrite Un2.
        -- rewrite F1. apply lookup_insert_eq.
        -- intros fct' [j Hj]%list_elem_of_lookup. apply (Hlater (S j)); [lia|done].
      * apply (Last2 i fct' Hi). intros j fct2 Hij Hj. apply (Hlater (S j)); [lia|done].
    + rewrite Dom2, F1, dom_insert_L. cbn [fmap list_fmap list_to_set].
      fold (final_id fct1).
      rewrite (comm_L (∪) {[final_id fct1]}), <- !(assoc_L (∪)). done.
Qed.

Lemma consistent_new : consistent Builder.new.
Proof.
  unfold consistent. cbn [Builder.new Builder.nsmap roleMap taxonomyData Builder.facts concepts].
  split; [apply inv_new|]. split; [apply inv_new|].
  split; intros k x Hk; by rewrite lookup_empty in Hk.
Qed.

Lemma factBody_with_dims idGen fct items self :
  (forall dims s, dimLoop (f_dims fct) dims s = dimLoop items dims s) ->
  factBody idGen fct self
  = match factBody idGen (with_dims items fct) self with
    | Ok (_, self') => Ok (ensure_id idGen fct, self')
    | Raise e => Raise e
    end.
Proof.
  intros Hd. unfold factBody.
  assert (f_qname (ensure_id idGen (with_dims items fct)) = f_qname (ensure_id idGen fct)
          /\ f_isNumeric (ensure_id idGen (with_dims items fct)) = f_isNumeric (ensure_id idGen fct)
          /\ f_unit (ensure_id idGen (with_dims items fct)) = f_unit (ensure_id idGen fct)
          /\ f_format (ensure_id idGen (with_dims items fct)) = f_format (ensure_id idGen fct)
          /\ f_value (ensure_id idGen (with_dims items fct)) = f_value (ensure_id idGen fct)
          /\ f_id (ensure_id idGen (with_dims items fct)) = f_id (ensure_id idGen fct)
          /\ f_concept (ensure_id idGen (with_dims items fct)) = f_concept (ensure_id idGen fct)
          /\ f_context (ensure_id idGen (with_dims items fct))
             = set_dims items <$> f_context fct
          /\ f_context (ensure_id idGen fct) = f_context fct)
    as (E1 & E2 & E3 & E4 & E5 & E6 & E7 & E8 & E9).
  { unfold ensure_id, with_dims. cbn. destruct (f_id fct) eqn:E; cbn; repeat split; done. }
  rewrite E1, E2, E3, E4, E5, E6, E7, E8, E9.
  destruct (NamespaceMap.qname _ _) as [cname ns1].
  unfold f_dims in Hd. destruct (f_context fct) as [ctx|]; [|done].
  cbn [fmap option_fmap option_map attr mbind result_bind set_dims qnameDims].
  rewrite Hd.
  match goal with |- (?m ≫= _) = _ => destruct m as [[dims s1]|]; [|done] end.
  cbn [mbind result_bind].
  match goal with |- (?m ≫= _) = _ => destruct m as [[un s2]|]; [|done] end.
  cbn [mbind result_bind].
  change (period (set_dims items ctx)) with (period ctx).
  destruct (period ctx) as [[ptv pfv]|]; cbn [mbind result_bind]; [|reflexivity].
  destruct (addConcept _ _); reflexivity.
Qed.

Lemma fold_dim_step_filter m items : forall acc,
  fold_left (dim_step m) (List.filter (fun i => negb (is_typed i)) items) acc
  = fold_left (dim_step m) items acc.
Proof.
  induction items as [|[dq dv] items IH]; intros acc; [done|].
  cbn [List.filter fold_left]. unfold is_typed at 1, dim_step at 3. cbn [snd].
  destruct (memberQname dv) as [mq|] eqn:E; cbn [negb]; [|apply IH].
  cbn [fold_left]. unfold dim_step at 2. cbn [snd]. rewrite E. apply IH.
Qed.

Lemma fold_dim_step_keeps m items : forall acc k,
  is_Some (acc !! k) -> is_Some (fold_left (dim_step m) items acc !! k).
Proof.
  induction items as [|[dq dv] items IH]; intros acc k H; [done|].
  cbn [fold_left]. apply IH. unfold dim_step. cbn [snd].
  destruct (memberQname dv) as [mq|]; [|done].
  match goal with |- is_Some (<[?k':=_]> _ !! _) => destruct (decide (k = k')) as [->|Hn] end.
  - rewrite lookup_insert_eq. eauto.
  - by rewrite lookup_insert_ne.
Qed.

Lemma fold_dim_step_key m items : forall acc q dv mq,
  (q, dv) ∈ items -> memberQname dv = Some mq ->
  is_Some (fold_left (dim_step m) items acc
             !! fst (NamespaceMap.qname m (dimensionQname dv))).
Proof.
  induction items as [|[dq' dv'] items IH]; intros acc q dv mq Hin Hmq.
  - by apply elem_of_nil in Hin.
  - cbn [fold_left]. apply elem_of_cons in Hin as [[= -> ->]|Hin]; [|by eapply IH].
    apply fold_dim_step_keeps. unfold dim_step. cbn [snd]. rewrite Hmq.
    rewrite lookup_insert_eq. eauto.
Qed.

Lemma fold_dim_step_other m post : forall acc k,
  (forall q dv, (q, dv) ∈ post -> is_Some (memberQname dv) ->
     fst (NamespaceMap.qname m (dimensionQname dv)) <> k) ->
  fold_left (dim_step m) post acc !! k = acc !! k.
Proof.
  induction post as [|[dq dv] post IH]; intros acc k H; [done|].
  cbn [fold_left]. rewrite IH.
  - unfold dim_step. cbn [snd]. destruct (memberQname dv) as [mq|] eqn:E; [|done].
    rewrite lookup_insert_ne; [done|].
    apply (H dq dv); [apply elem_of_cons; by left|by rewrite E].
  - intros q dv' Hin. apply (H q dv'). apply elem_of_cons. by right.
Qed.

Lemma fold_dim_step_last m pre q dv mq post acc :
  memberQname dv = Some mq ->
  (forall q' dv', (q', dv') ∈ post -> is_Some (memberQname dv') ->
     fst (NamespaceMap.qname m (dimensionQname dv'))
     <> fst (NamespaceMap.qname m (dimensionQname dv))) ->
  fold_left (dim_step m) (pre ++ (q, dv) :: post)%list acc
    !! fst (NamespaceMap.qname m (dimensionQname dv))
  = Some (fst (NamespaceMap.qname m mq)).
Proof.
  intros Hmq Hpost. rewrite fold_left_app. cbn [fold_left].
  rewrite (fold_dim_step_other m post _ _ Hpost).
  unfold dim_step at 1. cbn [snd]. rewrite Hmq. apply lookup_insert_eq.
Qed.

(** C6.  Typed qualifiers are skipped: a fact is processed exactly as the
    same fact without its typed qualifiers, and the dimension loop behaves
    as on the list with the typed qualifiers removed.  When all qualifiers
    are typed, the dimension loop changes nothing and raises nothing, the
    fact is processed as without qualifiers, its record is complete with an
    empty [d], and the body succeeds whenever it succeeds without the
    qualifiers.  The other qualifiers produce their entries: the [d] of the
    record is the map built from the explicit qualifiers alone, with an
    entry under the name of the dimension of each, which is the name of its
    member unless a later explicit qualifier is written with the same
    dimension name. *)
Theorem C6_typed_dimensions_skipped (idGen : nat) (fct : Fact) (self : Builder.t) :
  factBody idGen fct self
  = match factBody idGen (without_typed fct) self with
    | Ok (_, self') => Ok (ensure_id idGen fct, self')
    | Raise e => Raise e
    end
  /\ (forall items dims s,
        dimLoop items dims s
        = dimLoop (List.filter (fun i => negb (is_typed i)) items) dims s)
  /\ (forallb is_typed (f_dims fct) = true ->
        (forall dims s, dimLoop (f_dims fct) dims s = Ok (dims, s))
        /\ factBody idGen fct self
           = match factBody idGen (without_dims fct) self with
             | Ok (_, self') => Ok (ensure_id idGen fct, self')
             | Raise e => Raise e
             end
        /\ (forall fct' self',
              factBody idGen fct self = Ok (fct', self') ->
              exists fd,
                Builder.facts (taxonomyData self') !! default "" (f_id fct') = Some fd
                /\ d fd = ∅
                /\ f fd = f_format fct /\ v fd = f_value fct
                /\ c fd = fst (NamespaceMap.qname (Builder.nsmap self) (f_qname fct)))
        /\ (wf_fact (without_dims fct) = true ->
            exists fct' self', factBody idGen fct self = Ok (fct', self')))
  /\ (consistent self ->
      forall fct' self',
        factBody idGen fct self = Ok (fct', self') ->
        exists fd,
          Builder.facts (taxonomyData self') !! default "" (f_id fct') = Some fd
          /\ d fd = explicit_dims (Builder.nsmap self') (f_dims fct)
          /\ d fd = explicit_dims (Builder.nsmap self')
                      (List.filter (fun i => negb (is_typed i)) (f_dims fct))
          /\ (forall q dv mq, (q, dv) ∈ f_dims fct -> memberQname dv = Some mq ->
                is_Some (d fd !! fst (NamespaceMap.qname (Builder.nsmap self')
                                        (dimensionQname dv))))
          /\ (forall pre q dv mq post,
                f_dims fct = (pre ++ (q, dv) :: post)%list ->
                memberQname dv = Some mq ->
                (forall q' dv', (q', dv') ∈ post -> is_Some (memberQname dv') ->
                   fst (NamespaceMap.qname (Builder.nsmap self') (dimensionQname dv'))
                   <> fst (NamespaceMap.qname (Builder.nsmap self') (dimensionQname dv))) ->
                d fd !! fst (NamespaceMap.qname (Builder.nsmap self') (dimensionQname dv))
                = Some (fst (NamespaceMap.qname (Builder.nsmap self') mq)))).
Proof.
  split.
  { apply factBody_with_dims. intros dims s. apply dimLoop_filter. }
  split; [apply dimLoop_filter|]. split.
  - intros Ht.
    assert (factBody idGen fct self
            = match factBody idGen (without_dims fct) self with
              | Ok (_, self') => Ok (ensure_id idGen fct, self')
              | Raise e => Raise e
              end) as Hsame.
    { apply factBody_with_dims. intros dims s. by rewrite dimLoop_typed. }
    split; [intros dims s; by apply dimLoop_typed|]. split; [exact Hsame|]. split.
    + intros fct' self' E.
      pose proof E as (-> & ctx & fd & s0 & s1 & Hctx & -> & Hd & HF & Hf & Hv & Hc & _)%factBody_spec.
      exists fd. rewrite HF, lookup_insert_eq.
      unfold f_dims in Ht. rewrite Hctx in Ht.
      rewrite dimLoop_typed in Hd by done. injection Hd as <- _. done.
    + intros Hwf. rewrite Hsame.
      destruct (factBody_total idGen _ self Hwf) as [[fct1 self1] ->]. eauto.
  - intros Hc fct' self' E.
    destruct (factBody_consistent _ _ _ _ _ Hc E) as (-> & C1 & _ & (fd & F1 & [_ X]) & _).
    pose proof C1 as (Hi & _).
    assert (d fd = explicit_dims (Builder.nsmap self') (f_dims fct)) as Hd by (by apply X).
    exists fd. rewrite F1, lookup_insert_eq. split; [done|]. split; [done|].
    split; [|split].
    + rewrite Hd. unfold explicit_dims. by rewrite fold_dim_step_filter.
    + intros q dv mq Hin Hmq. rewrite Hd. by eapply fold_dim_step_key.
    + intros pre q dv mq post Hitems Hmq Hpost. rewrite Hd. unfold explicit_dims.
      rewrite Hitems. by apply (fold_dim_step_last _ pre q dv mq post).
Qed.

(** C6 on a fact with one typed qualifier, and on a fact with a typed and
    an explicit one. *)
Lemma C6_witness :
  (forallb is_typed (f_dims ex_typed_fact) = true
   /\ exists self' fd,
        factBody 0 ex_typed_fact Builder.new = Ok (ex_typed_fact, self')
        /\ Builder.facts (taxonomyData self') !! "fact-1" = Some fd
        /\ d fd = ∅
        /\ concepts (taxonomyData self') !! "ex:CustomerAxis" = None)
  /\ exists self' fd,
       factBody 0 ex_mixed_fact Builder.new = Ok (ex_mixed_fact, self')
       /\ Builder.facts (taxonomyData self') !! "fact-2" = Some fd
       /\ d fd = {[ "ex:RegionAxis" := "ex:North" ]}
       /\ concepts (taxonomyData self') !! "ex:CustomerAxis" = None.
Proof.
  split.
  - split; [reflexivity|].
    destruct (C6_typed_dimensions_skipped 0 ex_typed_fact Builder.new) as (_ & _ & Hall & _).
    destruct (Hall eq_refl) as (_ & _ & Hrec & Htot).
    destruct (Htot eq_refl) as (fct' & self' & E).
    destruct (Hrec _ _ E) as (fd & Hfd & Hd & _).
    assert (fct' = ex_typed_fact) as ->.
    { by apply factBody_spec in E as [-> _]. }
    exists self', fd. split; [exact E|]. split; [exact Hfd|]. split; [exact Hd|].
    vm_compute in E. injection E as <-. reflexivity.
  - destruct (C6_typed_dimensions_skipped 0 ex_mixed_fact Builder.new) as (_ & _ & _ & Hex).
    specialize (Hex consistent_new).
    destruct (factBody 0 ex_mixed_fact Builder.new) as [[fct' self']|e] eqn:E;
      [|vm_compute in E; discriminate].
    destruct (Hex _ _ eq_refl) as (fd & Hfd & Hd & _).
    assert (fct' = ex_mixed_fact) as ->.
    { by apply factBody_spec in E as [-> _]. }
    exists self', fd. split; [reflexivity|]. split; [exact Hfd|].
    vm_compute in E. injection E as <-.
    split; [rewrite Hd; vm_compute; reflexivity|reflexivity].
Defined.

Lemma bind_Raise {A B} (m : result A) (k : A -> result B) e :
  m ≫= k = Raise e <-> m = Raise e \/ exists a, m = Ok a /\ k a = Raise e.
Proof.
  destruct m as [a|e']; cbn [mbind result_bind].
  - split; [eauto|]. intros [|(a' & [= <-] & H)]; done.
  - split; [intros [= ->]; by left|]. intros [[= ->]|(a' & ? & _)]; done.
Qed.

Lemma addLabel_Raise acc l e : addLabel acc l = Raise e -> lookup_error e = true.
Proof.
  destruct acc as [lbls rm]. unfold addLabel.
  destruct (getPrefix rm (role l) None) as [rp rm'].
  destruct (xmlLang l); [done|]. by intros [= <-].
Qed.

Lemma labelLoop_Raise ls : forall acc e,
  labelLoop ls acc = Raise e -> lookup_error e = true.
Proof.
  induction ls as [|l ls IH]; intros acc e H; cbn [labelLoop] in H; [done|].
  apply bind_Raise in H as [H|(acc' & _ & H)]; [by eapply addLabel_Raise|eauto].
Qed.

Lemma addConcept_Raise self cpt e :
  addConcept self cpt = Raise e -> lookup_error e = true.
Proof.
  destruct cpt as [cpt|]; [|by intros [= <-]].
  unfold addConcept. cbn [attr mbind result_bind].
  destruct (NamespaceMap.qname _ _) as [name ns']. destruct (negb _); [|done].
  intros H. apply bind_Raise in H as [H|([lbls rm'] & _ & H)]; [|done].
  by eapply labelLoop_Raise.
Qed.

Lemma dimLoop_Raise items : forall dims self e,
  dimLoop items dims self = Raise e -> lookup_error e = true.
Proof.
  induction items as [|[dq dv] items IH]; intros dims self e H; cbn [dimLoop] in H; [done|].
  destruct (memberQname dv) as [mq|]; [|eauto].
  destruct (NamespaceMap.qname _ mq) as [mname ns1].
  destruct (NamespaceMap.qname ns1 _) as [dname ns2].
  apply bind_Raise in H as [H|(s2 & _ & H)]; [by eapply addConcept_Raise|].
  apply bind_Raise in H as [H|(s3 & _ & H)]; [by eapply addConcept_Raise|].
  eauto.
Qed.

Lemma attr_Raise {A} (o : option A) e : attr o = Raise e -> lookup_error e = true.
Proof. destruct o; [done|]. by intros [= <-]. Qed.

Lemma item0_Raise {A} (l : list A) e : item0 l = Raise e -> lookup_error e = true.
Proof. destruct l; [|done]. by intros [= <-]. Qed.

Lemma period_Raise ctx e : period ctx = Raise e -> lookup_error e = true.
Proof.
  unfold period. destruct (isInstantPeriod ctx).
  - destruct (instantDatetime ctx); [done|]. by intros [= <-].
  - destruct (isStartEndPeriod ctx); [|done].
    destruct (startDatetime ctx); [|by intros [= <-]].
    destruct (endDatetime ctx); [done|]. by intros [= <-].
Qed.

Lemma factBody_Raise idGen fct self e :
  factBody idGen fct self = Raise e -> lookup_error e = true.
Proof.
  unfold factBody. intros H.
  destruct (NamespaceMap.qname _ _) as [cname ns1].
  apply bind_Raise in H as [H|(ctx & _ & H)]; [by eapply attr_Raise|].
  apply bind_Raise in H as [H|([dims s1] & _ & H)]; [by eapply dimLoop_Raise|].
  apply bind_Raise in H as [H|([un s2] & _ & H)].
  { destruct (f_isNumeric _); [|done].
    apply bind_Raise in H as [H|(un0 & _ & H)]; [by eapply attr_Raise|].
    apply bind_Raise in H as [H|(ms & _ & H)]; [by eapply item0_Raise|].
    apply bind_Raise in H as [H|(m0 & _ & H)]; [by eapply item0_Raise|].
    by destruct (NamespaceMap.qname _ m0). }
  apply bind_Raise in H as [H|([ptv pfv] & _ & H)]; [by eapply period_Raise|].
  apply bind_Raise in H as [H|(s3 & _ & H)]; [|done].
  by eapply addConcept_Raise.
Qed.

Lemma factLoop_Raise fs : forall idGen self e,
  factLoop fs idGen self = Raise e -> lookup_error e = true.
Proof.
  induction fs as [|fct fs IH]; intros idGen self e H; cbn [factLoop] in H; [done|].
  apply bind_Raise in H as [H|([fct1 self1] & _ & H)]; [by eapply factBody_Raise|].
  apply bind_Raise in H as [H|([[rest n] self2] & _ & H)]; [eauto|done].
Qed.

Lemma ensure_id_shaped k fct : shaped_fact (ensure_id k fct) = shaped_fact fct.
Proof. unfold ensure_id. by destruct (f_id fct). Qed.

Lemma dimLoop_shaped items : forall dims self r,
  dimLoop items dims self = Ok r -> forallb shaped_dim items = true.
Proof.
  induction items as [|[dq dv] items IH]; intros dims self r H; cbn [dimLoop] in H; [done|].
  cbn [forallb]. unfold shaped_dim at 1, is_typed. cbn [snd].
  destruct (memberQname dv) as [mq|]; [|cbn [orb andb]; eauto].
  destruct (NamespaceMap.qname _ mq) as [mname ns1].
  destruct (NamespaceMap.qname ns1 _) as [dname ns2].
  apply bind_Ok in H as (self2 & H2 & H).
  apply bind_Ok in H as (self3 & H3 & H).
  destruct (dimension dv); [|done]. destruct (member dv); [|done].
  cbn [present orb andb]. eauto.
Qed.

Lemma factBody_shaped idGen fct self r :
  factBody idGen fct self = Ok r -> shaped_fact fct = true.
Proof.
  intros H. rewrite <- (ensure_id_shaped idGen). unfold factBody in H.
  set (fct1 := ensure_id idGen fct) in *.
  destruct (NamespaceMap.qname _ (f_qname fct1)) as [cname ns1].
  apply bind_Ok in H as (ctx & Hctx & H).
  apply bind_Ok in H as ([dims s1] & Hd & H).
  apply bind_Ok in H as ([un s2] & Hu & H).
  apply bind_Ok in H as ([ptv pfv] & Hp & H).
  apply bind_Ok in H as (s3 & Ha & H).
  unfold shaped_fact. destruct (f_context fct1) as [ctx0|]; [|done].
  injection Hctx as ->.
  apply dimLoop_shaped in Hd. rewrite Hd, andb_true_r.
  assert (present (f_concept fct1) = true) as ->.
  { by destruct (f_concept fct1). }
  assert (wf_unit fct1 = true) as ->.
  { unfold wf_unit. destruct (f_isNumeric fct1); [|done].
    apply bind_Ok in Hu as (un0 & Hun & Hu).
    apply bind_Ok in Hu as (ms & Hms & Hu).
    apply bind_Ok in Hu as (m0 & Hm0 & Hu).
    destruct (f_unit fct1); [|done]. injection Hun as ->.
    destruct (measures un0) as [|ms1 mss]; [done|]. injection Hms as ->.
    by destruct ms. }
  cbn [andb]. unfold wf_period, period in *.
  destruct (isInstantPeriod _).
  - by destruct (instantDatetime _).
  - destruct (isStartEndPeriod _); [|done].
    destruct (startDatetime _); [|done]. by destruct (endDatetime _).
Qed.

Lemma factLoop_shaped fs : forall idGen self r,
  factLoop fs idGen self = Ok r -> forallb shaped_fact fs = true.
Proof.
  induction fs as [|fct fs IH]; intros idGen self r H; cbn [factLoop] in H; [done|].
  apply bind_Ok in H as ([fct1 self1] & Hb & H).
  apply bind_Ok in H as ([[rest n] self2] & Hl & H).
  cbn [forallb]. apply factBody_shaped in Hb as ->. eauto.
Qed.

Lemma assemble_total dumps self dts :
  forallb wf_fact (Model.facts dts) = true ->
  exists fs self' json, assemble dumps self dts = Ok (fs, self', json).
Proof.
  intros H. unfold assemble.
  match goal with |- context [factLoop ?fs ?k ?s] =>
    destruct (factLoop_total fs k s H) as [[[fs' n] s'] ->] end.
  cbn [mbind result_bind]. eauto.
Qed.

Lemma assemble_shaped dumps self dts r :
  assemble dumps self dts = Ok r -> forallb shaped_fact (Model.facts dts) = true.
Proof.
  intros H. unfold assemble in H.
  apply bind_Ok in H as ([[fs n] s] & Hl & _). by eapply factLoop_shaped.
Qed.

Lemma assemble_Raise dumps self dts e :
  assemble dumps self dts = Raise e -> lookup_error e = true.
Proof.
  intros H. unfold assemble in H.
  apply bind_Raise in H as [H|([[fs n] s] & _ & H)]; [by eapply factLoop_Raise|done].
Qed.

Lemma factBody_unlabelled idGen fct self cpt r :
  concepts (taxonomyData self) = ∅ -> f_dims fct = [] ->
  f_concept fct = Some cpt -> factBody idGen fct self = Ok r -> labelled cpt = true.
Proof.
  intros Hnone Hdims Hcpt H. unfold factBody in H.
  destruct (ensure_id_fields idGen fct) as (Eq & Ec & En & Ef & Ev & Eu & Ecp).
  set (fct1 := ensure_id idGen fct) in *.
  destruct (NamespaceMap.qname _ (f_qname fct1)) as [cname ns1].
  apply bind_Ok in H as (ctx & Hctx & H).
  apply bind_Ok in H as ([dims s1] & Hd & H).
  apply bind_Ok in H as ([un s2] & Hu & H).
  apply bind_Ok in H as ([ptv pfv] & Hp & H).
  apply bind_Ok in H as (s3 & Ha & H).
  rewrite Ec in Hctx. unfold f_dims in Hdims.
  destruct (f_context fct) as [ctx0|]; [|done]. injection Hctx as ->.
  rewrite Hdims in Hd. cbn [dimLoop] in Hd. injection Hd as <- <-.
  assert (concepts (taxonomyData s2) = ∅) as Hs2.
  { destruct (f_isNumeric fct1); [|by injection Hu as <- <-].
    apply bind_Ok in Hu as (un0 & Hun & Hu).
    apply bind_Ok in Hu as (ms & Hms & Hu).
    apply bind_Ok in Hu as (m0 & Hm0 & Hu).
    destruct (NamespaceMap.qname _ m0) as [uname ns2]. by injection Hu as <- <-. }
  rewrite Ecp, Hcpt in Ha. unfold addConcept in Ha.
  cbn [attr mbind result_bind Builder.nsmap taxonomyData concepts] in Ha.
  destruct (NamespaceMap.qname _ (c_qname cpt)) as [name ns'].
  rewrite Hs2 in Ha.
  assert (contains (∅ : gmap string ConceptData) name = false) as Hno.
  { apply contains_false. apply lookup_empty. }
  rewrite Hno in Ha. cbn [negb] in Ha.
  apply bind_Ok in Ha as (acc & F & _).
  apply (proj1 (labelLoop_Ok (c_labels cpt) (∅, roleMap s2))). eauto.
Qed.

(** X11.  The collecting part of [saveViewer]: it succeeds when every fact
    is well formed ([wf_fact]: a context, a concept, for a numeric fact a
    unit with a first measure, the datetimes of its period, both concepts of
    each explicit qualifier, and a language on every label resource of
    these concepts); it succeeds only when every fact has all of that but
    the languages ([shaped_fact]), which are read only for a concept that
    has no entry yet, as is the concept of a first fact without
    qualifiers.  If it fails, the exception is [AttributeError] or
    [IndexError], and [saveViewer] ends with it before it opens the file. *)
Theorem X11_collection_succeeds (dumps : TaxonomyData -> string)
    (tostring : Node -> string) (self : Builder.t) (dts : ModelXbrl) :
  (forallb wf_fact (Model.facts dts) = true ->
     exists r, assemble dumps self dts = Ok r)
  /\ ((exists r, assemble dumps self dts = Ok r) ->
        forallb shaped_fact (Model.facts dts) = true)
  /\ (forall e, assemble dumps self dts = Raise e -> lookup_error e = true)
  /\ (forall e outFile fl w, assemble dumps self dts = Raise e ->
        saveViewer dumps tostring self dts outFile fl w = (w, Raise e))
  /\ (forall pre fct post, Model.facts dts = (pre ++ fct :: post)%list ->
        shaped_fact fct = false -> exists e, assemble dumps self dts = Raise e)
  /\ (forall fct rest cpt, Model.facts dts = fct :: rest ->
        concepts (taxonomyData self) = ∅ -> f_dims fct = [] ->
        f_concept fct = Some cpt -> labelled cpt = false ->
        exists e, assemble dumps self dts = Raise e).
Proof.
  split.
  { intros H. destruct (assemble_total dumps self dts H) as (fs & s & j & E). eauto. }
  split; [intros [r H]; by eapply assemble_shaped|].
  split; [apply assemble_Raise|]. split; [|split].
  - intros e outFile fl w H. unfold saveViewer. by rewrite H.
  - intros pre fct post Hfs Hwf.
    destruct (assemble dumps self dts) as [r|e] eqn:E; [|eauto].
    exfalso. apply assemble_shaped in E.
    rewrite Hfs, forallb_app in E. cbn [forallb] in E.
    rewrite Hwf in E. cbn in E. by rewrite andb_false_r in E.
  - intros fct rest cpt Hfs Hnone Hdims Hcpt Hlab.
    destruct (assemble dumps self dts) as [[[fs s] j]|e] eqn:E; [|eauto].
    exfalso. apply assemble_Ok in E as (n & s1 & Hl & _).
    rewrite Hfs in Hl. cbn [factLoop] in Hl.
    apply bind_Ok in Hl as (r & Hb & _).
    apply factBody_unlabelled with (cpt := cpt) in Hb; [congruence|done..].
Qed.

Lemma seed_consistent self :
  consistent self ->
  let self0 :=
    {| Builder.nsmap := Builder.nsmap self;
       roleMap := snd (getPrefix (snd (getPrefix (roleMap self) standardLabel (Some "std")))
                                 documentationLabel (Some "doc"));
       taxonomyData := taxonomyData self |} in
  consistent self0 /\ grows self self0.
Proof.
  intros (I1 & I2 & Hf & Hc). unfold consistent, grows.
  cbn [Builder.nsmap roleMap taxonomyData].
  pose proof (getPrefix_inv _ standardLabel (Some "std") I2) as J1.
  destruct (getPrefix_grows _ standardLabel (Some "std") I2) as [_ G1].
  pose proof (getPrefix_inv _ documentationLabel (Some "doc") J1) as J2.
  destruct (getPrefix_grows _ documentationLabel (Some "doc") J1) as [_ G2].
  split.
  - split; [done|]. split; [done|]. split; [done|].
    intros nm cd Hcd. destruct (Hc nm cd Hcd) as [D1 D2]. split; [done|].
    intros rp [x Hx]%D2. exists x. eapply lookup_weaken; [|exact G2].
    by eapply lookup_weaken.
  - split; [done|]. split; [done|]. split; [by etrans|done].
Qed.

Lemma assemble_consistent dumps self dts fs' self' json :
  consistent self -> assemble dumps self dts = Ok (fs', self', json) ->
  exists n self1,
    factLoop (Model.facts dts) 0
      {| Builder.nsmap := Builder.nsmap self;
         roleMap := snd (getPrefix (snd (getPrefix (roleMap self) standardLabel (Some "std")))
                                   documentationLabel (Some "doc"));
         taxonomyData := taxonomyData self |} = Ok (fs', n, self1)
    /\ consistent self1
    /\ Builder.nsmap self' = Builder.nsmap self1
    /\ roleMap self' = roleMap self1
    /\ concepts (taxonomyData self') = concepts (taxonomyData self1)
    /\ Builder.facts (taxonomyData self') = Builder.facts (taxonomyData self1)
    /\ prefixes (taxonomyData self') = Some (prefixmap (Builder.nsmap self1))
    /\ roles (taxonomyData self') = Some (prefixmap (roleMap self1)).
Proof.
  intros Hc H. apply assemble_Ok in H as (n & self1 & Hl & -> & _).
  exists n, self1. split; [done|].
  destruct (seed_consistent self Hc) as [C0 _].
  destruct (factLoop_consistent _ _ _ _ _ _ C0 Hl) as (C1 & _).
  split; [exact C1|].
  cbn [Builder.nsmap roleMap taxonomyData concepts Builder.facts prefixes roles].
  repeat split; reflexivity.
Qed.

Lemma size_list_to_set_le (l : list string) :
  size (list_to_set l : gset string) <= length l.
Proof.
  induction l as [|x l IH]; cbn [list_to_set length].
  - by rewrite size_empty.
  - rewrite size_union_alt, size_singleton.
    assert (size (list_to_set l ∖ {[x]} : gset string) <= size (list_to_set l : gset string)).
    { apply subseteq_size. apply subseteq_difference_l. done. }
    lia.
Qed.

Lemma factLoop_ids fs : forall idGen self fs' n self',
  factLoop fs idGen self = Ok (fs', n, self') ->
  length fs' = length fs
  /\ forall fct', fct' ∈ fs' -> f_id fct' = Some (final_id fct').
Proof.
  intros idGen self fs' n self' H.
  apply factLoop_spec in H as (_ & -> & _). split; [by rewrite length_imap|].
  intros fct' [i Hi]%list_elem_of_lookup. rewrite list_lookup_imap in Hi.
  destruct (fs !! i) as [fct|]; [|done]. injection Hi as <-.
  unfold final_id, ensure_id. destruct (f_id fct) eqn:E; cbn [set_id f_id default]; [|done].
  by rewrite E.
Qed.

(** X8.  After the fact loop of [saveViewer] on a fresh builder: every fact
    record belongs to a fact with that identifier and describes it in full
    ([describes]: format, value, concept, period and unit are the fact's,
    and [d] is exactly the map of its explicit qualifiers); the last fact with a given identifier has its record, so
    an earlier fact with the same identifier is overwritten; the keys of the
    records are the identifiers of the facts, so there are at most as many
    records as facts, and as many when the identifiers are distinct. *)
Theorem X8_records_describe_facts (dumps : TaxonomyData -> string) (dts : ModelXbrl)
    (fs' : list Fact) (self' : Builder.t) (json : string) :
  assemble dumps Builder.new dts = Ok (fs', self', json) ->
  let recs := Builder.facts (taxonomyData self') in
  (forall id fd, recs !! id = Some fd ->
     exists i fct', fs' !! i = Some fct' /\ f_id fct' = Some id
                    /\ describes (Builder.nsmap self') fct' fd)
  /\ (forall i fct' id, fs' !! i = Some fct' -> f_id fct' = Some id ->
        (forall j fct2, i < j -> fs' !! j = Some fct2 -> f_id fct2 <> Some id) ->
        exists fd, recs !! id = Some fd /\ describes (Builder.nsmap self') fct' fd)
  /\ dom recs = list_to_set (final_id <$> fs')
  /\ size recs <= length (Model.facts dts)
  /\ (NoDup (final_id <$> fs') -> size recs = length (Model.facts dts)).
Proof.
  intros H. cbn zeta.
  destruct (assemble_consistent _ _ _ _ _ _ consistent_new H)
    as (n & self1 & Hl & C1 & -> & _ & _ & -> & _).
  pose proof C1 as (Hinv1 & _).
  destruct (factLoop_ids _ _ _ _ _ _ Hl) as [Hlen Hids].
  destruct (seed_consistent _ consistent_new) as [C0 _].
  destruct (factLoop_consistent _ _ _ _ _ _ C0 Hl) as (_ & _ & _ & Rec & _ & Last & Dom).
  cbn [taxonomyData Builder.new Builder.facts] in Rec, Dom.
  rewrite dom_empty_L, (left_id_L ∅ (∪)) in Dom.
  split; [|split; [|split; [done|split]]].
  - intros id fd Hid. destruct (Rec id fd Hid) as [Hid'|(i & fct' & Hi & Hfi & Hr)].
    { by rewrite lookup_empty in Hid'. }
    exists i, fct'. split; [done|]. split; [|by apply described_from_describes].
    rewrite <- Hfi. apply Hids. by eapply list_elem_of_lookup_2.
  - intros i fct' id Hi Hid Hlater.
    assert (final_id fct' = id) as Hfi by (unfold final_id; by rewrite Hid).
    rewrite <- Hfi.
    destruct (Last i fct' Hi) as (fd & Hfd & Hd).
    { intros j fct2 Hij Hj Heq.
      apply (Hlater j fct2 Hij Hj). rewrite <- Hfi, <- Heq. apply Hids.
      by eapply list_elem_of_lookup_2. }
    exists fd. split; [done|]. by apply described_from_describes.
  - rewrite <- size_dom, Dom, <- Hlen.
    etrans; [apply size_list_to_set_le|]. by rewrite length_fmap.
  - intros Hnd. rewrite <- size_dom, Dom, size_list_to_set by done.
    by rewrite length_fmap.
Qed.

(** X8 on a model whose one fact has a typed and an explicit qualifier. *)
Lemma X8_witness :
  exists fs self json fd,
    assemble no_dumps Builder.new ex_mixed_dts = Ok (fs, self, json)
    /\ Builder.facts (taxonomyData self) !! "fact-2" = Some fd
    /\ d fd = {[ "ex:RegionAxis" := "ex:North" ]}
    /\ size (Builder.facts (taxonomyData self)) <= 1.
Proof.
  destruct (assemble_total no_dumps Builder.new ex_mixed_dts eq_refl)
    as (fs & self & json & E).
  destruct (X8_records_describe_facts no_dumps ex_mixed_dts fs self json E)
    as (_ & Hlast & _ & Hsize & _).
  assert (match assemble no_dumps Builder.new ex_mixed_dts with
          | Ok (fs0, s, _) =>
              fs0 = [ex_mixed_fact]
              /\ explicit_dims (Builder.nsmap s) (f_dims ex_mixed_fact)
                 = {[ "ex:RegionAxis" := "ex:North" ]}
          | Raise _ => False
          end) as X by (vm_compute; split; reflexivity).
  rewrite E in X. destruct X as [-> Xd].
  destruct (Hlast 0 ex_mixed_fact "fact-2" eq_refl eq_refl) as (fd & Hfd & _ & Hd).
  { intros [|j] fct2 Hj Hl; [lia|discriminate Hl]. }
  exists [ex_mixed_fact], self, json, fd. split; [exact E|]. split; [exact Hfd|].
  split; [rewrite Hd; exact Xd|exact Hsize].
Defined.

(** X9.  In the data that [saveViewer] serializes, every prefix in use is
    declared: the concept, dimension, member and unit names of the fact
    records and the keys of [concepts] carry a key of [prefixes], the role
    keys of the labels are keys of [roles], and [prefixes] is the inverse of
    the builder's namespace map. *)
Theorem X9_names_declared (dumps : TaxonomyData -> string) (self : Builder.t)
    (dts : ModelXbrl) (fs' : list Fact) (self' : Builder.t) (json : string) :
  consistent self ->
  assemble dumps self dts = Ok (fs', self', json) ->
  exists pfx rls,
    prefixes (taxonomyData self') = Some pfx
    /\ roles (taxonomyData self') = Some rls
    /\ (forall id fd, Builder.facts (taxonomyData self') !! id = Some fd ->
          fd_declared pfx fd)
    /\ (forall name cd, concepts (taxonomyData self') !! name = Some cd ->
          declared pfx name
          /\ forall rp, is_Some (labels cd !! rp) -> is_Some (rls !! rp))
    /\ (forall p ns, pfx !! p = Some ns ->
          NamespaceMap.nsmap (Builder.nsmap self') !! ns = Some p)
    /\ consistent self'.
Proof.
  intros Hc H.
  destruct (assemble_consistent _ _ _ _ _ _ Hc H)
    as (n & self1 & Hl & C1 & E1 & E2 & E3 & E4 & E5 & E6).
  exists (prefixmap (Builder.nsmap self1)), (prefixmap (roleMap self1)).
  pose proof C1 as (I1 & I2 & Hf & Hcc).
  split; [done|]. split; [done|]. rewrite E4, E3, E1.
  split; [done|]. split; [done|]. split.
  - intros p ns Hp. destruct I1 as [Hbij _]. by apply Hbij.
  - unfold consistent. by rewrite E1, E2, E3, E4.
Qed.

(** X9 on the model of three facts. *)
Lemma X9_witness :
  exists fs self json pfx,
    assemble no_dumps Builder.new ex_dts = Ok (fs, self, json)
    /\ prefixes (taxonomyData self) = Some pfx
    /\ forall id fd, Builder.facts (taxonomyData self) !! id = Some fd ->
         declared pfx (c fd).
Proof.
  destruct (assemble_total no_dumps Builder.new ex_dts eq_refl) as (fs & self & json & E).
  destruct (X9_names_declared no_dumps Builder.new ex_dts fs self json consistent_new E)
    as (pfx & rls & H1 & _ & H3 & _).
  exists fs, self, json, pfx. split; [exact E|]. split; [exact H1|].
  intros id fd Hfd. destruct (H3 id fd Hfd) as [Hd _]. exact Hd.
Defined.

(** X10.  After the fact loop of [saveViewer], [concepts] has an entry for the
    concept of every fact and for the dimension and the member concept of
    every explicit dimension of every fact, under the name that the final
    namespace map gives it; when the fact and its concept agree on namespace
    and local name, the [c] of its record is such a key; entries that were
    there before are kept. *)
Theorem X10_concepts_entered (dumps : TaxonomyData -> string) (self : Builder.t)
    (dts : ModelXbrl) (fs' : list Fact) (self' : Builder.t) (json : string) :
  consistent self ->
  assemble dumps self dts = Ok (fs', self', json) ->
  let key cpt := fst (NamespaceMap.qname (Builder.nsmap self') (c_qname cpt)) in
  (forall fct cpt, fct ∈ Model.facts dts -> f_concept fct = Some cpt ->
     is_Some (concepts (taxonomyData self') !! key cpt))
  /\ (forall fct q dv cpt, fct ∈ Model.facts dts ->
        (q, dv) ∈ f_dims fct -> is_Some (memberQname dv) ->
        dimension dv = Some cpt \/ member dv = Some cpt ->
        is_Some (concepts (taxonomyData self') !! key cpt))
  /\ (forall fct cpt fd, fct ∈ Model.facts dts -> f_concept fct = Some cpt ->
        record_of (Builder.nsmap self') fct fd ->
        namespaceURI (c_qname cpt) = namespaceURI (f_qname fct) ->
        localName (c_qname cpt) = localName (f_qname fct) ->
        is_Some (concepts (taxonomyData self') !! c fd))
  /\ (forall name, is_Some (concepts (taxonomyData self) !! name) ->
        is_Some (concepts (taxonomyData self') !! name)).
Proof.
  intros Hc H. cbn zeta.
  destruct (assemble_consistent _ _ _ _ _ _ Hc H)
    as (n & self1 & Hl & C1 & E1 & E2 & E3 & E4 & E5 & E6).
  destruct (seed_consistent self Hc) as [C0 G0].
  destruct (factLoop_consistent _ _ _ _ _ _ C0 Hl) as (_ & G1 & Ent & _).
  rewrite E1, E3.
  assert (forall fct cpt, fct ∈ Model.facts dts -> f_concept fct = Some cpt ->
            entered self1 cpt) as Hent.
  { intros fct cpt Hin Hcpt. destruct (Ent fct Hin) as [A _]. eauto. }
  split; [|split; [|split]].
  - intros fct cpt Hin Hcpt. apply entered_final; eauto.
  - intros fct q dv cpt Hin Hq Hm Hor. apply entered_final; [done|].
    destruct (Ent fct Hin) as [_ B]. destruct (B q dv Hq Hm) as [B1 B2].
    destruct Hor; eauto.
  - intros fct cpt fd Hin Hcpt (_ & _ & (p & Hp & Hcfd) & _) Ens Eln.
    destruct (Hent fct cpt Hin Hcpt) as (name & (p' & Hp' & ->) & Hsome).
    rewrite Hcfd. rewrite Ens in Hp'. rewrite Eln in Hsome.
    replace p with p' by congruence. done.
  - intros name [cd Hcd]. exists cd.
    destruct G0 as (_ & _ & _ & S0), G1 as (_ & _ & _ & S1).
    cbn [taxonomyData] in S1. by eapply lookup_weaken.
Qed.

(** X10 on the model of three facts. *)
Lemma X10_witness :
  exists fs self json,
    assemble no_dumps Builder.new ex_dts = Ok (fs, self, json)
    /\ is_Some (concepts (taxonomyData self)
                  !! fst (NamespaceMap.qname (Builder.nsmap self) (ex_qname "Equity"))).
Proof.
  destruct (assemble_total no_dumps Builder.new ex_dts eq_refl) as (fs & self & json & E).
  destruct (X10_concepts_entered no_dumps Builder.new ex_dts fs self json consistent_new E)
    as (H1 & _).
  exists fs, self, json. split; [exact E|].
  apply (H1 (ex_fact "Equity" "40") (ex_concept "Equity" "Equity")); [|reflexivity].
  apply list_elem_of_lookup. by exists 2.
Defined.








(* ===================================================================== *)
(** * Further properties: lineWrap *)
(* ===================================================================== *)

Lemma drop_str_nil k : drop_str k "" = "".
Proof. by destruct k. Qed.

Lemma drop_str_add i k s : drop_str (i + k) s = drop_str k (drop_str i s).
Proof.
  revert s. induction i as [|i IH]; intros s; [done|].
  destruct s as [|x s]; cbn [Nat.add drop_str]; [by rewrite drop_str_nil|apply IH].
Qed.

Lemma drop_str_length k s : String.length (drop_str k s) = String.length s - k.
Proof.
  revert s. induction k as [|k IH]; intros [|x s]; cbn [drop_str String.length]; try lia.
  apply IH.
Qed.

Lemma take_str_length k s : String.length (IO.take_str k s) = Nat.min k (String.length s).
Proof.
  revert s. induction k as [|k IH]; intros [|x s]; cbn [IO.take_str String.length]; try lia.
  rewrite IH. lia.
Qed.

Lemma take_drop_str k s : IO.take_str k s +:+ drop_str k s = s.
Proof.
  revert s. induction k as [|k IH]; intros [|x s]; cbn [IO.take_str drop_str];
    rewrite ?append_nil_l, ?append_cons; try done.
  by rewrite IH.
Qed.

Lemma length_zero_nil s : String.length s = 0 -> s = "".
Proof. by destruct s. Qed.

Lemma pieces_unfold k s : forall fuel i,
  0 < k ->
  map (fun i => slice s i (i + k)) (range_from fuel i (String.length s) k)
  = match fuel with
    | 0 => []
    | S fuel' =>
        if (i <? String.length s)%nat
        then IO.take_str k (drop_str i s)
             :: map (fun i => slice s i (i + k))
                    (range_from fuel' (i + k) (String.length s) k)
        else []
    end.
Proof.
  intros [|fuel] i Hk; [done|]. cbn [range_from].
  destruct (i <? String.length s)%nat; [|done]. cbn [map]. unfold slice at 1.
  by replace (i + k - i) with k by lia.
Qed.

Lemma pieces_facts k : 0 < k -> forall fuel s i,
  String.length s - i <= fuel ->
  let ps := map (fun i => slice s i (i + k)) (range_from fuel i (String.length s) k) in
  fold_right String.append "" ps = drop_str i s
  /\ (forall j p, ps !! j = Some p ->
        (1 <= String.length p <= k)
        /\ (S j < length ps -> String.length p = k))
  /\ length ps = (String.length s - i + k - 1) / k.
Proof.
  intros Hk. induction fuel as [|fuel IH]; intros s i Hf; cbn zeta.
  - cbn [range_from map fold_right length].
    assert (String.length (drop_str i s) = 0) as E by (rewrite drop_str_length; lia).
    apply length_zero_nil in E. split; [done|]. split; [done|].
    replace (String.length s - i + k - 1) with (k - 1) by lia.
    symmetry. apply Nat.div_small. lia.
  - rewrite pieces_unfold by done.
    destruct (Nat.ltb_spec i (String.length s)) as [Hlt|Hge].
    + destruct (IH s (i + k)) as (C & L & N); [lia|]. cbn zeta in C, L, N.
      set (rest := map _ _) in *. cbn [fold_right length].
      split; [|split].
      * rewrite C, drop_str_add. apply take_drop_str.
      * intros [|j] p Hp; cbn in Hp.
        -- injection Hp as <-. rewrite take_str_length, drop_str_length.
           split; [lia|]. intros Hlen.
           assert (0 < length rest) as Hr by lia. rewrite N in Hr.
           destruct (Nat.le_gt_cases k (String.length s - i)) as [?|Hsm]; [lia|].
           exfalso. rewrite Nat.div_small in Hr by lia. lia.
        -- destruct (L j p Hp) as [L1 L2]. split; [done|]. intros Hlen. apply L2. lia.
      * rewrite N.
        destruct (Nat.le_gt_cases k (String.length s - i)) as [Hbig|Hsm].
        -- replace (String.length s - i + k - 1)
             with ((String.length s - (i + k) + k - 1) + 1 * k) by lia.
           rewrite Nat.div_add by lia. lia.
        -- replace (String.length s - (i + k) + k - 1) with (k - 1) by lia.
           rewrite (Nat.div_small (k - 1)) by lia.
           apply (Nat.div_unique _ k 1 (String.length s - i - 1)); lia.
    + cbn [fold_right length].
      assert (String.length (drop_str i s) = 0) as E by (rewrite drop_str_length; lia).
      apply length_zero_nil in E. split; [done|]. split; [done|].
      replace (String.length s - i + k - 1) with (k - 1) by lia.
      symmetry. apply Nat.div_small. lia.
Qed.

Lemma lineWrap_positive (s : string) (n : nat) :
  0 < n ->
  lineWrap s (Z.of_nat n) = Some (join (String Py.newline "") (lineWrap_pieces s n)).
Proof.
  intros Hn. unfold lineWrap. destruct (Z.eqb_spec (Z.of_nat n) 0) as [E|_]; [lia|].
  destruct (Z.ltb_spec (Z.of_nat n) 0) as [E|_]; [lia|]. by rewrite Nat2Z.id.
Qed.

(** X13.  [lineWrap] for a positive width [n]: the pieces that it joins with
    newlines concatenate to [s]; each has between 1 and [n] characters, and
    each but the last exactly [n]; there are [ceil(len(s) / n)] of them. *)
Theorem X13_lineWrap_pieces (s : string) (n : nat) :
  0 < n ->
  let ps := lineWrap_pieces s n in
  lineWrap s (Z.of_nat n) = Some (join (String Py.newline "") ps)
  /\ fold_right String.append "" ps = s
  /\ (forall j p, ps !! j = Some p ->
        (1 <= String.length p <= n)
        /\ (S j < length ps -> String.length p = n))
  /\ length ps = (String.length s + n - 1) / n.
Proof.
  intros Hn. cbn zeta. split; [by apply lineWrap_positive|].
  unfold lineWrap_pieces, range0.
  destruct (pieces_facts n Hn (String.length s) s 0) as (C & L & N); [lia|].
  cbn zeta in C, L, N. rewrite Nat.sub_0_r in N. done.
Qed.

(** X13 on eight characters and the width 3. *)
Lemma X13_witness :
  lineWrap "abcdefgh" 3 = Some (join (String Py.newline "") ["abc"; "def"; "gh"])
  /\ length (lineWrap_pieces "abcdefgh" 3) = 3.
Proof.
  destruct (X13_lineWrap_pieces "abcdefgh" 3) as (H1 & _ & _ & H4); [lia|].
  split; [exact H1|exact H4].
Defined.

Lemma take_str_all k s : String.length s <= k -> IO.take_str k s = s.
Proof.
  revert s. induction k as [|k IH]; intros [|x s]; cbn [IO.take_str String.length];
    try done; try lia.
  intros H. rewrite IH; [done|lia].
Qed.

Lemma pieces_short s n :
  0 < n -> String.length s <= n ->
  lineWrap_pieces s n = match s with "" => [] | _ => [s] end.
Proof.
  intros Hn Hle. unfold lineWrap_pieces, range0.
  destruct s as [|x s]; [done|].
  rewrite pieces_unfold by done. cbn [Nat.ltb Nat.leb String.length drop_str].
  rewrite take_str_all by done. f_equal.
  rewrite pieces_unfold by done. destruct (String.length s) as [|m] eqn:E; [done|].
  destruct (Nat.ltb_spec (0 + n) (String.length (String x s))) as [Hlt|_]; [|done].
  cbn [String.length] in Hlt, Hle. lia.
Qed.

(** X14.  [lineWrap] at the edges: the width 0 raises ([range] refuses a
    zero step); a negative width returns the empty string, whatever [s] is;
    a text of at most [n] characters, the empty one included, is returned
    as it is. *)
Theorem X14_lineWrap_edges (s : string) :
  lineWrap s 0 = None
  /\ (forall n, (n < 0)%Z -> lineWrap s n = Some "")
  /\ (forall n, (0 < n)%Z -> (Z.of_nat (String.length s) <= n)%Z ->
        lineWrap s n = Some s)
  /\ (forall n, n <> 0%Z -> lineWrap "" n = Some "").
Proof.
  assert (forall t n, (0 < n)%Z -> (Z.of_nat (String.length t) <= n)%Z ->
            lineWrap t n = Some t) as Hshort.
  { intros t n H0 Hle. unfold lineWrap.
    destruct (Z.eqb_spec n 0) as [E|_]; [lia|].
    destruct (Z.ltb_spec n 0) as [E|_]; [lia|].
    rewrite pieces_short by lia. by destruct t. }
  split; [done|]. split; [|split; [apply Hshort|]].
  - intros n Hn. unfold lineWrap.
    destruct (Z.eqb_spec n 0) as [E|_]; [lia|].
    by destruct (Z.ltb_spec n 0) as [E|E]; [|lia].
  - intros n Hn. destruct (Z.lt_trichotomy n 0) as [Hlt|[->|Hgt]]; [|done|].
    + unfold lineWrap. destruct (Z.eqb_spec n 0) as [E|_]; [lia|].
      by destruct (Z.ltb_spec n 0) as [E|E]; [|lia].
    + apply Hshort; [done|]. cbn. lia.
Qed.

Lemma unwrap_app a b : unwrap (a +:+ b) = unwrap a +:+ unwrap b.
Proof. apply replace_app. Qed.

Lemma join_cons2 sep p q ps :
  join sep (p :: q :: ps) = p +:+ sep +:+ join sep (q :: ps).
Proof. done. Qed.

Lemma unwrap_join ps :
  unwrap (join (String Py.newline "") ps) = unwrap (fold_right String.append "" ps).
Proof.
  induction ps as [|p ps IH]; [done|]. destruct ps as [|q ps].
  - cbn [join fold_right]. by rewrite append_nil_r.
  - rewrite join_cons2.
    change (fold_right String.append "" (p :: q :: ps))
      with (p +:+ fold_right String.append "" (q :: ps)).
    rewrite !unwrap_app, IH. unfold unwrap at 2. cbn [Py.replace].
    rewrite Ascii.eqb_refl. cbn [Py.replace]. by rewrite append_nil_r, append_nil_l.
Qed.

Lemma unwrap_id s : occurs Py.newline s = false -> unwrap s = s.
Proof.
  induction s as [|x s IH]; [done|]. cbn [occurs].
  intros [H1 H2]%orb_false_iff. unfold unwrap. cbn [Py.replace]. rewrite H1.
  f_equal. by apply IH.
Qed.

Lemma join_length ps :
  String.length (join (String Py.newline "") ps)
  = String.length (fold_right String.append "" ps) + (length ps - 1).
Proof.
  induction ps as [|p ps IH]; [done|]. destruct ps as [|q ps].
  - cbn [join fold_right length]. rewrite append_nil_r. lia.
  - rewrite join_cons2, !length_app, IH.
    change (fold_right String.append "" (p :: q :: ps))
      with (p +:+ fold_right String.append "" (q :: ps)).
    rewrite length_app. cbn [String.length length]. lia.
Qed.

(** X15.  [lineWrap] and back: for a positive width, deleting the newlines
    of the result gives [s] without its newlines, hence [s] itself when [s]
    has none; the result is longer than [s] by the number of pieces less
    one. *)
Theorem X15_lineWrap_round_trip (s : string) (n : nat) :
  0 < n ->
  exists w,
    lineWrap s (Z.of_nat n) = Some w
    /\ unwrap w = unwrap s
    /\ (occurs Py.newline s = false -> unwrap w = s)
    /\ String.length w = String.length s + ((String.length s + n - 1) / n - 1).
Proof.
  intros Hn. pose proof (lineWrap_positive s n Hn) as H1.
  destruct (pieces_facts n Hn (String.length s) s 0) as (H2 & _ & H4); [lia|].
  cbn zeta in H2, H4. rewrite Nat.sub_0_r in H4.
  fold (range0 (String.length s) n) in H2, H4. fold (lineWrap_pieces s n) in H2, H4.
  eexists. split; [exact H1|].
  assert (unwrap (join (String Py.newline "") (lineWrap_pieces s n)) = unwrap s) as Hu.
  { by rewrite unwrap_join, H2. }
  split; [done|]. split.
  - intros Hnl. rewrite Hu. by apply unwrap_id.
  - by rewrite join_length, H2, H4.
Qed.

(** X15 on eight characters and the width 3. *)
Lemma X15_witness :
  exists w, lineWrap "abcdefgh" 3 = Some w /\ unwrap w = "abcdefgh"
            /\ String.length w = 10.
Proof.
  destruct (X15_lineWrap_round_trip "abcdefgh" 3) as (w & H1 & _ & H3 & H4); [lia|].
  exists w. split; [exact H1|]. split; [by apply H3|exact H4].
Defined.

(* ===================================================================== *)
(** * Further properties: the two commands *)
(* ===================================================================== *)

Import Plugin.



Lemma build_and_save_world dumps tostring cntlr dts outFile fl w :
  let out := build_and_save dumps tostring cntlr dts outFile fl w in
  snd (fst out) = fst (saveViewer dumps tostring Builder.new dts outFile fl w)
  /\ snd out = (_ ← snd (saveViewer dumps tostring Builder.new dts outFile fl w); Ok RNone)
  /\ config (fst (fst out)) = config cntlr
  /\ saved (fst (fst out)) = saved cntlr
  /\ loaded (fst (fst out)) = Some (model_after dumps dts).
Proof.
  cbn zeta. unfold build_and_save.
  by destruct (saveViewer dumps tostring Builder.new dts outFile fl w) as [w' r].
Qed.






Lemma build_and_save_frame dumps tostring cntlr dts outFile fl w :
  let out := build_and_save dumps tostring cntlr dts outFile fl w in
  IO.handles (snd (fst out)) = IO.handles w
  /\ (forall p, p <> outFile -> IO.files (snd (fst out)) !! p = IO.files w !! p).
Proof.
  cbn zeta. destruct (build_and_save_world dumps tostring cntlr dts outFile fl w)
    as (-> & _).
  destruct (C9_aux dumps tostring Builder.new dts outFile fl w) as (H1 & H2 & _).
  done.
Qed.

(** X17.  [iXBRLViewerCommandLineXbrlRun]: it never touches the
    configuration, leaves no handle open and changes no file but the one
    named by the option; without a loaded model it only logs
    ["No taxonomy loaded."]; with a model and no file name (option absent,
    [None] or empty) it does nothing at all; with both it is [saveViewer] of
    a fresh builder on the controller's model. *)
Theorem X17_command_line_run (dumps : TaxonomyData -> string) (tostring : Node -> string)
    (cntlr : Cntlr) (options : Options) (arg : option ModelXbrl)
    (fl : IO.fault) (w : IO.World) :
  let out := iXBRLViewerCommandLineXbrlRun dumps tostring cntlr options arg fl w in
  config (fst (fst out)) = config cntlr
  /\ saved (fst (fst out)) = saved cntlr
  /\ IO.handles (snd (fst out)) = IO.handles w
  /\ (forall p, saveViewerFile options <> Some (Some p) ->
        IO.files (snd (fst out)) !! p = IO.files w !! p)
  /\ (loaded cntlr = None ->
        out = (addToLog "No taxonomy loaded." cntlr, w, Ok RNone))
  /\ (is_Some (loaded cntlr) ->
        Py.truthy_opt (default None (saveViewerFile options)) = false ->
        out = (cntlr, w, Ok RNone))
  /\ (forall dts outFile, loaded cntlr = Some dts ->
        saveViewerFile options = Some (Some outFile) -> outFile <> "" ->
        snd (fst out) = fst (saveViewer dumps tostring Builder.new dts outFile fl w)
        /\ snd out = (_ ← snd (saveViewer dumps tostring Builder.new dts outFile fl w);
                      Ok RNone)
        /\ loaded (fst (fst out)) = Some (model_after dumps dts)).
Proof.
  cbn zeta. unfold iXBRLViewerCommandLineXbrlRun.
  destruct (loaded cntlr) as [dts|] eqn:El.
  2:{ cbn [fst snd addToLog config saved]. repeat split; try done. }
  destruct (Py.truthy_opt (default None (saveViewerFile options))) eqn:Et.
  - destruct (saveViewerFile options) as [[outFile|]|] eqn:Eo; try done.
    cbn [default] in *.
    destruct (build_and_save_world dumps tostring cntlr dts outFile fl w)
      as (Hw & Hr & Hc & Hs & Hm).
    destruct (build_and_save_frame dumps tostring cntlr dts outFile fl w) as (Hh & Hf).
    cbn zeta in *.
    split; [done|]. split; [done|]. split; [done|]. split.
    { intros p Hp. apply Hf. congruence. }
    split; [done|]. split; [done|].
    intros dts0 outFile0 [= <-] [= <-] _. done.
  - cbn [fst snd]. split; [done|]. split; [done|]. split; [done|]. split; [done|].
    split; [done|]. split; [done|].
    intros dts0 outFile0 _ Ho Hne. rewrite Ho in Et. cbn [default Py.truthy_opt] in Et.
    by destruct outFile0.
Qed.

(** X18.  [iXBRLViewerMenuCommand]: without a loaded model it only logs
    ["No document loaded."]; when the dialog is cancelled it returns [False]
    and writes nothing, but [setdefault] has put the directory key into the
    configuration, which is not saved; when a file is chosen, its directory
    is stored under that key and the configuration is saved before the
    viewer is written, so also when writing fails; no other configuration
    key and no other file changes, and no handle stays open. *)
Theorem X18_menu_command (dumps : TaxonomyData -> string) (tostring : Node -> string)
    (uiFileDialog : string -> option string) (dirname : string -> string)
    (cntlr : Cntlr) (fl : IO.fault) (w : IO.World) :
  let out := iXBRLViewerMenuCommand dumps tostring uiFileDialog dirname cntlr fl w in
  let initialdir := default "." (config cntlr !! "iXBRLViewerFileDir") in
  IO.handles (snd (fst out)) = IO.handles w
  /\ (forall k, k <> "iXBRLViewerFileDir" ->
        config (fst (fst out)) !! k = config cntlr !! k)
  /\ (loaded cntlr = None ->
        out = (addToLog "No document loaded." cntlr, w, Ok RNone))
  /\ (is_Some (loaded cntlr) -> Py.truthy_opt (uiFileDialog initialdir) = false ->
        snd out = Ok RFalse /\ snd (fst out) = w
        /\ config (fst (fst out)) !! "iXBRLViewerFileDir" = Some initialdir
        /\ saved (fst (fst out)) = saved cntlr
        /\ log (fst (fst out)) = log cntlr)
  /\ (forall dts file, loaded cntlr = Some dts ->
        uiFileDialog initialdir = Some file -> file <> "" ->
        config (fst (fst out)) !! "iXBRLViewerFileDir" = Some (dirname file)
        /\ saved (fst (fst out)) = (saved cntlr ++ [config (fst (fst out))])%list
        /\ snd (fst out) = fst (saveViewer dumps tostring Builder.new dts file fl w)
        /\ snd out = (_ ← snd (saveViewer dumps tostring Builder.new dts file fl w);
                      Ok RNone)
        /\ (forall p, p <> file -> IO.files (snd (fst out)) !! p = IO.files w !! p)
        /\ loaded (fst (fst out)) = Some (model_after dumps dts)).
Proof.
  cbn zeta. unfold iXBRLViewerMenuCommand.
  destruct (loaded cntlr) as [dts|] eqn:El.
  2:{ cbn [fst snd addToLog config]. repeat split; try done. }
  set (initialdir := default "." (config cntlr !! "iXBRLViewerFileDir")).
  destruct (Py.truthy_opt (uiFileDialog initialdir)) eqn:Et; cbn [negb].
  - destruct (uiFileDialog initialdir) as [file|] eqn:Ef; [|done]. cbn [default].
    change (id file) with file.
    match goal with |- context [build_and_save _ _ ?c _ _ _ _] => set (c1 := c) end.
    destruct (build_and_save_world dumps tostring c1 dts file fl w)
      as (Hw & Hr & Hc & Hs & Hm).
    destruct (build_and_save_frame dumps tostring c1 dts file fl w) as (Hh & Hf).
    cbn zeta in *. rewrite Hc, Hs. subst c1. cbn [saveConfig set_config config saved].
    split; [done|]. split.
    { intros k Hk. by rewrite !lookup_insert_ne by done. }
    split; [done|]. split; [done|].
    intros dts0 file0 [= <-] [= <-] _. rewrite lookup_insert_eq. done.
  - cbn [fst snd set_config config saved log].
    split; [done|]. split.
    { intros k Hk. by rewrite lookup_insert_ne by done. }
    split; [done|]. split.
    { intros _ _. by rewrite lookup_insert_eq. }
    intros dts0 file0 _ Hf Hne. rewrite Hf in Et. by destruct file0.
Qed.
